(** * Spring Boot migration scanner: a shallow embedding of
      [scan_migration_issues.py] and the properties of its scanners.

    Text is modelled as the Python [str] is: a sequence of Unicode code
    points ([string], with the characters in [N]).  String literals are read
    as UTF-8.  The two character classes the scanner relies on are the
    Unicode ones: the decimal digits of [\d] and the white space that
    [str.strip] removes (Unicode 14.0, as in Python 3.11).

    Python integers are [Z]; line numbers start at 1 and 0 marks a
    file-level issue.

    The file system is taken as the scanner finds it: every existence test
    answers, and writing to standard output succeeds. *)

From Stdlib Require Import ZArith NArith List Bool Lia Permutation.
From Stdlib Require Strings.Byte.
Import ListNotations.

(** ** Text *)

(** A character: a Unicode code point. *)
Definition char := N.

(** A Python [str]. *)
Inductive string :=
| EmptyString
| String (c : char) (s : string).

(** UTF-8, for the string literals of this file. *)
Module Utf8.

Local Open Scope N_scope.

(** The six payload bits of a continuation byte. *)
Definition cont (b : Byte.byte) : N := Byte.to_N b - 128.

Fixpoint decode (bs : list Byte.byte) : string :=
  match bs with
  | [] => EmptyString
  | b0 :: r0 =>
      let n0 := Byte.to_N b0 in
      if n0 <? 128 then String n0 (decode r0)
      else if n0 <? 224 then
        match r0 with
        | b1 :: r1 => String ((n0 - 192) * 64 + cont b1) (decode r1)
        | [] => String n0 EmptyString
        end
      else if n0 <? 240 then
        match r0 with
        | b1 :: b2 :: r2 =>
            String (((n0 - 224) * 64 + cont b1) * 64 + cont b2) (decode r2)
        | _ => String n0 (decode r0)
        end
      else
        match r0 with
        | b1 :: b2 :: b3 :: r3 =>
            String ((((n0 - 240) * 64 + cont b1) * 64 + cont b2) * 64 + cont b3)
                   (decode r3)
        | _ => String n0 (decode r0)
        end
  end.

Definition byte_of (n : N) : Byte.byte :=
  match Byte.of_N n with
  | Some b => b
  | None => Byte.x3f
  end.

Definition encode_char (c : char) : list Byte.byte :=
  if c <? 128 then [byte_of c]
  else if c <? 2048 then [byte_of (192 + c / 64); byte_of (128 + c mod 64)]
  else if c <? 65536 then
    [byte_of (224 + c / 4096); byte_of (128 + (c / 64) mod 64);
     byte_of (128 + c mod 64)]
  else
    [byte_of (240 + c / 262144); byte_of (128 + (c / 4096) mod 64);
     byte_of (128 + (c / 64) mod 64); byte_of (128 + c mod 64)].

Fixpoint encode (s : string) : list Byte.byte :=
  match s with
  | EmptyString => []
  | String c s' => encode_char c ++ encode s'
  end.

End Utf8.

Declare Scope str_scope.
Delimit Scope str_scope with str.
Bind Scope str_scope with string.
String Notation string Utf8.decode Utf8.encode : str_scope.

Local Open Scope str_scope.
Local Open Scope Z_scope.

(** Is [c] in one of the ranges, each given by its first and last code
    point? *)
Definition in_ranges (ranges : list (N * N)) (c : char) : bool :=
  existsb (fun '(first, last) => (first <=? c) && (c <=? last))%N ranges.

(** ** Strings as Python uses them *)

Module Str.

(** [a + b]. *)
Fixpoint append (a b : string) : string :=
  match a with
  | "" => b
  | String c a' => String c (append a' b)
  end.

Local Infix "++" := append (right associativity, at level 60) : str_scope.

(** [len(s)]. *)
Fixpoint length (s : string) : nat :=
  match s with
  | "" => O
  | String _ s' => S (length s')
  end.

(** [a == b]. *)
Fixpoint eqb (a b : string) : bool :=
  match a, b with
  | "", "" => true
  | String c a', String d b' => (c =? d)%N && eqb a' b'
  | _, _ => false
  end.

(** [a <= b], the order [sorted] uses: by code points, a prefix first. *)
Fixpoint leb (a b : string) : bool :=
  match a, b with
  | "", _ => true
  | String _ _, "" => false
  | String c a', String d b' =>
      if (c <? d)%N then true
      else if (c =? d)%N then leb a' b'
      else false
  end.

(** Is [p] a prefix of [s]? *)
Fixpoint prefix (p s : string) : bool :=
  match p, s with
  | "", _ => true
  | String a p', String b s' => (a =? b)%N && prefix p' s'
  | String _ _, "" => false
  end.

(** [s[n:n+m]]. *)
Fixpoint substring (n m : nat) (s : string) : string :=
  match n, m, s with
  | O, O, _ => ""
  | O, S m', "" => ""
  | O, S m', String c s' => String c (substring O m' s')
  | S n', _, "" => ""
  | S n', _, String _ s' => substring n' m s'
  end.

(** [sep.join(ls)]. *)
Fixpoint concat (sep : string) (ls : list string) : string :=
  match ls with
  | [] => ""
  | [x] => x
  | x :: xs => x ++ sep ++ concat sep xs
  end.

(** The newline character, written [\n] in the source. *)
Definition nl : string := String 10%N "".

(** [pat in s]. *)
Fixpoint contains (pat s : string) : bool :=
  prefix pat s
  || match s with
     | "" => false
     | String _ s' => contains pat s'
     end.

(** [s.startswith(p)]. *)
Definition startswith (s p : string) : bool := prefix p s.

(** The white space of Unicode: the characters [str.isspace] accepts and
    [str.strip] removes. *)
Definition whitespace : list (N * N) :=
  [ (0x9, 0xd); (0x1c, 0x20); (0x85, 0x85); (0xa0, 0xa0); (0x1680, 0x1680);
    (0x2000, 0x200a); (0x2028, 0x2029); (0x202f, 0x202f); (0x205f, 0x205f);
    (0x3000, 0x3000) ]%N.

Definition isspace (c : char) : bool := in_ranges whitespace c.

Fixpoint lstrip (s : string) : string :=
  match s with
  | "" => ""
  | String c s' => if isspace c then lstrip s' else s
  end.

Fixpoint rstrip (s : string) : string :=
  match s with
  | "" => ""
  | String c s' =>
      match rstrip s' with
      | "" => if isspace c then "" else String c ""
      | r => String c r
      end
  end.

(** [s.strip()]. *)
Definition strip (s : string) : string := rstrip (lstrip s).

(** [s.split('\n')]: never empty, the pieces hold no newline. *)
Fixpoint split_nl (s : string) : list string :=
  match s with
  | "" => [""]
  | String c s' =>
      if (c =? 10)%N then "" :: split_nl s'
      else match split_nl s' with
           | [] => [String c ""]
           | l :: ls => String c l :: ls
           end
  end.

(** ['\n'.join(ls)] and [''.join(ls)]. *)
Definition join_nl (ls : list string) : string := concat nl ls.
Definition join_empty (ls : list string) : string := concat "" ls.

(** The text after the prefix [p] of [s], when [s] starts with [p]. *)
Fixpoint strip_prefix (p s : string) : option string :=
  match p, s with
  | "", _ => Some s
  | String a p', String b s' => if (a =? b)%N then strip_prefix p' s' else None
  | String _ _, "" => None
  end.

Fixpoint take_while (f : char -> bool) (s : string) : string :=
  match s with
  | "" => ""
  | String c s' => if f c then String c (take_while f s') else ""
  end.

Fixpoint all_chars (f : char -> bool) (s : string) : bool :=
  match s with
  | "" => true
  | String c s' => f c && all_chars f s'
  end.

(** Does [s] begin with a character accepted by [f]? *)
Definition starts_with_char (f : char -> bool) (s : string) : bool :=
  match s with
  | "" => false
  | String c _ => f c
  end.

(** The digits of a number in base ten. *)
Fixpoint of_uint (d : Decimal.uint) : string :=
  match d with
  | Decimal.Nil => ""
  | Decimal.D0 d => String 48%N (of_uint d)
  | Decimal.D1 d => String 49%N (of_uint d)
  | Decimal.D2 d => String 50%N (of_uint d)
  | Decimal.D3 d => String 51%N (of_uint d)
  | Decimal.D4 d => String 52%N (of_uint d)
  | Decimal.D5 d => String 53%N (of_uint d)
  | Decimal.D6 d => String 54%N (of_uint d)
  | Decimal.D7 d => String 55%N (of_uint d)
  | Decimal.D8 d => String 56%N (of_uint d)
  | Decimal.D9 d => String 57%N (of_uint d)
  end.

(** [str(n)] for a Python integer. *)
Definition of_Z (n : Z) : string :=
  match Z.to_int n with
  | Decimal.Pos d => of_uint d
  | Decimal.Neg d => String 45%N (of_uint d)
  end.

End Str.

Infix "++" := Str.append (right associativity, at level 60) : str_scope.
Infix "=?" := Str.eqb (at level 70) : str_scope.

(** ** The version pattern *)

(** The decimal digits of Unicode (category Nd), which [\d] matches in a
    [str] pattern: the ASCII digits and those of the other scripts. *)
Definition decimal_digits : list (N * N) :=
  [(0x30, 0x39); (0x660, 0x669); (0x6f0, 0x6f9); (0x7c0, 0x7c9);
    (0x966, 0x96f); (0x9e6, 0x9ef); (0xa66, 0xa6f); (0xae6, 0xaef);
    (0xb66, 0xb6f); (0xbe6, 0xbef); (0xc66, 0xc6f); (0xce6, 0xcef);
    (0xd66, 0xd6f); (0xde6, 0xdef); (0xe50, 0xe59); (0xed0, 0xed9);
    (0xf20, 0xf29); (0x1040, 0x1049); (0x1090, 0x1099); (0x17e0, 0x17e9);
    (0x1810, 0x1819); (0x1946, 0x194f); (0x19d0, 0x19d9); (0x1a80, 0x1a89);
    (0x1a90, 0x1a99); (0x1b50, 0x1b59); (0x1bb0, 0x1bb9); (0x1c40, 0x1c49);
    (0x1c50, 0x1c59); (0xa620, 0xa629); (0xa8d0, 0xa8d9); (0xa900, 0xa909);
    (0xa9d0, 0xa9d9); (0xa9f0, 0xa9f9); (0xaa50, 0xaa59); (0xabf0, 0xabf9);
    (0xff10, 0xff19); (0x104a0, 0x104a9); (0x10d30, 0x10d39);
    (0x11066, 0x1106f); (0x110f0, 0x110f9); (0x11136, 0x1113f);
    (0x111d0, 0x111d9); (0x112f0, 0x112f9); (0x11450, 0x11459);
    (0x114d0, 0x114d9); (0x11650, 0x11659); (0x116c0, 0x116c9);
    (0x11730, 0x11739); (0x118e0, 0x118e9); (0x11950, 0x11959);
    (0x11c50, 0x11c59); (0x11d50, 0x11d59); (0x11da0, 0x11da9);
    (0x16a60, 0x16a69); (0x16ac0, 0x16ac9); (0x16b50, 0x16b59);
    (0x1d7ce, 0x1d7ff); (0x1e140, 0x1e149); (0x1e2f0, 0x1e2f9);
    (0x1e950, 0x1e959); (0x1fbf0, 0x1fbf9) ]%N.

(** [\d]. *)
Definition is_digit (c : char) : bool := in_ranges decimal_digits c.

(** The character class [[\d.]]. *)
Definition is_version_char (c : char) : bool :=
  is_digit c || (c =? 46)%N.

(** An attempt of the pattern [tag([\d.]+)] at the start of [s]: the tag text
    literally, then the longest non-empty run of the class; the run is
    group 1. *)
Definition match_at (tag s : string) : option string :=
  match Str.strip_prefix tag s with
  | Some r =>
      match Str.take_while is_version_char r with
      | "" => None
      | v => Some v
      end
  | None => None
  end.

(** [re.search(tag([\d.]+), s)] followed by [.group(1)]: the leftmost
    position where the pattern matches. *)
Fixpoint re_search (tag s : string) : option string :=
  match match_at tag s with
  | Some v => Some v
  | None =>
      match s with
      | "" => None
      | String _ s' => re_search tag s'
      end
  end.

(** ** Data model *)

(** [class Issue]. *)
Record Issue := mkIssue {
  category : string;
  severity : string;  (* CRITICAL, WARNING, INFO *)
  file_path : string;
  line_number : Z;
  issue : string;
  suggestion : string
}.

(** [class ScanResult]; the defaults of the dataclass are in [new_ScanResult]. *)
Record ScanResult := mkScanResult {
  spring_boot_version : string;
  spring_modulith_version : string;
  testcontainers_version : string;
  issues : list Issue
}.

Definition Unknown : string := "Unknown".

Definition new_ScanResult : ScanResult := mkScanResult Unknown Unknown Unknown [].

(** The three version attributes of [ScanResult]. *)
Inductive version_field := SpringBoot | SpringModulith | Testcontainers.

Definition version_field_eqb (a b : version_field) : bool :=
  match a, b with
  | SpringBoot, SpringBoot | SpringModulith, SpringModulith
  | Testcontainers, Testcontainers => true
  | _, _ => false
  end.

Definition get_version (f : version_field) (r : ScanResult) : string :=
  match f with
  | SpringBoot => spring_boot_version r
  | SpringModulith => spring_modulith_version r
  | Testcontainers => testcontainers_version r
  end.

Definition assign_version (f : version_field) (v : string) (r : ScanResult) : ScanResult :=
  match f with
  | SpringBoot =>
      mkScanResult v (spring_modulith_version r) (testcontainers_version r) (issues r)
  | SpringModulith =>
      mkScanResult (spring_boot_version r) v (testcontainers_version r) (issues r)
  | Testcontainers =>
      mkScanResult (spring_boot_version r) (spring_modulith_version r) v (issues r)
  end.

Definition append_issue (i : Issue) (r : ScanResult) : ScanResult :=
  mkScanResult (spring_boot_version r) (spring_modulith_version r)
               (testcontainers_version r) (issues r ++ [i]).

(** ** The scanner's state and effects

    A scanner owns one [ScanResult] ([self.result]) and writes to standard
    output.  [writes] is a ghost log: each assignment to a version attribute
    leaves an entry, in program order. *)
Record State := mkState {
  result : ScanResult;
  stdout : list string;
  writes : list (version_field * string)
}.

Definition initial_state : State := mkState new_ScanResult [] [].

(** What a method call ends with: it returns, or an exception leaves it.
    The state reached so far survives in both cases. *)
Inductive outcome (A : Type) :=
| Returned (a : A) (s : State)
| Raised (e : string) (s : State).
Arguments Returned {A} a s.
Arguments Raised {A} e s.

Definition state_of {A} (o : outcome A) : State :=
  match o with
  | Returned _ s => s
  | Raised _ s => s
  end.

Definition M (A : Type) : Type := State -> outcome A.

Definition ret {A} (a : A) : M A := fun s => Returned a s.

Definition bind {A B} (m : M A) (k : A -> M B) : M B :=
  fun s =>
    match m s with
    | Returned a s' => k a s'
    | Raised e s' => Raised e s'
    end.

Declare Scope scan_scope.
Delimit Scope scan_scope with scan.
Notation "x <- m ;; k" := (bind m (fun x => k))
  (at level 61, m at next level, right associativity) : scan_scope.
Notation "m ;; k" := (bind m (fun _ => k))
  (at level 61, right associativity) : scan_scope.
Local Open Scope scan_scope.

Definition raise {A} (e : string) : M A := fun s => Raised e s.

(** [try: body except Exception as e: handler(e)]. *)
Definition try_except {A} (body : M A) (handler : string -> M A) : M A :=
  fun s =>
    match body s with
    | Returned a s' => Returned a s'
    | Raised e s' => handler e s'
    end.

(** [print(line)]. *)
Definition print (line : string) : M unit :=
  fun s => Returned tt (mkState (result s) (stdout s ++ [line]) (writes s)).

(** [self.result.add_issue(...)]. *)
Definition add_issue (cat sev path : string) (ln : Z) (what sug : string) : M unit :=
  fun s =>
    Returned tt (mkState (append_issue (mkIssue cat sev path ln what sug) (result s))
                         (stdout s) (writes s)).

(** An assignment [self.result.<field> = v]. *)
Definition set_version (f : version_field) (v : string) : M unit :=
  fun s =>
    Returned tt (mkState (assign_version f v (result s)) (stdout s)
                         (writes s ++ [(f, v)])).

(** Reading [self.result]. *)
Definition get_result : M ScanResult := fun s => Returned (result s) s.

(** [if c: body]. *)
Definition when (c : bool) (body : M unit) : M unit :=
  if c then body else ret tt.

(** [for x in xs: body(x)]. *)
Fixpoint for_ {A} (xs : list A) (body : A -> M unit) : M unit :=
  match xs with
  | [] => ret tt
  | x :: xs' => body x ;; for_ xs' body
  end.

(** [enumerate(xs, start)]. *)
Fixpoint enumerate {A} (xs : list A) (start : Z) : list (Z * A) :=
  match xs with
  | [] => []
  | x :: xs' => (start, x) :: enumerate xs' (start + 1)
  end.

(** [len(xs)]. *)
Definition len {A} (xs : list A) : Z := Z.of_nat (List.length xs).

(** [xs[a:b]] for bounds that are not negative. *)
Definition slice {A} (xs : list A) (a b : Z) : list A :=
  firstn (Z.to_nat (b - a)) (skipn (Z.to_nat a) xs).

(** ** The project on disk *)

(** What [open(...)] followed by a read gives: the text, or an exception
    (permission, encoding, I/O) with its message. *)
Inductive read (A : Type) :=
| Content (a : A)
| Unreadable (e : string).
Arguments Content {A} a.
Arguments Unreadable {A} e.

(** A file found by [rglob("*.java")]: [str(file_path)], the path relative
    to the project and what [readlines()] gives. *)
Record JavaFile := mkJavaFile {
  java_path : string;
  java_rel_path : string;
  java_lines : read (list string)
}.

(** One of the two configuration files: [str(file_path)], and what
    [readlines()] gives. *)
Record ConfigFile := mkConfigFile {
  config_path : string;
  config_lines : read (list string)
}.

(** The part of the file system the scanner looks at.  [pom] is [None] when
    [pom.xml] does not exist; [migration] is [None] when the migration
    directory does not exist, [Some None] when it exists without [__root],
    and [Some (Some names)] lists the entries of [__root]. *)
Record Project := mkProject {
  project_path : string;
  pom_path : string;  (* str(project_path / "pom.xml") *)
  pom : option (read string);
  java_files : list JavaFile;
  application_properties : option ConfigFile;
  application_yml : option ConfigFile;
  migration : option (option (list string))
}.

Definition open_read {A} (f : read A) : M A :=
  fun s =>
    match f with
    | Content a => Returned a s
    | Unreadable e => Raised e s
    end.

(** ** [MigrationScanner._scan_pom] *)

Definition version_tag (f : version_field) : string :=
  match f with
  | SpringBoot => "<spring-boot.version>"
  | SpringModulith => "<spring-modulith.version>"
  | Testcontainers => "<testcontainers.version>"
  end.

(** [m = re.search(...); if m: self.result.<field> = m.group(1)]. *)
Definition extract_version (f : version_field) (content : string) : M unit :=
  match re_search (version_tag f) content with
  | Some v => set_version f v
  | None => ret tt
  end.

Definition old_starters : list (string * string) :=
  [ ("spring-boot-starter-web", "spring-boot-starter-webmvc");
    ("spring-boot-starter-aop", "spring-boot-starter-aspectj") ].

Definition tc_old_artifacts : list string :=
  [ "junit-jupiter"; "postgresql"; "mysql"; "localstack"; "mongodb" ].

Definition artifact_tag (a : string) : string :=
  "<artifactId>" ++ a ++ "</artifactId>".

(** ['\n'.join(lines[max(0, i-3):min(len(lines), i+2)])]. *)
Definition context (lines : list string) (i : Z) : string :=
  Str.join_nl (slice lines (Z.max 0 (i - 3)) (Z.min (len lines) (i + 2))).

Definition scan_old_starters (pom_path : string) (lines : list string) : M unit :=
  for_ (enumerate lines 1) (fun '(i, line) =>
    for_ old_starters (fun '(old, new) =>
      when (Str.contains (artifact_tag old) line)
        (add_issue "Spring Boot 4 - Dependencies" "CRITICAL" pom_path i
           ("Old starter: " ++ old)
           ("Change to: " ++ new
              ++ " (or use spring-boot-starter-classic for gradual migration)")))).

Definition scan_security_test (pom_path : string) (lines : list string) : M unit :=
  for_ (enumerate lines 1) (fun '(i, line) =>
    when (Str.contains "<artifactId>spring-security-test</artifactId>" line)
      (when (Str.contains "<groupId>org.springframework.security</groupId>"
                          (context lines i))
         (add_issue "Spring Boot 4 - Dependencies" "CRITICAL" pom_path i
            "Old spring-security-test dependency"
            "Change to: spring-boot-starter-security-test"))).

Definition scan_tc_artifacts (pom_path : string) (lines : list string) : M unit :=
  for_ (enumerate lines 1) (fun '(i, line) =>
    for_ tc_old_artifacts (fun artifact =>
      when (Str.contains (artifact_tag artifact) line)
        (when (Str.contains "<groupId>org.testcontainers</groupId>"
                            (context lines i))
           (add_issue "Testcontainers 2.x - Dependencies" "WARNING" pom_path i
              ("Old Testcontainers artifact: " ++ artifact)
              ("Change to: testcontainers-" ++ artifact))))).

Definition _scan_pom (pom_path : string) (file : read string) : M unit :=
  print (Str.nl ++ "📦 Scanning pom.xml...") ;;
  content <- open_read file ;;
  let lines := Str.split_nl content in
  extract_version SpringBoot content ;;
  extract_version SpringModulith content ;;
  extract_version Testcontainers content ;;
  r <- get_result ;;
  print ("   Spring Boot: " ++ spring_boot_version r) ;;
  print ("   Spring Modulith: " ++ spring_modulith_version r) ;;
  print ("   Testcontainers: " ++ testcontainers_version r) ;;
  scan_old_starters pom_path lines ;;
  scan_security_test pom_path lines ;;
  scan_tc_artifacts pom_path lines.

(** ** [MigrationScanner._scan_java_file] *)

Definition test_annotation_patterns : list (string * string) :=
  [ ("@MockBean", "@MockitoBean"); ("@SpyBean", "@MockitoSpyBean") ].

Definition old_imports : list (string * string) :=
  [ ("org.springframework.boot.test.mock.mockito.MockBean",
     "org.springframework.boot.test.mock.mockito.MockitoBean");
    ("org.springframework.boot.test.mock.mockito.SpyBean",
     "org.springframework.boot.test.mock.mockito.MockitoSpyBean");
    ("org.springframework.boot.test.autoconfigure.web.servlet.WebMvcTest",
     "org.springframework.boot.webmvc.test.autoconfigure.WebMvcTest");
    ("org.springframework.boot.autoconfigure.domain.EntityScan",
     "org.springframework.boot.persistence.autoconfigure.EntityScan");
    ("org.springframework.boot.BootstrapRegistry",
     "org.springframework.boot.bootstrap.BootstrapRegistry");
    ("org.springframework.boot.BootstrapContext",
     "org.springframework.boot.bootstrap.BootstrapContext") ].

Definition tc_old_imports : list (string * string) :=
  [ ("org.testcontainers.containers.PostgreSQLContainer",
     "org.testcontainers.postgresql.PostgreSQLContainer");
    ("org.testcontainers.containers.MySQLContainer",
     "org.testcontainers.mysql.MySQLContainer");
    ("org.testcontainers.containers.MongoDBContainer",
     "org.testcontainers.mongodb.MongoDBContainer");
    ("org.testcontainers.containers.localstack.LocalStackContainer",
     "org.testcontainers.localstack.LocalStackContainer") ].

Definition jackson2_classes : list (string * string) :=
  [ ("Jackson2ObjectMapperBuilderCustomizer", "JsonMapperBuilderCustomizer");
    ("@JsonComponent", "@JacksonComponent") ].

(** [not line.strip().startswith('//')]. *)
Definition not_line_comment (line : string) : bool :=
  negb (Str.startswith (Str.strip line) "//").

Definition scan_test_annotations (rel_path : string) (lines : list string) : M unit :=
  for_ (enumerate lines 1) (fun '(i, line) =>
    for_ test_annotation_patterns (fun '(old, new) =>
      when (Str.contains old line && not_line_comment line)
        (add_issue "Spring Boot 4 - Test Annotations" "CRITICAL" rel_path i
           ("Old test annotation: " ++ old) ("Change to: " ++ new)))).

Definition scan_old_imports (rel_path : string) (lines : list string) : M unit :=
  for_ (enumerate lines 1) (fun '(i, line) =>
    for_ old_imports (fun '(old_import, new_import) =>
      when (Str.contains ("import " ++ old_import) line)
        (add_issue "Spring Boot 4 - Package Relocations" "CRITICAL" rel_path i
           ("Old import: " ++ old_import) ("Change to: " ++ new_import)))).

Definition scan_tc_old_imports (rel_path : string) (lines : list string) : M unit :=
  for_ (enumerate lines 1) (fun '(i, line) =>
    for_ tc_old_imports (fun '(old_import, new_import) =>
      when (Str.contains ("import " ++ old_import) line)
        (add_issue "Testcontainers 2.x - Package Changes" "CRITICAL" rel_path i
           ("Old Testcontainers import: " ++ old_import)
           ("Change to: " ++ new_import)))).

Definition scan_localstack_service (rel_path content : string) (lines : list string)
  : M unit :=
  when (Str.contains "LocalStackContainer.Service" content)
    (for_ (enumerate lines 1) (fun '(i, line) =>
       when (Str.contains "LocalStackContainer.Service" line)
         (add_issue "Testcontainers 2.x - API Changes" "CRITICAL" rel_path i
            "LocalStackContainer.Service enum removed"
            "Remove .withServices() - services are now auto-detected"))).

Definition scan_resilience (rel_path content : string) (lines : list string) : M unit :=
  when (Str.contains "org.springframework.resilience" content)
    (for_ (enumerate lines 1) (fun '(i, line) =>
       when (Str.contains "org.springframework.resilience" line)
         (add_issue "Spring Boot 4 - Retry/Resilience" "INFO" rel_path i
            "Using org.springframework.resilience annotations"
            "Ensure AOP support; if using Spring Retry directly, use org.springframework.retry + explicit version"))).

Definition scan_retryable (rel_path content : string) (lines : list string) : M unit :=
  when (Str.contains "@Retryable" content)
    (for_ (enumerate lines 1) (fun '(i, line) =>
       when (Str.contains "@Retryable" line && not_line_comment line)
         (add_issue "Spring Boot 4 - Spring Retry" "INFO" rel_path i
            "Using @Retryable"
            "Ensure spring-retry dependency with explicit version + spring-boot-starter-aspectj"))).

Definition scan_jackson2 (rel_path : string) (lines : list string) : M unit :=
  for_ (enumerate lines 1) (fun '(i, line) =>
    for_ jackson2_classes (fun '(old_class, new_class) =>
      when (Str.contains old_class line && not_line_comment line)
        (add_issue "Spring Boot 4 - Jackson 3" "CRITICAL" rel_path i
           ("Old Jackson 2 class: " ++ old_class)
           ("Change to Jackson 3: " ++ new_class)))).

Definition scan_generic_containers (rel_path content : string) (lines : list string)
  : M unit :=
  when (Str.contains "PostgreSQLContainer<?>" content
        || Str.contains "MySQLContainer<?>" content)
    (for_ (enumerate lines 1) (fun '(i, line) =>
       when (Str.contains "PostgreSQLContainer<?>" line
             || Str.contains "MySQLContainer<?>" line)
         (add_issue "Testcontainers 2.x - Generic Types" "WARNING" rel_path i
            "Generic type in Testcontainers container"
            "Remove generic type: PostgreSQLContainer<?> → PostgreSQLContainer"))).

Definition scan_endpoint_override (rel_path content : string) (lines : list string)
  : M unit :=
  when (Str.contains "getEndpointOverride(" content)
    (for_ (enumerate lines 1) (fun '(i, line) =>
       when (Str.contains "getEndpointOverride(" line && Str.contains "Service" line)
         (add_issue "Testcontainers 2.x - LocalStack API" "CRITICAL" rel_path i
            "getEndpointOverride(Service) deprecated"
            "Change to: getEndpoint()"))).

(** The checks of [_scan_java_file] on the lines read, in source order. *)
Definition scan_java_lines (rel_path : string) (lines : list string) : M unit :=
  let content := Str.join_empty lines in
  scan_test_annotations rel_path lines ;;
  scan_old_imports rel_path lines ;;
  scan_tc_old_imports rel_path lines ;;
  scan_localstack_service rel_path content lines ;;
  scan_resilience rel_path content lines ;;
  scan_retryable rel_path content lines ;;
  scan_jackson2 rel_path lines ;;
  scan_generic_containers rel_path content lines ;;
  scan_endpoint_override rel_path content lines.

(** The [try ... except Exception] around the read: on failure the error is
    printed and the method returns. *)
Definition read_lines_or_report (path : string) (file : read (list string))
  : M (option (list string)) :=
  try_except (lines <- open_read file ;; ret (Some lines))
             (fun e => print ("   Error reading " ++ path ++ ": " ++ e) ;; ret None).

Definition _scan_java_file (f : JavaFile) : M unit :=
  r <- read_lines_or_report (java_path f) (java_lines f) ;;
  match r with
  | None => ret tt
  | Some lines => scan_java_lines (java_rel_path f) lines
  end.

(** ** [MigrationScanner._scan_java_files] *)

Definition _scan_java_files (p : Project) : M unit :=
  print (Str.nl ++ "☕ Scanning Java files...") ;;
  print ("   Found " ++ Str.of_Z (len (java_files p)) ++ " Java files") ;;
  for_ (java_files p) _scan_java_file.

(** ** [MigrationScanner._scan_properties_file] and [_scan_properties] *)

Definition old_jackson_props : list string :=
  [ "spring.jackson.read."; "spring.jackson.write." ].

Definition application_properties_rel : string :=
  "src/main/resources/application.properties".
Definition application_yml_rel : string :=
  "src/main/resources/application.yml".

Definition modulith_schema_key : string := "spring.modulith.events.jdbc.schema".

(** [self.result.spring_modulith_version != "Unknown"]. *)
Definition modulith_detected (r : ScanResult) : bool :=
  negb (spring_modulith_version r =? Unknown)%str.

Definition scan_config_lines (rel_path : string) (lines : list string) : M unit :=
  let content := Str.join_empty lines in
  for_ (enumerate lines 1) (fun '(i, line) =>
    for_ old_jackson_props (fun old_prop =>
      when (Str.contains old_prop line
            && negb (Str.startswith (Str.strip line) "#"))
        (add_issue "Spring Boot 4 - Configuration" "WARNING" rel_path i
           ("Old Jackson property: " ++ Str.strip line)
           "Change spring.jackson.* to spring.jackson.json.*"))) ;;
  let has_modulith_jdbc := Str.contains modulith_schema_key content in
  r <- get_result ;;
  when (modulith_detected r && negb has_modulith_jdbc)
    (add_issue "Spring Modulith 2.0 - Configuration" "CRITICAL" rel_path 0
       "Missing Spring Modulith event store configuration"
       "Add: spring.modulith.events.jdbc.schema=events").

Definition _scan_properties_file (rel_path : string) (f : ConfigFile) : M unit :=
  r <- read_lines_or_report (config_path f) (config_lines f) ;;
  match r with
  | None => ret tt
  | Some lines => scan_config_lines rel_path lines
  end.

(** The two well-known paths with what is found there. *)
Definition props_paths (p : Project) : list (string * option ConfigFile) :=
  [ (application_properties_rel, application_properties p);
    (application_yml_rel, application_yml p) ].

Definition _scan_properties (p : Project) : M unit :=
  print (Str.nl ++ "⚙️  Scanning application.properties...") ;;
  for_ (props_paths p) (fun '(rel_path, found) =>
    match found with
    | Some f => _scan_properties_file rel_path f   (* props_path.exists() *)
    | None => ret tt
    end).

(** ** [MigrationScanner._scan_flyway_migrations] *)

(** The text before the suffix [suf] of [s], when [s] ends with [suf]. *)
Definition strip_suffix (suf s : string) : option string :=
  let n := (Str.length s - Str.length suf)%nat in
  if (Str.length suf <=? Str.length s)%nat
     && (Str.substring n (Str.length suf) s =? suf)%str
  then Some (Str.substring 0 n s)
  else None.

(** Does a file name match the glob [V0__*events*.sql]? *)
Definition glob_events_schema (name : string) : bool :=
  match Str.strip_prefix "V0__" name with
  | Some r =>
      match strip_suffix ".sql" r with
      | Some middle => Str.contains "events" middle
      | None => false
      end
  | None => false
  end.

Definition flyway_dir_label : string := "src/main/resources/db/migration/".
Definition flyway_root_label : string := "src/main/resources/db/migration/__root/".

Definition missing_root_issue : Issue :=
  mkIssue "Spring Modulith 2.0 - Database" "CRITICAL" flyway_dir_label 0
          "Missing __root directory for events schema migration"
          "Create: __root/V0__create_events_schema.sql".

Definition missing_events_schema_issue : Issue :=
  mkIssue "Spring Modulith 2.0 - Database" "CRITICAL" flyway_root_label 0
          "Missing events schema migration"
          "Create: V0__create_events_schema.sql with 'CREATE SCHEMA events;'".

Definition _scan_flyway_migrations (p : Project) : M unit :=
  print (Str.nl ++ "🗄️  Scanning Flyway migrations...") ;;
  match migration p with
  | None =>                                  (* not migration_dir.exists() *)
      print "   No Flyway migrations found"
  | Some (Some names) =>                     (* root_migrations.exists() *)
      let events_schema_files := filter glob_events_schema names in
      r <- get_result ;;
      when (match events_schema_files with [] => true | _ => false end
            && modulith_detected r)
        (add_issue "Spring Modulith 2.0 - Database" "CRITICAL" flyway_root_label 0
           "Missing events schema migration"
           "Create: V0__create_events_schema.sql with 'CREATE SCHEMA events;'")
  | Some None =>
      r <- get_result ;;
      when (modulith_detected r)
        (add_issue "Spring Modulith 2.0 - Database" "CRITICAL" flyway_dir_label 0
           "Missing __root directory for events schema migration"
           "Create: __root/V0__create_events_schema.sql")
  end.

(** ** [MigrationScanner.scan] *)

Definition rule80 (c : string) : string :=
  Str.concat "" (repeat c 80).

Definition scan (p : Project) : M ScanResult :=
  print ("Scanning project: " ++ project_path p) ;;
  print (rule80 "=") ;;
  match pom p with
  | Some file => _scan_pom (pom_path p) file         (* pom_path.exists() *)
  | None => print "⚠️  Warning: pom.xml not found (Maven project expected)"
  end ;;
  _scan_java_files p ;;
  _scan_properties p ;;
  _scan_flyway_migrations p ;;
  get_result.

(** ** [MigrationScanner.print_report] *)

(** The key of a group, [f"{issue.category} - {issue.severity}"]. *)
Definition group_key (i : Issue) : string :=
  category i ++ " - " ++ severity i.

(** The dict [issues_by_category], in insertion order. *)
Definition groups := list (string * list Issue).

Fixpoint dict_get (key : string) (d : groups) : option (list Issue) :=
  match d with
  | [] => None
  | (k, v) :: d' => if (k =? key)%str then Some v else dict_get key d'
  end.

(** [if key not in d: d[key] = []] then [d[key].append(i)]. *)
Fixpoint dict_append (key : string) (i : Issue) (d : groups) : groups :=
  match d with
  | [] => [(key, [i])]
  | (k, v) :: d' =>
      if (k =? key)%str then (k, (v ++ [i])%list) :: d'
      else (k, v) :: dict_append key i d'
  end.

Definition issues_by_category (all : list Issue) : groups :=
  fold_left (fun d i => dict_append (group_key i) i d) all [].

(** [sorted(keys)]: strings in code point order. *)
Fixpoint insert_sorted (k : string) (l : list string) : list string :=
  match l with
  | [] => [k]
  | x :: r => if Str.leb k x then k :: l else x :: insert_sorted k r
  end.

Definition sorted (l : list string) : list string :=
  fold_right insert_sorted [] l.

(** [s.rsplit(sep, 1)] when [sep] occurs in [s]: the text before and after
    the last occurrence. *)
Fixpoint rsplit1 (sep s : string) : option (string * string) :=
  match s with
  | "" => None
  | String c s' =>
      match rsplit1 sep s' with
      | Some (a, b) => Some (String c a, b)
      | None =>
          match Str.strip_prefix sep s with
          | Some r => Some ("", r)
          | None => None
          end
      end
  end.

(** The dict [severity_icon]. *)
Definition severity_icon (sev : string) : option string :=
  if (sev =? "CRITICAL")%str then Some "🔴"
  else if (sev =? "WARNING")%str then Some "🟡"
  else if (sev =? "INFO")%str then Some "ℹ️"
  else None.

(** [sum(1 for i in all if i.severity == sev)]. *)
Definition count_severity (sev : string) (all : list Issue) : Z :=
  fold_left Z.add
    (map (fun _ => 1) (filter (fun i => (severity i =? sev)%str) all)) 0.

(** A subscript [d[k]] raises [KeyError] on a missing key. *)
Definition subscript {A} (found : option A) (key : string) : M A :=
  match found with
  | Some a => ret a
  | None => raise ("KeyError: " ++ key)
  end.

Definition print_issue (i : Issue) : M unit :=
  print (Str.nl ++ "  File: " ++ file_path i ++ ":" ++ Str.of_Z (line_number i)) ;;
  print ("  Issue: " ++ issue i) ;;
  print ("  Fix: " ++ suggestion i).

Definition print_group (d : groups) (category_severity : string) : M unit :=
  members <- subscript (dict_get category_severity d) category_severity ;;
  cs <- match rsplit1 " - " category_severity with
        | Some cs => ret cs
        | None => raise "ValueError: not enough values to unpack"
        end ;;
  let '(cat, sev) := cs in
  icon <- subscript (severity_icon sev) sev ;;
  print (Str.nl ++ icon ++ " " ++ cat ++ " (" ++ Str.of_Z (len members) ++ " issues)") ;;
  print (rule80 "-") ;;
  for_ members print_issue.

Definition print_next_steps : M unit :=
  print (Str.nl ++ rule80 "=") ;;
  print (Str.nl ++ "📚 Next Steps:") ;;
  print "   1. Read the relevant migration guides in references/" ;;
  print "   2. Start with CRITICAL issues first" ;;
  print "   3. Apply fixes in phases: Dependencies → Code → Configuration → Testing" ;;
  print "   4. Test thoroughly after each phase" ;;
  print (Str.nl ++ rule80 "=").

Definition print_summary (all : list Issue) : M unit :=
  let critical_count := count_severity "CRITICAL" all in
  let warning_count := count_severity "WARNING" all in
  let info_count := count_severity "INFO" all in
  print (Str.nl ++ "📊 Summary:") ;;
  print ("   🔴 Critical: " ++ Str.of_Z critical_count) ;;
  print ("   🟡 Warnings: " ++ Str.of_Z warning_count) ;;
  print ("   ℹ️  Info: " ++ Str.of_Z info_count) ;;
  print ("   Total: " ++ Str.of_Z (len all)).

Definition print_report : M unit :=
  print Str.nl ;;
  print (rule80 "=") ;;
  print "MIGRATION SCAN REPORT" ;;
  print (rule80 "=") ;;
  r <- get_result ;;
  let issues_by_category := issues_by_category (issues r) in
  match issues r with
  | [] => print (Str.nl ++ "✅ No migration issues found!")
  | _ :: _ =>
      print_summary (issues r) ;;
      for_ (sorted (map fst issues_by_category)) (print_group issues_by_category) ;;
      print_next_steps
  end.

(** [main] once the project path is known to exist. *)
Definition main (p : Project) : M unit :=
  scan p ;;
  print_report.

(** ** Vocabulary of the specification *)

(** The state [s] after more issues and more output lines. *)
Definition extend (s : State) (iss : list Issue) (out : list string) : State :=
  mkState (mkScanResult (spring_boot_version (result s))
                        (spring_modulith_version (result s))
                        (testcontainers_version (result s))
                        (issues (result s) ++ iss))
          (stdout s ++ out) (writes s).

(** The issues a call adds to the result it starts from, and the lines it
    prints. *)
Definition new_issues {A} (m : M A) (s : State) : list Issue :=
  skipn (List.length (issues (result s))) (issues (result (state_of (m s)))).

Definition new_output {A} (m : M A) (s : State) : list string :=
  skipn (List.length (stdout s)) (stdout (state_of (m s))).

(** A call that returns after adding [iss] and printing nothing. *)
Definition adds (m : M unit) (iss : list Issue) : Prop :=
  forall s, m s = Returned tt (extend s iss []).

(** A call that returns after adding issues and printing lines that depend
    on the state only through the modularity-framework version test. *)
Definition emits (m : M unit) (iss : bool -> list Issue) (out : bool -> list string)
  : Prop :=
  forall s,
    m s = Returned tt (extend s (iss (modulith_detected (result s)))
                                (out (modulith_detected (result s)))).

(** What a loop over the numbered lines collects. *)
Definition per_line {A} (lines : list string) (f : Z -> string -> list A) : list A :=
  flat_map (fun '(i, line) => f i line) (enumerate lines 1).

(** The lines numbered [lo] to [hi] (1-based, both included). *)
Definition lines_between (lines : list string) (lo hi : Z) : list string :=
  map snd (filter (fun '(k, _) => (lo <=? k) && (k <=? hi)) (enumerate lines 1)).

(** The window the specification describes: 3 lines before line [i] through
    2 lines after it. *)
Definition spec_context (lines : list string) (i : Z) : string :=
  Str.join_nl (lines_between lines (i - 3) (i + 2)).

(** The issues of a list that name a given path. *)
Definition issues_for (path : string) (l : list Issue) : list Issue :=
  filter (fun i => (file_path i =? path)%str) l.

(** The three severities. *)
Definition valid_severity (i : Issue) : Prop :=
  severity i = "CRITICAL" \/ severity i = "WARNING" \/ severity i = "INFO".

(** File-level issues of severity CRITICAL. *)
Definition critical_file_level (i : Issue) : bool :=
  (severity i =? "CRITICAL")%str && (line_number i =? 0).

(** *** The issues of each check, as lists *)

Definition old_starter_issues (pom_path : string) (lines : list string) : list Issue :=
  per_line lines (fun i line =>
    flat_map (fun '(old, new) =>
      if Str.contains (artifact_tag old) line
      then [mkIssue "Spring Boot 4 - Dependencies" "CRITICAL" pom_path i
              ("Old starter: " ++ old)
              ("Change to: " ++ new
                 ++ " (or use spring-boot-starter-classic for gradual migration)")]
      else []) old_starters).

(** The security-test check with the window left open: [window i] is the
    text searched for the owning group. *)
Definition security_test_issues_in (window : Z -> string) (pom_path : string)
    (lines : list string) : list Issue :=
  per_line lines (fun i line =>
    if Str.contains "<artifactId>spring-security-test</artifactId>" line
    then if Str.contains "<groupId>org.springframework.security</groupId>" (window i)
         then [mkIssue "Spring Boot 4 - Dependencies" "CRITICAL" pom_path i
                 "Old spring-security-test dependency"
                 "Change to: spring-boot-starter-security-test"]
         else []
    else []).

(** The Testcontainers check with the window left open. *)
Definition tc_artifact_issues_in (window : Z -> string) (pom_path : string)
    (lines : list string) : list Issue :=
  per_line lines (fun i line =>
    flat_map (fun artifact =>
      if Str.contains (artifact_tag artifact) line
      then if Str.contains "<groupId>org.testcontainers</groupId>" (window i)
           then [mkIssue "Testcontainers 2.x - Dependencies" "WARNING" pom_path i
                   ("Old Testcontainers artifact: " ++ artifact)
                   ("Change to: testcontainers-" ++ artifact)]
           else []
      else []) tc_old_artifacts).

Definition pom_issues (pom_path : string) (lines : list string) : list Issue :=
  old_starter_issues pom_path lines
  ++ security_test_issues_in (context lines) pom_path lines
  ++ tc_artifact_issues_in (context lines) pom_path lines.

Definition test_annotation_issues (rel_path : string) (lines : list string) : list Issue :=
  per_line lines (fun i line =>
    flat_map (fun '(old, new) =>
      if Str.contains old line && not_line_comment line
      then [mkIssue "Spring Boot 4 - Test Annotations" "CRITICAL" rel_path i
              ("Old test annotation: " ++ old) ("Change to: " ++ new)]
      else []) test_annotation_patterns).

Definition old_import_issues (rel_path : string) (lines : list string) : list Issue :=
  per_line lines (fun i line =>
    flat_map (fun '(old_import, new_import) =>
      if Str.contains ("import " ++ old_import) line
      then [mkIssue "Spring Boot 4 - Package Relocations" "CRITICAL" rel_path i
              ("Old import: " ++ old_import) ("Change to: " ++ new_import)]
      else []) old_imports).

Definition tc_old_import_issues (rel_path : string) (lines : list string) : list Issue :=
  per_line lines (fun i line =>
    flat_map (fun '(old_import, new_import) =>
      if Str.contains ("import " ++ old_import) line
      then [mkIssue "Testcontainers 2.x - Package Changes" "CRITICAL" rel_path i
              ("Old Testcontainers import: " ++ old_import)
              ("Change to: " ++ new_import)]
      else []) tc_old_imports).

(** A check of the shape [if pat in content: for each line: if test: add]. *)
Definition guarded_line_issues (guard : bool) (test : string -> bool)
    (mk : Z -> Issue) (lines : list string) : list Issue :=
  if guard then per_line lines (fun i line => if test line then [mk i] else [])
  else [].

Definition localstack_service_issues (rel_path : string) (lines : list string) :=
  guarded_line_issues
    (Str.contains "LocalStackContainer.Service" (Str.join_empty lines))
    (Str.contains "LocalStackContainer.Service")
    (fun i => mkIssue "Testcontainers 2.x - API Changes" "CRITICAL" rel_path i
                "LocalStackContainer.Service enum removed"
                "Remove .withServices() - services are now auto-detected")
    lines.

Definition resilience_issues (rel_path : string) (lines : list string) :=
  guarded_line_issues
    (Str.contains "org.springframework.resilience" (Str.join_empty lines))
    (Str.contains "org.springframework.resilience")
    (fun i => mkIssue "Spring Boot 4 - Retry/Resilience" "INFO" rel_path i
                "Using org.springframework.resilience annotations"
                "Ensure AOP support; if using Spring Retry directly, use org.springframework.retry + explicit version")
    lines.

Definition retryable_issues (rel_path : string) (lines : list string) :=
  guarded_line_issues
    (Str.contains "@Retryable" (Str.join_empty lines))
    (fun line => Str.contains "@Retryable" line && not_line_comment line)
    (fun i => mkIssue "Spring Boot 4 - Spring Retry" "INFO" rel_path i
                "Using @Retryable"
                "Ensure spring-retry dependency with explicit version + spring-boot-starter-aspectj")
    lines.

Definition jackson2_issues (rel_path : string) (lines : list string) : list Issue :=
  per_line lines (fun i line =>
    flat_map (fun '(old_class, new_class) =>
      if Str.contains old_class line && not_line_comment line
      then [mkIssue "Spring Boot 4 - Jackson 3" "CRITICAL" rel_path i
              ("Old Jackson 2 class: " ++ old_class)
              ("Change to Jackson 3: " ++ new_class)]
      else []) jackson2_classes).

Definition generic_container_issues (rel_path : string) (lines : list string) :=
  guarded_line_issues
    (Str.contains "PostgreSQLContainer<?>" (Str.join_empty lines)
     || Str.contains "MySQLContainer<?>" (Str.join_empty lines))
    (fun line => Str.contains "PostgreSQLContainer<?>" line
                 || Str.contains "MySQLContainer<?>" line)
    (fun i => mkIssue "Testcontainers 2.x - Generic Types" "WARNING" rel_path i
                "Generic type in Testcontainers container"
                "Remove generic type: PostgreSQLContainer<?> → PostgreSQLContainer")
    lines.

Definition endpoint_override_issues (rel_path : string) (lines : list string) :=
  guarded_line_issues
    (Str.contains "getEndpointOverride(" (Str.join_empty lines))
    (fun line => Str.contains "getEndpointOverride(" line && Str.contains "Service" line)
    (fun i => mkIssue "Testcontainers 2.x - LocalStack API" "CRITICAL" rel_path i
                "getEndpointOverride(Service) deprecated"
                "Change to: getEndpoint()")
    lines.

Definition java_lines_issues (rel_path : string) (lines : list string) : list Issue :=
  test_annotation_issues rel_path lines
  ++ old_import_issues rel_path lines
  ++ tc_old_import_issues rel_path lines
  ++ localstack_service_issues rel_path lines
  ++ resilience_issues rel_path lines
  ++ retryable_issues rel_path lines
  ++ jackson2_issues rel_path lines
  ++ generic_container_issues rel_path lines
  ++ endpoint_override_issues rel_path lines.

Definition java_file_issues (f : JavaFile) : list Issue :=
  match java_lines f with
  | Content lines => java_lines_issues (java_rel_path f) lines
  | Unreadable _ => []
  end.

(** The line printed for a file that cannot be read. *)
Definition read_error_line (path : string) {A} (file : read A) : list string :=
  match file with
  | Content _ => []
  | Unreadable e => ["   Error reading " ++ path ++ ": " ++ e]
  end.

Definition java_files_issues (p : Project) : list Issue :=
  flat_map java_file_issues (java_files p).

Definition java_files_output (p : Project) : list string :=
  [ Str.nl ++ "☕ Scanning Java files...";
    "   Found " ++ Str.of_Z (len (java_files p)) ++ " Java files" ]
  ++ flat_map (fun f => read_error_line (java_path f) (java_lines f)) (java_files p).

Definition jackson_prop_issues (rel_path : string) (lines : list string) : list Issue :=
  per_line lines (fun i line =>
    flat_map (fun old_prop =>
      if Str.contains old_prop line && negb (Str.startswith (Str.strip line) "#")
      then [mkIssue "Spring Boot 4 - Configuration" "WARNING" rel_path i
              ("Old Jackson property: " ++ Str.strip line)
              "Change spring.jackson.* to spring.jackson.json.*"]
      else []) old_jackson_props).

Definition missing_schema_key_issue (rel_path : string) : Issue :=
  mkIssue "Spring Modulith 2.0 - Configuration" "CRITICAL" rel_path 0
          "Missing Spring Modulith event store configuration"
          "Add: spring.modulith.events.jdbc.schema=events".

(** Does the text of a configuration file hold the event-store schema key? *)
Definition has_schema_key (lines : list string) : bool :=
  Str.contains modulith_schema_key (Str.join_empty lines).

Definition config_lines_issues (rel_path : string) (lines : list string)
    (detected : bool) : list Issue :=
  jackson_prop_issues rel_path lines
  ++ (if detected && negb (has_schema_key lines)
      then [missing_schema_key_issue rel_path] else []).

Definition config_file_issues (rel_path : string) (found : option ConfigFile)
    (detected : bool) : list Issue :=
  match found with
  | Some f =>
      match config_lines f with
      | Content lines => config_lines_issues rel_path lines detected
      | Unreadable _ => []
      end
  | None => []
  end.

Definition config_file_output (found : option ConfigFile) : list string :=
  match found with
  | Some f => read_error_line (config_path f) (config_lines f)
  | None => []
  end.

Definition properties_issues (p : Project) (detected : bool) : list Issue :=
  flat_map (fun '(rel_path, found) => config_file_issues rel_path found detected)
           (props_paths p).

Definition properties_output (p : Project) : list string :=
  [ Str.nl ++ "⚙️  Scanning application.properties..." ]
  ++ flat_map (fun '(_, found) => config_file_output found) (props_paths p).

Definition flyway_issues (p : Project) (detected : bool) : list Issue :=
  match migration p with
  | None => []
  | Some None => if detected then [missing_root_issue] else []
  | Some (Some names) =>
      match filter glob_events_schema names with
      | [] => if detected then [missing_events_schema_issue] else []
      | _ :: _ => []
      end
  end.

Definition flyway_output (p : Project) : list string :=
  [ Str.nl ++ "🗄️  Scanning Flyway migrations..." ]
  ++ match migration p with
     | None => ["   No Flyway migrations found"]
     | Some _ => []
     end.

(** The assignments [_scan_pom] makes for a build descriptor, in order. *)
Definition pom_writes (content : string) : list (version_field * string) :=
  flat_map (fun f => match re_search (version_tag f) content with
                     | Some v => [(f, v)]
                     | None => []
                     end)
           [SpringBoot; SpringModulith; Testcontainers].

Definition apply_writes (ws : list (version_field * string)) (s : State) : State :=
  fold_left (fun s '(f, v) =>
               mkState (assign_version f v (result s)) (stdout s)
                       (writes s ++ [(f, v)]))
            ws s.

(** The state [_scan_pom] leaves on a readable build descriptor. *)
Definition after_pom (pom_path content : string) (s : State) : State :=
  let s1 := apply_writes (pom_writes content)
              (extend s [] [Str.nl ++ "📦 Scanning pom.xml..."]) in
  extend s1 (pom_issues pom_path (Str.split_nl content))
    [ "   Spring Boot: " ++ spring_boot_version (result s1);
      "   Spring Modulith: " ++ spring_modulith_version (result s1);
      "   Testcontainers: " ++ testcontainers_version (result s1) ].

(** The state [scan] reaches before it looks at the source files. *)
Definition after_descriptor (p : Project) (s : State) : State :=
  let s0 := extend s [] ["Scanning project: " ++ project_path p; rule80 "="] in
  match pom p with
  | Some (Content content) => after_pom (pom_path p) content s0
  | Some (Unreadable _) => extend s0 [] [Str.nl ++ "📦 Scanning pom.xml..."]
  | None => extend s0 [] ["⚠️  Warning: pom.xml not found (Maven project expected)"]
  end.

(** The state [scan] ends in when the build descriptor is absent or
    readable. *)
Definition after_scan (p : Project) (s : State) : State :=
  let s1 := after_descriptor p s in
  let d := modulith_detected (result s1) in
  extend s1
    (java_files_issues p ++ properties_issues p d ++ flyway_issues p d)
    (java_files_output p ++ properties_output p ++ flyway_output p).

(** What the build descriptor of a project says about a version: the first
    match of the version pattern, when the file is there and readable. *)
Definition detected_version (p : Project) (f : version_field) : option string :=
  match pom p with
  | Some (Content content) => re_search (version_tag f) content
  | _ => None
  end.

(** Does the version pattern match at none of the first [n] positions of
    [s]? *)
Fixpoint no_match_before (n : nat) (tag s : string) : bool :=
  match n with
  | O => true
  | S n' =>
      match match_at tag s with
      | Some _ => false
      | None => true
      end
      && match s with
         | "" => true
         | String _ s' => no_match_before n' tag s'
         end
  end.


(** The assignment, if any, that the pattern of [f] leads to. *)
Definition detection (f : version_field) (content : string)
  : list (version_field * string) :=
  match re_search (version_tag f) content with
  | Some v => [(f, v)]
  | None => []
  end.

(** The run up to the end of the build-descriptor step. *)
Definition scan_descriptor (p : Project) : M unit :=
  print ("Scanning project: " ++ project_path p) ;;
  print (rule80 "=") ;;
  match pom p with
  | Some file => _scan_pom (pom_path p) file
  | None => print "⚠️  Warning: pom.xml not found (Maven project expected)"
  end.

(** The steps of [scan] after the build descriptor. *)
Definition scan_rest (p : Project) : M ScanResult :=
  _scan_java_files p ;;
  _scan_properties p ;;
  _scan_flyway_migrations p ;;
  get_result.

(** The assignments to version attributes a project's build descriptor
    leads to. *)
Definition descriptor_writes (p : Project) : list (version_field * string) :=
  match pom p with
  | Some (Content content) => pom_writes content
  | _ => []
  end.

(** The number of assignments to the attribute [f] in a log. *)
Definition count_writes (f : version_field) (ws : list (version_field * string)) : nat :=
  List.length (filter (fun w => version_field_eqb (fst w) f) ws).

(** The steps of [scan] before the migration directory is looked at. *)
Definition scan_before_flyway (p : Project) : M unit :=
  scan_descriptor p ;;
  _scan_java_files p ;;
  _scan_properties p.

(** ** The report, as text *)

(** The number of issues of a severity in a sequence. *)
Fixpoint number_of (sev : string) (all : list Issue) : nat :=
  match all with
  | [] => O
  | i :: rest =>
      ((if (severity i =? sev)%str then 1 else 0) + number_of sev rest)%nat
  end.

(** Does an issue have the category [c] and the severity [v]? *)
Definition in_group (c v : string) (i : Issue) : bool :=
  (category i =? c)%str && (severity i =? v)%str.

(** The key of the group of a (category, severity) pair. *)
Definition pair_key (cv : string * string) : string :=
  fst cv ++ " - " ++ snd cv.

(** The pair a key is split into by [rsplit]. *)
Definition key_pair (k : string) : string * string :=
  match rsplit1 " - " k with
  | Some cv => cv
  | None => ("", "")
  end.

Definition icon_of (sev : string) : string :=
  match severity_icon sev with
  | Some icon => icon
  | None => ""
  end.

Definition banner_lines : list string :=
  [ Str.nl; rule80 "="; "MIGRATION SCAN REPORT"; rule80 "=" ].

Definition all_clear_line : string := Str.nl ++ "✅ No migration issues found!".

Definition summary_lines (critical warning info total : nat) : list string :=
  [ Str.nl ++ "📊 Summary:";
    "   🔴 Critical: " ++ Str.of_Z (Z.of_nat critical);
    "   🟡 Warnings: " ++ Str.of_Z (Z.of_nat warning);
    "   ℹ️  Info: " ++ Str.of_Z (Z.of_nat info);
    "   Total: " ++ Str.of_Z (Z.of_nat total) ].

Definition issue_lines (i : Issue) : list string :=
  [ Str.nl ++ "  File: " ++ file_path i ++ ":" ++ Str.of_Z (line_number i);
    "  Issue: " ++ issue i;
    "  Fix: " ++ suggestion i ].

(** The block of the report for the group of a (category, severity) pair
    with its members. *)
Definition group_lines (cv : string * string) (members : list Issue) : list string :=
  [ Str.nl ++ icon_of (snd cv) ++ " " ++ fst cv
      ++ " (" ++ Str.of_Z (len members) ++ " issues)";
    rule80 "-" ]
  ++ flat_map issue_lines members.

Definition next_steps_lines : list string :=
  [ Str.nl ++ rule80 "=";
    Str.nl ++ "📚 Next Steps:";
    "   1. Read the relevant migration guides in references/";
    "   2. Start with CRITICAL issues first";
    "   3. Apply fixes in phases: Dependencies → Code → Configuration → Testing";
    "   4. Test thoroughly after each phase";
    Str.nl ++ rule80 "=" ].

(** Two categories, two severities. *)
Definition sample_issues : list Issue :=
  [ mkIssue "Spring Boot 4 - Dependencies" "CRITICAL" "pom.xml" 12
      "Old starter: spring-boot-starter-web" "Change to: spring-boot-starter-webmvc";
    mkIssue "Spring Boot 4 - Configuration" "WARNING"
      "src/main/resources/application.properties" 3
      "Old Jackson property: spring.jackson.read.x=1"
      "Change spring.jackson.* to spring.jackson.json.*";
    mkIssue "Spring Boot 4 - Dependencies" "CRITICAL" "pom.xml" 20
      "Old starter: spring-boot-starter-aop" "Change to: spring-boot-starter-aspectj";
    mkIssue "Spring Boot 4 - Dependencies" "WARNING" "pom.xml" 31 "x" "y" ].

(** An issue tied to a line. *)
Definition on_a_line (i : Issue) : Prop := 1 <= line_number i.

(** ** Deleting a file from a project *)

(** The files a project holds: the build descriptor, the [n]-th source
    file, the two configuration files, the [n]-th entry of [__root]. *)
Inductive file_id :=
| PomFile
| SourceFile (n : nat)
| PropertiesFile
| YmlFile
| MigrationFile (n : nat).

Fixpoint remove_nth {A} (n : nat) (l : list A) : list A :=
  match l, n with
  | [], _ => []
  | _ :: l', O => l'
  | x :: l', S n' => x :: remove_nth n' l'
  end.

(** The project without the file [d]; every other file is as it was. *)
Definition delete_file (d : file_id) (p : Project) : Project :=
  match d with
  | PomFile =>
      mkProject (project_path p) (pom_path p) None (java_files p)
        (application_properties p) (application_yml p) (migration p)
  | SourceFile n =>
      mkProject (project_path p) (pom_path p) (pom p) (remove_nth n (java_files p))
        (application_properties p) (application_yml p) (migration p)
  | PropertiesFile =>
      mkProject (project_path p) (pom_path p) (pom p) (java_files p)
        None (application_yml p) (migration p)
  | YmlFile =>
      mkProject (project_path p) (pom_path p) (pom p) (java_files p)
        (application_properties p) None (migration p)
  | MigrationFile n =>
      mkProject (project_path p) (pom_path p) (pom p) (java_files p)
        (application_properties p) (application_yml p)
        (match migration p with
         | Some (Some names) => Some (Some (remove_nth n names))
         | other => other
         end)
  end.

(** The path under which the scanner reports on the file [d], when it
    reports on it at all. *)
Definition reported_path (d : file_id) (p : Project) : option string :=
  match d with
  | PomFile => match pom p with Some _ => Some (pom_path p) | None => None end
  | SourceFile n => option_map java_rel_path (nth_error (java_files p) n)
  | PropertiesFile =>
      match application_properties p with
      | Some _ => Some application_properties_rel
      | None => None
      end
  | YmlFile =>
      match application_yml p with
      | Some _ => Some application_yml_rel
      | None => None
      end
  | MigrationFile _ => None
  end.

(** Does a path end with [/], as the labels of the migration directories
    do and the path of a file does not? *)
Fixpoint ends_with_slash (s : string) : bool :=
  match s with
  | "" => false
  | String c "" => (c =? 47)%N
  | String _ s' => ends_with_slash s'
  end.

(** The issues a whole scan of a project reports under a path. *)
Definition scan_issues_for (path : string) (p : Project) : list Issue :=
  issues_for path (issues (result (state_of (scan p initial_state)))).

(** ** Sample projects *)

(** A project that holds a build descriptor and nothing else. *)
Definition project_with_pom (content : string) : Project :=
  mkProject "demo" "demo/pom.xml" (Some (Content content)) [] None None None.

(** A build descriptor whose Spring Boot property is preceded by an older
    one, commented out. *)
Definition pom_with_commented_tag : string :=
  "<properties>" ++ Str.nl
  ++ "<!-- <spring-boot.version>3.5.0</spring-boot.version> -->" ++ Str.nl
  ++ "<spring-boot.version>1.2.3</spring-boot.version>" ++ Str.nl
  ++ "</properties>".

Definition pom_with_boot_123 : string :=
  "<properties>" ++ Str.nl
  ++ "<spring-boot.version>1.2.3</spring-boot.version>" ++ Str.nl
  ++ "</properties>".


Definition pom_with_modulith : string :=
  "<properties>" ++ Str.nl
  ++ "<spring-modulith.version>2.0.0</spring-modulith.version>" ++ Str.nl
  ++ "</properties>".

(** A project with a modularity-framework version and no migration
    directory. *)
Definition project_without_migrations : Project :=
  project_with_pom pom_with_modulith.

(** One issue per configuration file that is present, readable and without
    the event-store schema key. *)
Definition missing_key_issues (p : Project) : list Issue :=
  flat_map (fun '(rel_path, found) =>
              match found with
              | Some f =>
                  match config_lines f with
                  | Content lines =>
                      if has_schema_key lines then []
                      else [missing_schema_key_issue rel_path]
                  | Unreadable _ => []
                  end
              | None => []
              end)
           (props_paths p).

(** A project with a modularity-framework version, both configuration
    files, neither with the schema key, and the events schema migration in
    place. *)
Definition project_with_two_configs : Project :=
  mkProject "demo" "demo/pom.xml" (Some (Content pom_with_modulith)) []
    (Some (mkConfigFile "demo/src/main/resources/application.properties"
             (Content ["server.port=8080" ++ Str.nl])))
    (Some (mkConfigFile "demo/src/main/resources/application.yml"
             (Content ["server:" ++ Str.nl; "  port: 8080" ++ Str.nl])))
    (Some (Some ["V0__create_events_schema.sql"])).

(** The same project with the properties file alone. *)
Definition project_with_properties : Project :=
  mkProject "demo" "demo/pom.xml" (Some (Content pom_with_modulith)) []
    (Some (mkConfigFile "demo/src/main/resources/application.properties"
             (Content ["server.port=8080" ++ Str.nl])))
    None
    (Some (Some ["V0__create_events_schema.sql"])).

(** A project whose migration directory lacks [__root]. *)
Definition project_without_root : Project :=
  mkProject "demo" "demo/pom.xml" (Some (Content pom_with_modulith)) []
    None None (Some None).

(** The window the code uses, in line numbers: 2 lines before line [i]
    through 2 lines after it. *)
Definition window_2_2 (lines : list string) (i : Z) : string :=
  Str.join_nl (lines_between lines (i - 2) (i + 2)).

(** A build descriptor, by lines, in which the owning group stands three
    lines above the artifact. *)
Definition pom_lines_group_three_above : list string :=
  [ "<groupId>org.springframework.security</groupId>";
    "<!-- test support -->";
    "<!-- for the security tests -->";
    "<artifactId>spring-security-test</artifactId>";
    "<scope>test</scope>" ].



(** A source file whose Javadoc names both annotations on one line. *)
Definition javadoc_naming_both : JavaFile :=
  mkJavaFile "demo/src/test/java/DemoTest.java" "src/test/java/DemoTest.java"
    (Content [ "/**" ++ Str.nl;
               " * Replaces @MockBean and @SpyBean of the old tests." ++ Str.nl;
               " */" ++ Str.nl;
               "class DemoTest {}" ++ Str.nl ]).

(** A source file with one annotated field and one commented out. *)
Definition test_with_mockbean : JavaFile :=
  mkJavaFile "demo/src/test/java/OrderTest.java" "src/test/java/OrderTest.java"
    (Content [ "class OrderTest {" ++ Str.nl;
               "  @MockBean OrderService orders;" ++ Str.nl;
               "  // @MockBean PaymentService payments;" ++ Str.nl;
               "}" ++ Str.nl ]).

(** A project with two source files. *)
Definition project_with_two_sources : Project :=
  mkProject "demo" "demo/pom.xml" (Some (Content pom_with_modulith))
    [javadoc_naming_both; test_with_mockbean] None None None.

(** The keys of the groups, in the order of the report. *)
Definition sorted_keys (all : list Issue) : list string :=
  sorted (map fst (issues_by_category all)).

(** What a group holds once more issues of its key have come in. *)
Definition joined (found : option (list Issue)) (more : list Issue)
  : option (list Issue) :=
  match more with
  | [] => found
  | _ :: _ => Some ((match found with Some v => v | None => [] end) ++ more)%list
  end.

(** The dict after the issues of [l] have been filed into [d]. *)
Definition grouped (d : groups) (l : list Issue) : groups :=
  fold_left (fun d i => dict_append (group_key i) i d) l d.

(** A call that returns, leaves the result alone and prints [out]. *)
Definition prints (m : M unit) (out : list string) : Prop :=
  forall s, m s = Returned tt (extend s [] out).

(** A scanner state that holds the sample issues. *)
Definition sample_report_state : State :=
  mkState (mkScanResult "4.0.0" Unknown Unknown sample_issues) [] [].

(** ** Further vocabulary: the command line, the report and samples *)

(** Whether the character [c] occurs in [s]. *)
Fixpoint has_char (c : char) (s : string) : bool :=
  match s with
  | "" => false
  | String b s' => (b =? c)%N || has_char c s'
  end.

(** Whether [x] is an issue of the deprecated accessor at line [i]. *)
Definition localstack_api_at (i : Z) (x : Issue) : bool :=
  (category x =? "Testcontainers 2.x - LocalStack API")%str
  && (line_number x =? i).

(** The project [p] with other source files. *)
Definition with_sources (p : Project) (sources : list JavaFile) : Project :=
  mkProject (project_path p) (pom_path p) (pom p) sources
    (application_properties p) (application_yml p) (migration p).

(** A call that leaves the result and the log alone, whether it returns or
    not, and only prints. *)
Definition only_prints {A} (m : M A) : Prop :=
  forall s, exists out, state_of (m s) = extend s [] out.

(** A report that fails on a missing key of a dict. *)
Definition key_error (o : outcome unit) : Prop :=
  exists key s, o = Raised ("KeyError: " ++ key)%str s.

(** A scanner state that holds an issue of an unknown severity. *)
Definition state_with_unknown_severity : State :=
  mkState (mkScanResult Unknown Unknown Unknown
             [ mkIssue "Spring Boot 4 - Dependencies" "CRITICAL" "pom.xml" 12
                 "Old starter: spring-boot-starter-web"
                 "Change to: spring-boot-starter-webmvc";
               mkIssue "Custom" "ERROR" "pom.xml" 1 "x" "y" ])
          [] [].

(** A source file that calls the deprecated accessor and a namesake. *)
Definition localstack_test : JavaFile :=
  mkJavaFile "demo/src/test/java/S3Test.java" "src/test/java/S3Test.java"
    (Content [ ("URI a = localstack.getEndpointOverride(Service.S3);" ++ Str.nl)%str;
               ("URI b = gateway.getEndpointOverride(region);" ++ Str.nl)%str ]).

(** A dependency of a build descriptor, by lines. *)
Definition pom_lines_security_test : list string :=
  [ "<dependency>";
    "<groupId>org.springframework.security</groupId>";
    "<artifactId>spring-security-test</artifactId>";
    "<scope>test</scope>";
    "</dependency>" ].

(** A project without a build descriptor. *)
Definition project_without_pom : Project :=
  mkProject "demo" "demo/pom.xml" None [test_with_mockbean]
    (Some (mkConfigFile "demo/src/main/resources/application.properties"
             (Content [("spring.jackson.read.x=1" ++ Str.nl)%str])))
    None (Some None).

(** A project with a source file that cannot be read. *)
Definition project_with_unreadable_source : Project :=
  mkProject "demo" "demo/pom.xml" (Some (Content pom_with_modulith))
    [ mkJavaFile "demo/src/Broken.java" "src/Broken.java"
        (Unreadable "'utf-8' codec can't decode byte 0xff");
      test_with_mockbean ]
    None None None.

(** The issues the build-descriptor step adds for a project. *)
Definition descriptor_issues (p : Project) : list Issue :=
  match pom p with
  | Some (Content content) => pom_issues (pom_path p) (Str.split_nl content)
  | _ => []
  end.

(** The categories the checks file their issues under, each with the
    severity its [add_issue] calls pass, in the order of the source. *)
Definition category_severity : list (string * string) :=
  [ ("Spring Boot 4 - Dependencies", "CRITICAL");
    ("Testcontainers 2.x - Dependencies", "WARNING");
    ("Spring Boot 4 - Test Annotations", "CRITICAL");
    ("Spring Boot 4 - Package Relocations", "CRITICAL");
    ("Testcontainers 2.x - Package Changes", "CRITICAL");
    ("Testcontainers 2.x - API Changes", "CRITICAL");
    ("Spring Boot 4 - Retry/Resilience", "INFO");
    ("Spring Boot 4 - Spring Retry", "INFO");
    ("Spring Boot 4 - Jackson 3", "CRITICAL");
    ("Testcontainers 2.x - Generic Types", "WARNING");
    ("Testcontainers 2.x - LocalStack API", "CRITICAL");
    ("Spring Boot 4 - Configuration", "WARNING");
    ("Spring Modulith 2.0 - Configuration", "CRITICAL");
    ("Spring Modulith 2.0 - Database", "CRITICAL") ].

(** The severity of a category, when a check uses the category. *)
Definition severity_of (c : string) : option string :=
  option_map snd (find (fun '(c', _) => (c' =? c)%str) category_severity).

(** An issue as the checks build them: the severity is the one of its
    category, and it is file-level exactly when the category is one of the
    modularity framework. *)
Definition issue_shape (i : Issue) : Prop :=
  severity_of (category i) = Some (severity i)
  /\ (if Str.startswith (category i) "Spring Modulith 2.0"
      then line_number i = 0 else 1 <= line_number i).

(** * Properties *)

Local Open Scope list_scope.

Arguments extend : simpl never.
Arguments modulith_detected : simpl never.

(** ** Characters beyond ASCII *)

(** A literal is the sequence of its code points. *)
Lemma literal_code_points :
  "٤ → 📦"
  = String 0x664%N (String 0x20%N (String 0x2192%N (String 0x20%N
      (String 0x1f4e6%N "")))).
Proof. reflexivity. Qed.

(** [\d] takes the decimal digits of every script. *)
Lemma version_run_of_other_scripts :
  re_search "<spring-boot.version>" "<spring-boot.version>4.0.0٤-M1</spring-boot.version>"
  = Some "4.0.0٤".
Proof. reflexivity. Qed.

(** [str.strip] removes the no-break space and the ideographic space as it
    removes the blank. *)
Lemma strip_of_other_spaces :
  Str.strip (String 0xa0%N (String 0xa0%N "// @MockBean" ++ String 0x3000%N Str.nl))%str
  = "// @MockBean".
Proof. reflexivity. Qed.

(** ** Equality of strings *)

Lemma string_eqb_refl (s : string) : (s =? s)%str = true.
Proof.
  induction s as [|c s IH]; simpl; [reflexivity|].
  now rewrite N.eqb_refl.
Qed.

Lemma string_eqb_eq (a b : string) : (a =? b)%str = true <-> a = b.
Proof.
  split; [|intros ->; apply string_eqb_refl].
  revert b. induction a as [|c a IH]; intros [|d b]; simpl; try discriminate;
    [reflexivity|].
  intros H. apply andb_true_iff in H. destruct H as [C H].
  apply N.eqb_eq in C. apply IH in H. now subst.
Qed.

Lemma string_eqb_neq (a b : string) : (a =? b)%str = false <-> a <> b.
Proof.
  rewrite <- string_eqb_eq. destruct (a =? b)%str; split; congruence.
Qed.

Lemma string_eqb_spec (a b : string) : reflect (a = b) (a =? b)%str.
Proof.
  destruct (a =? b)%str eqn:E; constructor.
  - now apply string_eqb_eq.
  - now apply string_eqb_neq.
Qed.

Lemma string_eqb_sym (a b : string) : (a =? b)%str = (b =? a)%str.
Proof.
  destruct (string_eqb_spec a b) as [->|N].
  - now rewrite string_eqb_refl.
  - symmetry. apply string_eqb_neq. congruence.
Qed.

(** ** The state and the monad *)

Lemma extend_nil (s : State) : extend s [] [] = s.
Proof.
  destruct s as [[b m t i] o w]; unfold extend; simpl.
  now rewrite !app_nil_r.
Qed.

Lemma extend_extend (s : State) i1 o1 i2 o2 :
  extend (extend s i1 o1) i2 o2 = extend s (i1 ++ i2) (o1 ++ o2).
Proof.
  unfold extend; simpl. now rewrite !app_assoc.
Qed.

Lemma detected_extend (s : State) i o :
  modulith_detected (result (extend s i o)) = modulith_detected (result s).
Proof. reflexivity. Qed.

Lemma get_version_extend f (s : State) i o :
  get_version f (result (extend s i o)) = get_version f (result s).
Proof. now destruct f. Qed.

Lemma writes_extend (s : State) i o : writes (extend s i o) = writes s.
Proof. reflexivity. Qed.

Lemma issues_extend (s : State) i o :
  issues (result (extend s i o)) = (issues (result s) ++ i)%list.
Proof. reflexivity. Qed.

Lemma stdout_extend (s : State) i o :
  stdout (extend s i o) = (stdout s ++ o)%list.
Proof. reflexivity. Qed.

Lemma skipn_length_app {A} (l r : list A) : skipn (List.length l) (l ++ r) = r.
Proof. induction l; simpl; auto. Qed.

Lemma new_issues_extend {A} (m : M A) (s : State) a i o :
  m s = Returned a (extend s i o) -> new_issues m s = i.
Proof.
  intros H. unfold new_issues. rewrite H. simpl. apply skipn_length_app.
Qed.

Lemma new_output_extend {A} (m : M A) (s : State) a i o :
  m s = Returned a (extend s i o) -> new_output m s = o.
Proof.
  intros H. unfold new_output. rewrite H. simpl. apply skipn_length_app.
Qed.

Lemma print_extend line s : print line s = Returned tt (extend s [] [line]).
Proof.
  unfold print, extend. destruct s as [[b m t i] o w]; simpl.
  now rewrite app_nil_r.
Qed.

Lemma add_issue_extend c v p n w x s :
  add_issue c v p n w x s = Returned tt (extend s [mkIssue c v p n w x] []).
Proof.
  unfold add_issue, extend, append_issue. simpl. now rewrite app_nil_r.
Qed.

(** *** Calls that only add issues *)

Lemma adds_ret : adds (ret tt) [].
Proof. intros s. unfold ret. now rewrite extend_nil. Qed.

Lemma adds_add_issue c v p n w x :
  adds (add_issue c v p n w x) [mkIssue c v p n w x].
Proof. intros s. apply add_issue_extend. Qed.

Lemma adds_when (c : bool) m l :
  adds m l -> adds (when c m) (if c then l else []).
Proof. intros H. destruct c; simpl; [exact H | apply adds_ret]. Qed.

Lemma adds_bind m k l1 l2 :
  adds m l1 -> adds k l2 -> adds (m ;; k) (l1 ++ l2).
Proof.
  intros H1 H2 s. unfold bind. rewrite H1, H2, extend_extend. reflexivity.
Qed.

Lemma adds_for {A} (xs : list A) body (f : A -> list Issue) :
  (forall x, adds (body x) (f x)) -> adds (for_ xs body) (flat_map f xs).
Proof.
  intros H. induction xs as [|x xs IH]; simpl.
  - apply adds_ret.
  - apply adds_bind; auto.
Qed.

Lemma adds_eq m l1 l2 : l1 = l2 -> adds m l1 -> adds m l2.
Proof. now intros ->. Qed.

(** *** Calls that add issues and print *)

Lemma emits_of_adds m l : adds m l -> emits m (fun _ => l) (fun _ => []).
Proof. intros H s. apply H. Qed.

Lemma emits_ret : emits (ret tt) (fun _ => []) (fun _ => []).
Proof. apply emits_of_adds, adds_ret. Qed.

Lemma emits_print line : emits (print line) (fun _ => []) (fun _ => [line]).
Proof. intros s. apply print_extend. Qed.

Lemma emits_bind m k i1 o1 i2 o2 :
  emits m i1 o1 -> emits k i2 o2 ->
  emits (m ;; k) (fun d => i1 d ++ i2 d) (fun d => o1 d ++ o2 d).
Proof.
  intros H1 H2 s. unfold bind. rewrite H1, H2, extend_extend, detected_extend.
  reflexivity.
Qed.

Lemma emits_for {A} (xs : list A) body (f : A -> bool -> list Issue)
    (g : A -> bool -> list string) :
  (forall x, emits (body x) (f x) (g x)) ->
  emits (for_ xs body) (fun d => flat_map (fun x => f x d) xs)
                       (fun d => flat_map (fun x => g x d) xs).
Proof.
  intros H. induction xs as [|x xs IH]; simpl.
  - apply emits_ret.
  - apply (emits_bind _ _ _ _ _ _ (H x) IH).
Qed.

Lemma emits_eq m i1 o1 i2 o2 :
  (forall d, i1 d = i2 d) -> (forall d, o1 d = o2 d) ->
  emits m i1 o1 -> emits m i2 o2.
Proof. intros Hi Ho H s. rewrite H, Hi, Ho. reflexivity. Qed.

Lemma emits_get_result (k : ScanResult -> M unit) i o :
  (forall r, emits (k r) (fun _ => i (modulith_detected r))
                         (fun _ => o (modulith_detected r))) ->
  emits (r <- get_result ;; k r) i o.
Proof.
  intros H s. unfold bind, get_result. apply (H (result s)).
Qed.

(** ** Each check adds the issues of its list *)

Ltac adds_step :=
  first
    [ apply adds_add_issue
    | apply adds_ret
    | apply adds_when
    | apply adds_bind
    | apply adds_for; intros [? ?]
    | apply adds_for; intro ].

Ltac adds_loop := unfold per_line, guarded_line_issues; repeat adds_step.

Lemma adds_scan_old_starters path lines :
  adds (scan_old_starters path lines) (old_starter_issues path lines).
Proof. unfold scan_old_starters, old_starter_issues. adds_loop. Qed.

Lemma adds_scan_security_test path lines :
  adds (scan_security_test path lines)
       (security_test_issues_in (context lines) path lines).
Proof. unfold scan_security_test, security_test_issues_in. adds_loop. Qed.

Lemma adds_scan_tc_artifacts path lines :
  adds (scan_tc_artifacts path lines)
       (tc_artifact_issues_in (context lines) path lines).
Proof. unfold scan_tc_artifacts, tc_artifact_issues_in. adds_loop. Qed.

Lemma adds_scan_test_annotations rel lines :
  adds (scan_test_annotations rel lines) (test_annotation_issues rel lines).
Proof. unfold scan_test_annotations, test_annotation_issues. adds_loop. Qed.

Lemma adds_scan_old_imports rel lines :
  adds (scan_old_imports rel lines) (old_import_issues rel lines).
Proof. unfold scan_old_imports, old_import_issues. adds_loop. Qed.

Lemma adds_scan_tc_old_imports rel lines :
  adds (scan_tc_old_imports rel lines) (tc_old_import_issues rel lines).
Proof. unfold scan_tc_old_imports, tc_old_import_issues. adds_loop. Qed.

Lemma adds_scan_localstack_service rel lines :
  adds (scan_localstack_service rel (Str.join_empty lines) lines)
       (localstack_service_issues rel lines).
Proof. unfold scan_localstack_service, localstack_service_issues. adds_loop. Qed.

Lemma adds_scan_resilience rel lines :
  adds (scan_resilience rel (Str.join_empty lines) lines)
       (resilience_issues rel lines).
Proof. unfold scan_resilience, resilience_issues. adds_loop. Qed.

Lemma adds_scan_retryable rel lines :
  adds (scan_retryable rel (Str.join_empty lines) lines)
       (retryable_issues rel lines).
Proof. unfold scan_retryable, retryable_issues. adds_loop. Qed.

Lemma adds_scan_jackson2 rel lines :
  adds (scan_jackson2 rel lines) (jackson2_issues rel lines).
Proof. unfold scan_jackson2, jackson2_issues. adds_loop. Qed.

Lemma adds_scan_generic_containers rel lines :
  adds (scan_generic_containers rel (Str.join_empty lines) lines)
       (generic_container_issues rel lines).
Proof. unfold scan_generic_containers, generic_container_issues. adds_loop. Qed.

Lemma adds_scan_endpoint_override rel lines :
  adds (scan_endpoint_override rel (Str.join_empty lines) lines)
       (endpoint_override_issues rel lines).
Proof. unfold scan_endpoint_override, endpoint_override_issues. adds_loop. Qed.

Lemma adds_scan_java_lines rel lines :
  adds (scan_java_lines rel lines) (java_lines_issues rel lines).
Proof.
  unfold scan_java_lines, java_lines_issues.
  repeat apply adds_bind;
    auto using adds_scan_test_annotations, adds_scan_old_imports,
      adds_scan_tc_old_imports, adds_scan_localstack_service,
      adds_scan_resilience, adds_scan_retryable, adds_scan_jackson2,
      adds_scan_generic_containers, adds_scan_endpoint_override.
Qed.

(** ** The file-level scanners *)

Lemma read_lines_or_report_content path lines s :
  read_lines_or_report path (Content lines) s = Returned (Some lines) s.
Proof. reflexivity. Qed.

Lemma read_lines_or_report_unreadable path e s :
  read_lines_or_report path (Unreadable e) s
  = Returned None (extend s [] ["   Error reading " ++ path ++ ": " ++ e]%str).
Proof.
  unfold read_lines_or_report, try_except, bind, open_read.
  now rewrite print_extend.
Qed.

Lemma emits_scan_java_file f :
  emits (_scan_java_file f) (fun _ => java_file_issues f)
        (fun _ => read_error_line (java_path f) (java_lines f)).
Proof.
  intros s. unfold _scan_java_file, java_file_issues, bind.
  destruct (java_lines f) as [lines|e].
  - rewrite read_lines_or_report_content. apply adds_scan_java_lines.
  - now rewrite read_lines_or_report_unreadable.
Qed.

Lemma emits_scan_java_files p :
  emits (_scan_java_files p) (fun _ => java_files_issues p)
        (fun _ => java_files_output p).
Proof.
  unfold _scan_java_files, java_files_issues, java_files_output.
  eapply emits_eq;
    [ | | apply emits_bind; [apply emits_print
                            | apply emits_bind; [apply emits_print
                                                | apply emits_for, emits_scan_java_file]]];
    reflexivity.
Qed.

Lemma adds_scan_jackson_props rel lines :
  adds (for_ (enumerate lines 1) (fun '(i, line) =>
          for_ old_jackson_props (fun old_prop =>
            when (Str.contains old_prop line
                  && negb (Str.startswith (Str.strip line) "#"))
              (add_issue "Spring Boot 4 - Configuration" "WARNING" rel i
                 ("Old Jackson property: " ++ Str.strip line)%str
                 "Change spring.jackson.* to spring.jackson.json.*"))))
       (jackson_prop_issues rel lines).
Proof. unfold jackson_prop_issues. adds_loop. Qed.

Lemma emits_scan_config_lines rel lines :
  emits (scan_config_lines rel lines) (config_lines_issues rel lines) (fun _ => []).
Proof.
  intros s. unfold scan_config_lines, config_lines_issues, bind.
  rewrite adds_scan_jackson_props. unfold get_result.
  rewrite detected_extend. unfold has_schema_key.
  destruct (modulith_detected (result s)
            && negb (Str.contains modulith_schema_key (Str.join_empty lines))); simpl.
  - rewrite add_issue_extend, extend_extend. reflexivity.
  - unfold ret. now rewrite app_nil_r.
Qed.

Lemma emits_scan_properties_file rel f :
  emits (_scan_properties_file rel f)
        (config_file_issues rel (Some f)) (fun _ => config_file_output (Some f)).
Proof.
  intros s. unfold _scan_properties_file, config_file_issues, config_file_output, bind.
  destruct (config_lines f) as [lines|e].
  - rewrite read_lines_or_report_content. apply emits_scan_config_lines.
  - now rewrite read_lines_or_report_unreadable.
Qed.

Lemma emits_scan_properties p :
  emits (_scan_properties p) (properties_issues p) (fun _ => properties_output p).
Proof.
  unfold _scan_properties, properties_issues, properties_output.
  eapply emits_eq;
    [ | | apply emits_bind;
          [ apply emits_print
          | apply (emits_for _ _
                     (fun x d => config_file_issues (fst x) (snd x) d)
                     (fun x _ => config_file_output (snd x))) ] ].
  - intros d. simpl. reflexivity.
  - intros d. simpl. reflexivity.
  - intros [rel [f|]]; simpl.
    + apply emits_scan_properties_file.
    + apply emits_ret.
Qed.

Lemma emits_scan_flyway_migrations p :
  emits (_scan_flyway_migrations p) (flyway_issues p) (fun _ => flyway_output p).
Proof.
  intros s. unfold _scan_flyway_migrations, flyway_issues, flyway_output, bind.
  rewrite print_extend.
  destruct (migration p) as [[names|]|]; cbv beta iota.
  - unfold get_result. rewrite detected_extend.
    destruct (filter glob_events_schema names); cbv beta iota.
    + destruct (modulith_detected (result s)); unfold when, andb.
      * rewrite add_issue_extend, extend_extend. reflexivity.
      * unfold ret. now rewrite app_nil_r.
    + unfold when, andb, ret. now rewrite app_nil_r.
  - unfold get_result. rewrite detected_extend.
    destruct (modulith_detected (result s)); unfold when.
    + rewrite add_issue_extend, extend_extend. reflexivity.
    + unfold ret. now rewrite app_nil_r.
  - rewrite print_extend, extend_extend. reflexivity.
Qed.

(** ** [_scan_pom] and [scan] *)

Lemma extract_version_writes f content s :
  extract_version f content s = Returned tt (apply_writes (detection f content) s).
Proof.
  unfold extract_version, detection.
  destruct (re_search (version_tag f) content); reflexivity.
Qed.

Lemma apply_writes_app w1 w2 s :
  apply_writes (w1 ++ w2) s = apply_writes w2 (apply_writes w1 s).
Proof. unfold apply_writes. apply fold_left_app. Qed.

Lemma pom_writes_detections content :
  pom_writes content
  = detection SpringBoot content ++ detection SpringModulith content
    ++ detection Testcontainers content.
Proof. unfold pom_writes, detection. simpl. now rewrite app_nil_r. Qed.

Lemma scan_pom_content path content s :
  _scan_pom path (Content content) s = Returned tt (after_pom path content s).
Proof.
  unfold _scan_pom, after_pom, bind, open_read.
  rewrite print_extend, !extract_version_writes.
  rewrite pom_writes_detections, !apply_writes_app.
  set (s1 := apply_writes _ (apply_writes _ (apply_writes _ _))).
  unfold get_result. rewrite !print_extend.
  rewrite adds_scan_old_starters, adds_scan_security_test, adds_scan_tc_artifacts.
  rewrite !extend_extend. reflexivity.
Qed.

Lemma scan_pom_unreadable path e s :
  _scan_pom path (Unreadable e) s
  = Raised e (extend s [] [Str.nl ++ "📦 Scanning pom.xml..."]%str).
Proof.
  unfold _scan_pom, bind, open_read. now rewrite print_extend.
Qed.

Lemma scan_steps p s :
  scan p s = (scan_descriptor p ;; scan_rest p) s.
Proof.
  unfold scan, scan_descriptor, scan_rest, bind.
  repeat rewrite print_extend.
  destruct (pom p) as [file|]; [destruct (_scan_pom _ _ _)|]; reflexivity.
Qed.

Lemma scan_descriptor_state p s :
  state_of (scan_descriptor p s) = after_descriptor p s.
Proof.
  unfold scan_descriptor, after_descriptor, bind.
  rewrite !print_extend, extend_extend.
  destruct (pom p) as [[content|e]|].
  - now rewrite scan_pom_content.
  - rewrite scan_pom_unreadable, !extend_extend. reflexivity.
  - rewrite print_extend, !extend_extend. reflexivity.
Qed.

Lemma scan_descriptor_returns p s :
  (forall e, pom p <> Some (Unreadable e)) ->
  scan_descriptor p s = Returned tt (after_descriptor p s).
Proof.
  intros H. unfold scan_descriptor, after_descriptor, bind.
  rewrite !print_extend, extend_extend.
  destruct (pom p) as [[content|e]|].
  - now rewrite scan_pom_content.
  - now destruct (H e).
  - rewrite print_extend, !extend_extend. reflexivity.
Qed.

Lemma scan_descriptor_raises p e s :
  pom p = Some (Unreadable e) ->
  scan_descriptor p s = Raised e (after_descriptor p s).
Proof.
  intros H. unfold scan_descriptor, after_descriptor, bind.
  rewrite !print_extend, extend_extend, H.
  rewrite scan_pom_unreadable, !extend_extend. reflexivity.
Qed.

Lemma scan_rest_returns p s :
  let d := modulith_detected (result s) in
  let s' := extend s (java_files_issues p ++ properties_issues p d ++ flyway_issues p d)
                     (java_files_output p ++ properties_output p ++ flyway_output p) in
  scan_rest p s = Returned (result s') s'.
Proof.
  unfold scan_rest, bind.
  rewrite emits_scan_java_files, emits_scan_properties, emits_scan_flyway_migrations.
  rewrite !detected_extend, !extend_extend, <- ?app_assoc. reflexivity.
Qed.

(** [scan] returns its result whenever the build descriptor is absent or
    readable, and the state it ends in is [after_scan]. *)
Lemma scan_returns p s :
  (forall e, pom p <> Some (Unreadable e)) ->
  scan p s = Returned (result (after_scan p s)) (after_scan p s).
Proof.
  intros H. rewrite scan_steps. unfold bind.
  rewrite (scan_descriptor_returns p s H).
  apply scan_rest_returns.
Qed.

Lemma scan_raises p e s :
  pom p = Some (Unreadable e) ->
  scan p s = Raised e (after_descriptor p s).
Proof.
  intros H. rewrite scan_steps. unfold bind.
  now rewrite (scan_descriptor_raises p e s H).
Qed.

(** ** Strings and the version pattern *)

Lemma append_assoc (a b c : string) : ((a ++ b) ++ c = a ++ (b ++ c))%str.
Proof. induction a; simpl; congruence. Qed.

Lemma append_nil_r (a : string) : (a ++ "" = a)%str.
Proof. induction a; simpl; congruence. Qed.

Lemma append_length (a b : string) :
  Str.length (a ++ b) = (Str.length a + Str.length b)%nat.
Proof. induction a; simpl; congruence. Qed.

Lemma strip_prefix_app p r : Str.strip_prefix p (p ++ r) = Some r.
Proof.
  induction p as [|c p IH]; simpl.
  - now destruct r.
  - now rewrite N.eqb_refl.
Qed.

Lemma strip_prefix_some p s r : Str.strip_prefix p s = Some r -> s = (p ++ r)%str.
Proof.
  revert s. induction p as [|c p IH]; intros s H.
  - destruct s; simpl in H; now inversion H.
  - destruct s as [|b s]; simpl in H; [discriminate|].
    destruct (N.eqb_spec c b); [|discriminate].
    subst. simpl. f_equal. now apply IH.
Qed.

Lemma take_while_app f v rest :
  Str.all_chars f v = true -> Str.starts_with_char f rest = false ->
  Str.take_while f (v ++ rest) = v.
Proof.
  intros Hv Hr. induction v as [|c v IH]; simpl in *.
  - destruct rest; simpl in *; [reflexivity | now rewrite Hr].
  - apply andb_true_iff in Hv as [Hc Hv]. rewrite Hc. f_equal. auto.
Qed.

Lemma take_while_all f s : Str.all_chars f (Str.take_while f s) = true.
Proof.
  induction s as [|c s IH]; simpl; [reflexivity|].
  destruct (f c) eqn:E; simpl; [now rewrite E | reflexivity].
Qed.

Lemma take_while_empty f s :
  Str.take_while f s = "" <-> Str.starts_with_char f s = false.
Proof.
  destruct s as [|c s]; simpl; [tauto|].
  destruct (f c); split; congruence.
Qed.

Lemma take_while_split f r :
  exists rest, r = (Str.take_while f r ++ rest)%str
               /\ Str.starts_with_char f rest = false.
Proof.
  induction r as [|c r [rest [Hr Hs]]]; simpl.
  - exists "". auto.
  - destruct (f c) eqn:E.
    + exists rest. simpl. split; [now f_equal | exact Hs].
    + exists (String c r). simpl. auto.
Qed.

(** The text a version pattern captures is a non-empty run of digits and
    dots, and the longest one there. *)
Lemma match_at_some tag s v :
  match_at tag s = Some v ->
  v <> "" /\ Str.all_chars is_version_char v = true
  /\ exists rest, s = (tag ++ v ++ rest)%str
                  /\ Str.starts_with_char is_version_char rest = false.
Proof.
  unfold match_at. destruct (Str.strip_prefix tag s) as [r|] eqn:E; [|discriminate].
  apply strip_prefix_some in E. subst s.
  destruct (take_while_split is_version_char r) as [rest [Hr Hs]].
  pose proof (take_while_all is_version_char r) as Ha.
  destruct (Str.take_while is_version_char r) as [|c w] eqn:T; [discriminate|].
  intros H; inversion H; subst v; clear H.
  split; [discriminate|]. split; [exact Ha|].
  exists rest. split; [now rewrite Hr at 1 | exact Hs].
Qed.

Lemma match_at_app tag v rest :
  v <> "" -> Str.all_chars is_version_char v = true ->
  Str.starts_with_char is_version_char rest = false ->
  match_at tag (tag ++ v ++ rest) = Some v.
Proof.
  intros Hne Hv Hr. unfold match_at.
  rewrite strip_prefix_app, take_while_app by assumption.
  destruct v; [contradiction | reflexivity].
Qed.

Lemma match_at_no_version tag rest :
  Str.starts_with_char is_version_char rest = false ->
  match_at tag (tag ++ rest) = None.
Proof.
  intros Hr. unfold match_at. rewrite strip_prefix_app.
  apply take_while_empty in Hr. now rewrite Hr.
Qed.

(** A pattern that matches at the start of [s] sits on the tag text followed
    by a digit or a dot. *)
Lemma match_at_none tag s :
  (forall b, s = (tag ++ b)%str -> Str.starts_with_char is_version_char b = false) ->
  match_at tag s = None.
Proof.
  intros H. unfold match_at.
  destruct (Str.strip_prefix tag s) as [r|] eqn:E; [|reflexivity].
  apply strip_prefix_some in E. specialize (H r E).
  apply take_while_empty in H. now rewrite H.
Qed.

Lemma re_search_some tag s v :
  re_search tag s = Some v -> v <> "" /\ Str.all_chars is_version_char v = true.
Proof.
  induction s as [|c s IH]; simpl.
  - destruct (match_at tag "") eqn:E; [|discriminate].
    intros H; inversion H; subst. apply match_at_some in E. tauto.
  - destruct (match_at tag (String c s)) eqn:E.
    + intros H; inversion H; subst. apply match_at_some in E. tauto.
    + exact IH.
Qed.

(** No version is the sentinel. *)
Lemma re_search_not_unknown tag s : re_search tag s <> Some Unknown.
Proof.
  intros H. apply re_search_some in H as [_ H]. discriminate H.
Qed.

(** The search skips a prefix in which the pattern matches nowhere. *)
Lemma re_search_skip tag pre s :
  (forall a b, (pre ++ s = a ++ tag ++ b)%str ->
               (Str.length a < Str.length pre)%nat ->
               Str.starts_with_char is_version_char b = false) ->
  re_search tag (pre ++ s) = re_search tag s.
Proof.
  induction pre as [|c pre IH]; intros H; [reflexivity|].
  simpl. rewrite match_at_none.
  - apply IH. intros a b E L. apply (H (String c a) b).
    + simpl. now rewrite E.
    + simpl. lia.
  - intros b E. apply (H "" b); [exact E | simpl; lia].
Qed.

Lemma re_search_here tag s v :
  match_at tag s = Some v -> re_search tag s = Some v.
Proof. intros H. destruct s; simpl; now rewrite H. Qed.

(** The search fails when every occurrence of the tag text is followed by
    something else than a digit or a dot. *)
Lemma re_search_none tag s :
  (forall a b, s = (a ++ tag ++ b)%str ->
               Str.starts_with_char is_version_char b = false) ->
  re_search tag s = None.
Proof.
  induction s as [|c s IH]; intros H; simpl.
  - rewrite match_at_none; [reflexivity|]. intros b E. now apply (H "" b).
  - rewrite match_at_none.
    + apply IH. intros a b E. apply (H (String c a) b). simpl. now rewrite E.
    + intros b E. now apply (H "" b).
Qed.

(** [pat in s] as a decomposition of [s]. *)
Lemma prefix_iff p s : Str.prefix p s = true <-> exists r, s = (p ++ r)%str.
Proof.
  revert s. induction p as [|c p IH]; intros s.
  - split; [exists s; reflexivity | now destruct s].
  - destruct s as [|b s]; simpl.
    + split; [discriminate | intros [r H]; discriminate].
    + destruct (N.eqb_spec c b) as [->|N]; simpl.
      * rewrite IH. split; intros [r H]; exists r; [now rewrite H | now inversion H].
      * split; [discriminate | intros [r H]; simpl in H; congruence].
Qed.

Lemma contains_nil pat : Str.contains pat "" = Str.prefix pat "".
Proof. simpl. apply orb_false_r. Qed.

Lemma contains_cons pat c s :
  Str.contains pat (String c s) = Str.prefix pat (String c s) || Str.contains pat s.
Proof. reflexivity. Qed.

Lemma contains_iff pat s :
  Str.contains pat s = true <-> exists a b, s = (a ++ pat ++ b)%str.
Proof.
  induction s as [|c s IH].
  - rewrite contains_nil, prefix_iff. split.
    + intros [r H]. exists "", r. exact H.
    + intros [a [b H]]. destruct a; [now exists b | discriminate].
  - rewrite contains_cons, orb_true_iff, prefix_iff, IH. split.
    + intros [[r H]|[a [b H]]].
      * exists "", r. exact H.
      * exists (String c a), b. simpl. now rewrite H.
    + intros [a [b H]]. destruct a as [|c' a].
      * left. now exists b.
      * right. exists a, b. simpl in H. now inversion H.
Qed.

Lemma contains_false pat s :
  Str.contains pat s = false -> forall a b, s <> (a ++ pat ++ b)%str.
Proof.
  intros H a b E.
  assert (Str.contains pat s = true) by (apply contains_iff; eauto).
  congruence.
Qed.

(** A bounded check that the pattern matches at none of the first [n]
    positions gives the hypothesis on earlier tags. *)
Lemma no_match_before_sound tag n s :
  no_match_before n tag s = true ->
  forall a b, s = (a ++ tag ++ b)%str -> (Str.length a < n)%nat ->
              Str.starts_with_char is_version_char b = false.
Proof.
  revert s. induction n as [|n IH]; intros s H a b E L; [lia|].
  simpl in H. apply andb_true_iff in H as [H1 H2].
  destruct a as [|c a].
  - subst s. simpl in H1. unfold match_at in H1.
    rewrite strip_prefix_app in H1.
    destruct (Str.take_while is_version_char b) eqn:T; [|discriminate].
    now apply take_while_empty.
  - subst s. simpl in H2, L. apply (IH _ H2 a b eq_refl). lia.
Qed.

(** ** The version attributes after the build-descriptor step *)

Lemma get_version_apply_detection f g content s :
  get_version f (result (apply_writes (detection g content) s))
  = if version_field_eqb f g
    then match re_search (version_tag g) content with
         | Some v => v
         | None => get_version f (result s)
         end
    else get_version f (result s).
Proof.
  unfold detection.
  destruct (re_search (version_tag g) content); destruct f, g; reflexivity.
Qed.

Lemma get_version_pom_writes f content s :
  get_version f (result (apply_writes (pom_writes content) s))
  = match re_search (version_tag f) content with
    | Some v => v
    | None => get_version f (result s)
    end.
Proof.
  rewrite pom_writes_detections, !apply_writes_app, !get_version_apply_detection.
  destruct f; simpl; reflexivity.
Qed.

Lemma get_version_after_pom f path content s :
  get_version f (result (after_pom path content s))
  = match re_search (version_tag f) content with
    | Some v => v
    | None => get_version f (result s)
    end.
Proof.
  unfold after_pom. cbv zeta.
  now rewrite get_version_extend, get_version_pom_writes, get_version_extend.
Qed.

Lemma get_version_after_descriptor f p s :
  get_version f (result (after_descriptor p s))
  = match detected_version p f with
    | Some v => v
    | None => get_version f (result s)
    end.
Proof.
  unfold after_descriptor, detected_version. cbv zeta.
  destruct (pom p) as [[content|e]|].
  - now rewrite get_version_after_pom, get_version_extend.
  - now rewrite !get_version_extend.
  - now rewrite !get_version_extend.
Qed.

Lemma get_version_after_scan f p s :
  get_version f (result (after_scan p s))
  = match detected_version p f with
    | Some v => v
    | None => get_version f (result s)
    end.
Proof.
  unfold after_scan. cbv zeta.
  now rewrite get_version_extend, get_version_after_descriptor.
Qed.






Lemma re_search_eq tag s :
  re_search tag s
  = match match_at tag s with
    | Some v => Some v
    | None => match s with
              | "" => None
              | String _ s' => re_search tag s'
              end
    end.
Proof. destruct s; reflexivity. Qed.



(** * The version attributes *)

(** C5, as stated, fails: a build descriptor that contains the tag
    [<spring-boot.version>1.2.3] after an older one, commented out, gets the
    older version. *)
Lemma earlier_tag_wins :
  Str.contains "<spring-boot.version>1.2.3" pom_with_commented_tag = true
  /\ exists r s,
       scan (project_with_pom pom_with_commented_tag) initial_state = Returned r s
       /\ spring_boot_version r = "3.5.0"
       /\ spring_boot_version r <> "1.2.3".
Proof.
  split; [reflexivity|].
  eexists; eexists. split; [vm_compute; reflexivity|].
  split; [reflexivity | discriminate].
Qed.

(** C5, amended: when the build descriptor is readable, [scan] returns a
    result in which a version attribute holds the run of digits and dots [v]
    (for instance 1.2.3) that follows the first place where the tag is
    directly followed by a digit or a dot, provided the run ends there; the
    attribute is ["Unknown"] when the tag text is absent. *)
Theorem version_field_of_first_tag :
  forall (p : Project) (content : string) (f : version_field),
    pom p = Some (Content content) ->
    exists r s,
      scan p initial_state = Returned r s
      /\ (forall pre v rest,
            content = (pre ++ version_tag f ++ v ++ rest)%str ->
            (forall a b, content = (a ++ version_tag f ++ b)%str ->
                         (Str.length a < Str.length pre)%nat ->
                         Str.starts_with_char is_version_char b = false) ->
            v <> "" ->
            Str.all_chars is_version_char v = true ->
            Str.starts_with_char is_version_char rest = false ->
            get_version f r = v)
      /\ (Str.contains (version_tag f) content = false ->
          get_version f r = Unknown).
Proof.
  intros p content f Hpom.
  exists (result (after_scan p initial_state)), (after_scan p initial_state).
  split.
  - apply scan_returns. intros e. rewrite Hpom. discriminate.
  - rewrite get_version_after_scan. unfold detected_version. rewrite Hpom.
    split.
    + intros pre v rest E Hfirst Hne Hv Hrest.
      rewrite E in *. rewrite re_search_skip by exact Hfirst.
      rewrite (re_search_here _ _ v); [reflexivity|].
      now apply match_at_app.
    + intros Habs. rewrite re_search_none; [now destruct f|].
      intros a b E. now destruct (contains_false _ _ Habs a b).
Qed.

Lemma version_field_of_first_tag_witness :
  exists r s,
    scan (project_with_pom pom_with_boot_123) initial_state = Returned r s
    /\ get_version SpringBoot r = "1.2.3"
    /\ get_version Testcontainers r = Unknown.
Proof.
  destruct (version_field_of_first_tag (project_with_pom pom_with_boot_123)
              pom_with_boot_123 SpringBoot eq_refl) as [r [s [H [H1 _]]]].
  destruct (version_field_of_first_tag (project_with_pom pom_with_boot_123)
              pom_with_boot_123 Testcontainers eq_refl) as [r' [s' [H' [_ H2]]]].
  exists r, s. split; [exact H|]. split.
  - apply (H1 ("<properties>" ++ Str.nl)%str "1.2.3"
              ("</spring-boot.version>" ++ Str.nl ++ "</properties>")%str).
    + reflexivity.
    + apply (no_match_before_sound _ 13). reflexivity.
    + discriminate.
    + reflexivity.
    + reflexivity.
  - rewrite H in H'. injection H' as -> _. apply H2. reflexivity.
Defined.



(** ** The log of assignments *)

Lemma writes_apply_writes ws s : writes (apply_writes ws s) = writes s ++ ws.
Proof.
  revert s. induction ws as [|[f v] ws IH]; intros s; simpl.
  - now rewrite app_nil_r.
  - unfold apply_writes in IH. rewrite IH. simpl. now rewrite <- app_assoc.
Qed.

Lemma writes_after_descriptor p s :
  writes (after_descriptor p s) = writes s ++ descriptor_writes p.
Proof.
  unfold after_descriptor, descriptor_writes, after_pom. cbv zeta.
  destruct (pom p) as [[content|e]|]; rewrite ?writes_extend, ?writes_apply_writes,
    ?writes_extend, ?app_nil_r; reflexivity.
Qed.

(** Whatever happens, [scan] ends in [after_scan] or, when the build
    descriptor cannot be read, in [after_descriptor]. *)
Lemma scan_final_state p s :
  state_of (scan p s)
  = match pom p with
    | Some (Unreadable _) => after_descriptor p s
    | _ => after_scan p s
    end.
Proof.
  destruct (pom p) as [[content|e]|] eqn:E.
  - rewrite scan_returns; [reflexivity|]. intros e. rewrite E. discriminate.
  - now rewrite (scan_raises p e s E).
  - rewrite scan_returns; [reflexivity|]. intros e. rewrite E. discriminate.
Qed.

Lemma writes_scan p s :
  writes (state_of (scan p s)) = writes s ++ descriptor_writes p.
Proof.
  rewrite scan_final_state.
  destruct (pom p) as [[content|e]|] eqn:E;
    unfold after_scan; cbv zeta; rewrite ?writes_extend;
    apply writes_after_descriptor.
Qed.

Lemma get_version_scan f p s :
  get_version f (result (state_of (scan p s)))
  = match detected_version p f with
    | Some v => v
    | None => get_version f (result s)
    end.
Proof.
  rewrite scan_final_state.
  destruct (pom p) as [[content|e]|] eqn:E;
    auto using get_version_after_scan, get_version_after_descriptor.
Qed.

Lemma count_writes_app f w1 w2 :
  count_writes f (w1 ++ w2) = (count_writes f w1 + count_writes f w2)%nat.
Proof. unfold count_writes. now rewrite filter_app, length_app. Qed.

Lemma count_writes_detection f g content :
  (count_writes f (detection g content) <= if version_field_eqb g f then 1 else 0)%nat.
Proof.
  unfold detection, count_writes.
  destruct (re_search (version_tag g) content); simpl.
  - destruct (version_field_eqb g f); simpl; lia.
  - destruct (version_field_eqb g f); lia.
Qed.

Lemma count_writes_pom f content : (count_writes f (pom_writes content) <= 1)%nat.
Proof.
  rewrite pom_writes_detections, !count_writes_app.
  pose proof (count_writes_detection f SpringBoot content).
  pose proof (count_writes_detection f SpringModulith content).
  pose proof (count_writes_detection f Testcontainers content).
  destruct f; simpl in *; lia.
Qed.

Lemma in_pom_writes f v content :
  In (f, v) (pom_writes content) <-> re_search (version_tag f) content = Some v.
Proof.
  rewrite pom_writes_detections, !in_app_iff. unfold detection. split.
  - intros [H|[H|H]];
      match type of H with
      | In _ (match ?r with _ => _ end) => destruct r eqn:E; simpl in H
      end; try contradiction;
      destruct H as [H|[]]; inversion H; subst; assumption.
  - intros H. destruct f; rewrite H; simpl; auto.
Qed.

Lemma in_descriptor_writes f v p :
  In (f, v) (descriptor_writes p) <-> detected_version p f = Some v.
Proof.
  unfold descriptor_writes, detected_version.
  destruct (pom p) as [[content|e]|]; [apply in_pom_writes | |];
    simpl; split; (contradiction || discriminate).
Qed.

(** The scanners that run after the build descriptor assign no version. *)
Lemma emits_keeps_versions m i o s f :
  emits m i o ->
  writes (state_of (m s)) = writes s
  /\ get_version f (result (state_of (m s))) = get_version f (result s).
Proof.
  intros H. rewrite H. split; [reflexivity | now destruct f].
Qed.

(** C8: over a whole scan each version attribute is assigned at most once;
    an assignment stores the first match of the attribute's pattern in the
    build descriptor, during the build-descriptor step, and that value is
    still there at the end; an attribute never assigned is ["Unknown"]; the
    source, configuration and migration scanners assign no version,
    whatever state they start from. *)
Theorem version_fields_write_once :
  forall (p : Project),
    let final := state_of (scan p initial_state) in
    (forall f, (count_writes f (writes final) <= 1)%nat)
    /\ (forall f v, In (f, v) (writes final) ->
                    detected_version p f = Some v
                    /\ get_version f (result final) = v)
    /\ (forall f, count_writes f (writes final) = 0%nat ->
                  get_version f (result final) = Unknown)
    /\ writes final = writes (state_of (scan_descriptor p initial_state))
    /\ (forall s f,
          (writes (state_of (_scan_java_files p s)) = writes s
           /\ get_version f (result (state_of (_scan_java_files p s)))
              = get_version f (result s))
          /\ (writes (state_of (_scan_properties p s)) = writes s
              /\ get_version f (result (state_of (_scan_properties p s)))
                 = get_version f (result s))
          /\ (writes (state_of (_scan_flyway_migrations p s)) = writes s
              /\ get_version f (result (state_of (_scan_flyway_migrations p s)))
                 = get_version f (result s))).
Proof.
  intros p final. subst final.
  rewrite writes_scan, scan_descriptor_state, writes_after_descriptor. simpl app.
  split; [|split; [|split; [|split]]].
  - intros f. unfold descriptor_writes.
    destruct (pom p) as [[content|e]|]; [apply count_writes_pom | |];
      unfold count_writes; simpl; lia.
  - intros f v H. apply in_descriptor_writes in H.
    split; [exact H|]. now rewrite get_version_scan, H.
  - intros f H. rewrite get_version_scan.
    destruct (detected_version p f) as [v|] eqn:E; [|now destruct f].
    apply in_descriptor_writes in E.
    assert (L : (1 <= count_writes f (descriptor_writes p))%nat).
    { unfold count_writes.
      assert (I : In (f, v) (filter (fun w => version_field_eqb (fst w) f)
                                    (descriptor_writes p)))
        by (apply filter_In; split; [exact E | now destruct f]).
      destruct (filter _ _); [contradiction | simpl; lia]. }
    lia.
  - reflexivity.
  - intros s f. split; [|split].
    + exact (emits_keeps_versions _ _ _ s f (emits_scan_java_files p)).
    + exact (emits_keeps_versions _ _ _ s f (emits_scan_properties p)).
    + exact (emits_keeps_versions _ _ _ s f (emits_scan_flyway_migrations p)).
Qed.

Lemma version_fields_write_once_witness :
  spring_boot_version
    (result (state_of (scan (project_with_pom pom_with_boot_123) initial_state)))
  = "1.2.3"
  /\ testcontainers_version
       (result (state_of (scan (project_with_pom pom_with_boot_123) initial_state)))
     = Unknown.
Proof.
  destruct (version_fields_write_once (project_with_pom pom_with_boot_123))
    as [_ [H2 [H3 _]]].
  split.
  - apply (H2 SpringBoot "1.2.3"). vm_compute. left. reflexivity.
  - apply (H3 Testcontainers). vm_compute. reflexivity.
Defined.

(** ** Line numbers *)

Lemma enumerate_in {A} (l : list A) (start k : Z) (x : A) :
  In (k, x) (enumerate l start) -> start <= k < start + len l.
Proof.
  revert start. unfold len.
  induction l as [|y l IH]; intros start H; simpl in H; [contradiction|].
  change (List.length (y :: l)) with (S (List.length l)).
  destruct H as [H|H].
  - inversion H; subst. lia.
  - apply IH in H. lia.
Qed.

Lemma per_line_forall {A} (P : A -> Prop) lines (f : Z -> string -> list A) :
  (forall i line, 1 <= i <= len lines -> Forall P (f i line)) ->
  Forall P (per_line lines f).
Proof.
  intros H. unfold per_line. apply Forall_flat_map, Forall_forall.
  intros [i line] Hin. apply enumerate_in in Hin. apply H. lia.
Qed.

Lemma guarded_forall (P : Issue -> Prop) guard test mk lines :
  (forall i, 1 <= i <= len lines -> P (mk i)) ->
  Forall P (guarded_line_issues guard test mk lines).
Proof.
  intros H. unfold guarded_line_issues. destruct guard; [|constructor].
  apply per_line_forall. intros i line Hi.
  destruct (test line); auto.
Qed.

(** Proves a property of every issue of a check from the property on each
    issue the check can build. *)
Ltac each_issue :=
  repeat first
    [ apply Forall_app; split
    | apply per_line_forall; intros ? ? ?
    | apply guarded_forall; intros ? ? ];
  simpl flat_map;
  repeat match goal with
         | |- Forall _ (_ ++ _) => apply Forall_app; split
         | |- Forall _ (if ?c then _ else _) => destruct c
         | |- Forall _ (_ :: _) => constructor
         | |- Forall _ [] => constructor
         end.

Lemma pom_issues_on_lines path lines : Forall on_a_line (pom_issues path lines).
Proof.
  unfold pom_issues, old_starter_issues, security_test_issues_in,
    tc_artifact_issues_in.
  each_issue; unfold on_a_line; simpl; lia.
Qed.

Lemma java_lines_issues_on_lines rel lines :
  Forall on_a_line (java_lines_issues rel lines).
Proof.
  unfold java_lines_issues, test_annotation_issues, old_import_issues,
    tc_old_import_issues, localstack_service_issues, resilience_issues,
    retryable_issues, jackson2_issues, generic_container_issues,
    endpoint_override_issues.
  each_issue; unfold on_a_line; simpl; lia.
Qed.

Lemma java_files_issues_on_lines p : Forall on_a_line (java_files_issues p).
Proof.
  unfold java_files_issues. apply Forall_flat_map, Forall_forall. intros f _.
  unfold java_file_issues. destruct (java_lines f); [|constructor].
  apply java_lines_issues_on_lines.
Qed.

Lemma jackson_prop_issues_on_lines rel lines :
  Forall on_a_line (jackson_prop_issues rel lines).
Proof.
  unfold jackson_prop_issues. each_issue; unfold on_a_line; simpl; lia.
Qed.

Lemma no_file_level_on_lines l :
  Forall on_a_line l -> filter critical_file_level l = [].
Proof.
  induction 1 as [|i l H _ IH]; simpl; [reflexivity|].
  unfold critical_file_level at 1. unfold on_a_line in H.
  destruct (Z.eqb_spec (line_number i) 0); [lia|].
  now rewrite andb_false_r.
Qed.

(** * The migration directory *)

Lemma detected_after_descriptor p s :
  modulith_detected (result (after_descriptor p s))
  = match detected_version p SpringModulith with
    | Some _ => true
    | None => modulith_detected (result s)
    end.
Proof.
  unfold modulith_detected.
  change (spring_modulith_version (result (after_descriptor p s)))
    with (get_version SpringModulith (result (after_descriptor p s))).
  rewrite get_version_after_descriptor.
  destruct (detected_version p SpringModulith) as [v|] eqn:E; [|reflexivity].
  destruct (string_eqb_spec v Unknown) as [->|N]; [|reflexivity].
  unfold detected_version in E. destruct (pom p) as [[c|e]|]; try discriminate.
  now apply re_search_not_unknown in E.
Qed.

Lemma scan_before_flyway_returns p s :
  (forall e, pom p <> Some (Unreadable e)) ->
  scan_before_flyway p s
  = Returned tt
      (extend (after_descriptor p s)
         (java_files_issues p
          ++ properties_issues p (modulith_detected (result (after_descriptor p s))))
         (java_files_output p ++ properties_output p)).
Proof.
  intros H. unfold scan_before_flyway, bind.
  rewrite (scan_descriptor_returns p s H).
  rewrite emits_scan_java_files, emits_scan_properties.
  now rewrite !detected_extend, !extend_extend.
Qed.

Lemma filter_nil_existsb {A} (f : A -> bool) l :
  match filter f l with [] => true | _ :: _ => false end = negb (existsb f l).
Proof.
  induction l as [|x l IH]; simpl; [reflexivity|].
  destruct (f x); simpl; [reflexivity | exact IH].
Qed.

(** C1, as stated, fails: with a modularity-framework version detected and
    no migration directory, the migration scanner adds no issue. *)
Lemma missing_migration_directory_is_silent :
  detected_version project_without_migrations SpringModulith = Some "2.0.0"
  /\ migration project_without_migrations = None
  /\ new_issues (_scan_flyway_migrations project_without_migrations)
                (state_of (scan_before_flyway project_without_migrations
                             initial_state))
     = []
  /\ issues (result (state_of (scan project_without_migrations initial_state)))
     = [].
Proof. repeat split; reflexivity. Qed.

(** C1, amended: in a run where the build descriptor gave a
    modularity-framework version, the migration scanner returns and adds
    nothing when the migration directory is missing; the one CRITICAL
    file-level issue about the missing [__root] directory when that is
    missing; the one CRITICAL file-level issue about the missing schema
    migration when no entry of [__root] matches [V0__*events*.sql]; and
    nothing otherwise. *)
Theorem flyway_outcomes :
  forall (p : Project) (content v : string),
    pom p = Some (Content content) ->
    re_search (version_tag SpringModulith) content = Some v ->
    exists s1 s2,
      scan_before_flyway p initial_state = Returned tt s1
      /\ _scan_flyway_migrations p s1 = Returned tt s2
      /\ new_issues (_scan_flyway_migrations p) s1
         = match migration p with
           | None => []
           | Some None => [missing_root_issue]
           | Some (Some names) =>
               if existsb glob_events_schema names then []
               else [missing_events_schema_issue]
           end
      /\ critical_file_level missing_root_issue = true
      /\ critical_file_level missing_events_schema_issue = true.
Proof.
  intros p content v Hpom Hv.
  assert (R : forall e, pom p <> Some (Unreadable e))
    by (intros e; rewrite Hpom; discriminate).
  eexists; eexists. split; [apply (scan_before_flyway_returns _ _ R)|].
  split; [apply emits_scan_flyway_migrations|].
  split; [|split; reflexivity].
  erewrite new_issues_extend by apply emits_scan_flyway_migrations.
  rewrite detected_extend, detected_after_descriptor.
  unfold detected_version. rewrite Hpom, Hv.
  unfold flyway_issues. destruct (migration p) as [[names|]|]; try reflexivity.
  pose proof (filter_nil_existsb glob_events_schema names) as F.
  destruct (filter glob_events_schema names);
    destruct (existsb glob_events_schema names); try discriminate; reflexivity.
Qed.

Lemma flyway_outcomes_witness :
  exists s1 s2,
    scan_before_flyway project_without_root initial_state = Returned tt s1
    /\ _scan_flyway_migrations project_without_root s1 = Returned tt s2
    /\ new_issues (_scan_flyway_migrations project_without_root) s1
       = [missing_root_issue].
Proof.
  destruct (flyway_outcomes project_without_root pom_with_modulith "2.0.0"
              eq_refl eq_refl) as [s1 [s2 [H1 [H2 [H3 _]]]]].
  exists s1, s2. repeat split; assumption.
Defined.

(** * Failures to read a file *)

(** C4 does not hold of the code: when the build descriptor exists and
    cannot be read, the exception leaves [scan] and [main]; no source or
    configuration file is scanned and no report is printed. *)
Theorem pom_read_failure_escapes :
  forall (root path e : string) (sources : list JavaFile)
         (props yml : option ConfigFile) (mig : option (option (list string))),
    let p := mkProject root path (Some (Unreadable e)) sources props yml mig in
    scan p initial_state = Raised e (after_descriptor p initial_state)
    /\ main p initial_state = Raised e (after_descriptor p initial_state)
    /\ issues (result (state_of (main p initial_state))) = []
    /\ stdout (state_of (main p initial_state))
       = [ ("Scanning project: " ++ root)%str; rule80 "=";
           (Str.nl ++ "📦 Scanning pom.xml...")%str ].
Proof.
  intros root path e sources props yml mig p.
  assert (H : scan p initial_state = Raised e (after_descriptor p initial_state))
    by (apply scan_raises; reflexivity).
  unfold main, bind. rewrite H. repeat split; reflexivity.
Qed.

(** The sibling paths do catch the failure: a source or configuration file
    that cannot be read is reported on standard output and skipped, and the
    scan of the other files goes on. *)
Lemma unreadable_source_is_skipped f e :
  java_lines f = Unreadable e ->
  emits (_scan_java_file f) (fun _ => [])
        (fun _ => [("   Error reading " ++ java_path f ++ ": " ++ e)%str]).
Proof.
  intros H. eapply emits_eq; [| |apply emits_scan_java_file]; intros d.
  - unfold java_file_issues. now rewrite H.
  - now rewrite H.
Qed.

(** * The event-store schema key *)

Lemma filter_file_level_config rel found d :
  filter critical_file_level (config_file_issues rel found d)
  = match found with
    | Some f =>
        match config_lines f with
        | Content lines =>
            if d && negb (has_schema_key lines)
            then [missing_schema_key_issue rel] else []
        | Unreadable _ => []
        end
    | None => []
    end.
Proof.
  unfold config_file_issues. destruct found as [f|]; [|reflexivity].
  destruct (config_lines f) as [lines|e]; [|reflexivity].
  unfold config_lines_issues. rewrite filter_app.
  rewrite (no_file_level_on_lines _ (jackson_prop_issues_on_lines rel lines)).
  now destruct (d && negb (has_schema_key lines)).
Qed.

Lemma filter_file_level_properties p d :
  filter critical_file_level (properties_issues p d)
  = if d then missing_key_issues p else [].
Proof.
  unfold properties_issues, missing_key_issues, props_paths. simpl flat_map.
  rewrite !filter_app, !filter_file_level_config. simpl filter.
  destruct (application_properties p) as [f1|], (application_yml p) as [f2|];
    try destruct (config_lines f1); try destruct (config_lines f2);
    destruct d; simpl; try reflexivity;
    repeat match goal with
           | |- context [has_schema_key ?l] => destruct (has_schema_key l)
           end; reflexivity.
Qed.

Lemma filter_file_level_flyway p d :
  filter critical_file_level (flyway_issues p d) = flyway_issues p d.
Proof.
  unfold flyway_issues.
  destruct (migration p) as [[names|]|]; try reflexivity;
    [destruct (filter glob_events_schema names)|]; now destruct d.
Qed.

(** The CRITICAL file-level issues of a whole scan. *)
Lemma file_level_issues_of_scan p :
  filter critical_file_level (issues (result (state_of (scan p initial_state))))
  = match detected_version p SpringModulith with
    | Some _ => missing_key_issues p ++ flyway_issues p true
    | None => []
    end.
Proof.
  rewrite scan_final_state.
  assert (D : filter critical_file_level
                (issues (result (after_descriptor p initial_state))) = []).
  { unfold after_descriptor, after_pom. cbv zeta.
    destruct (pom p) as [[content|e]|]; try reflexivity.
    rewrite issues_extend. rewrite filter_app.
    rewrite (no_file_level_on_lines _ (pom_issues_on_lines _ _)).
    rewrite app_nil_r.
    assert (I : forall ws s, issues (result (apply_writes ws s)) = issues (result s)).
    { induction ws as [|[f v] ws IH]; intros s; [reflexivity|].
      simpl. unfold apply_writes in IH. rewrite IH. now destruct f. }
    rewrite I. reflexivity. }
  assert (U : forall e, pom p = Some (Unreadable e) ->
                        detected_version p SpringModulith = None)
    by (intros e H; unfold detected_version; now rewrite H).
  destruct (pom p) as [[content|e]|] eqn:E.
  2:{ rewrite (U e eq_refl). exact D. }
  all: unfold after_scan; cbv zeta; rewrite issues_extend, !filter_app, D;
    rewrite (no_file_level_on_lines _ (java_files_issues_on_lines p));
    rewrite filter_file_level_properties, filter_file_level_flyway;
    rewrite detected_after_descriptor; simpl app;
    destruct (detected_version p SpringModulith); try reflexivity.
  all: change (modulith_detected (result initial_state)) with false;
    unfold flyway_issues; destruct (migration p) as [[names|]|]; try reflexivity;
    now destruct (filter glob_events_schema names).
Qed.

(** C2, as stated, fails: with a modularity-framework version detected and
    the schema key missing from the properties file, a project that also has
    an [application.yml] gets two CRITICAL file-level issues, one per file. *)
Lemma two_configuration_files_two_issues :
  detected_version project_with_two_configs SpringModulith = Some "2.0.0"
  /\ filter critical_file_level
       (issues (result (state_of (scan project_with_two_configs initial_state))))
     = [ missing_schema_key_issue application_properties_rel;
         missing_schema_key_issue application_yml_rel ].
Proof. split; reflexivity. Qed.

(** C2, amended: in a run where the build descriptor gave a
    modularity-framework version, the CRITICAL file-level issues of the scan
    are one per configuration file that is present, readable and without the key
    [spring.modulith.events.jdbc.schema], followed by what the migration
    check adds; in a run where no such version was detected there is no
    CRITICAL file-level issue at all. *)
Theorem schema_key_issues :
  forall (p : Project),
    let r := result (state_of (scan p initial_state)) in
    (forall v, detected_version p SpringModulith = Some v ->
               filter critical_file_level (issues r)
               = missing_key_issues p ++ flyway_issues p true)
    /\ (detected_version p SpringModulith = None ->
        filter critical_file_level (issues r) = []).
Proof.
  intros p r. subst r. rewrite file_level_issues_of_scan.
  split; [intros v H | intros H]; now rewrite H.
Qed.

Lemma schema_key_issues_witness :
  filter critical_file_level
    (issues (result (state_of (scan project_with_properties initial_state))))
  = [ missing_schema_key_issue application_properties_rel ].
Proof.
  destruct (schema_key_issues project_with_properties) as [H _].
  exact (H "2.0.0" eq_refl).
Defined.

(** * The context window *)

Lemma filter_enumerate_range {A} (l : list A) (s lo hi : Z) :
  map snd (filter (fun '(k, _) => (lo <=? k) && (k <=? hi)) (enumerate l s))
  = firstn (Z.to_nat (hi - Z.max lo s + 1)) (skipn (Z.to_nat (lo - s)) l).
Proof.
  revert s. induction l as [|x l IH]; intros s.
  - simpl. now rewrite skipn_nil, firstn_nil.
  - simpl enumerate. simpl filter.
    destruct (Z.leb_spec lo s) as [L|L]; simpl andb; cbv beta iota.
    + replace (Z.to_nat (lo - s)) with 0%nat by lia.
      simpl skipn.
      destruct (Z.leb_spec s hi) as [H|H]; cbv beta iota; simpl map; rewrite IH.
      * replace (Z.to_nat (lo - (s + 1))) with 0%nat by lia.
        replace (Z.to_nat (hi - Z.max lo s + 1))
          with (S (Z.to_nat (hi - Z.max lo (s + 1) + 1))) by lia.
        reflexivity.
      * replace (Z.to_nat (hi - Z.max lo (s + 1) + 1)) with 0%nat by lia.
        replace (Z.to_nat (hi - Z.max lo s + 1)) with 0%nat by lia.
        reflexivity.
    + rewrite IH.
      replace (Z.to_nat (lo - s)) with (S (Z.to_nat (lo - (s + 1)))) by lia.
      replace (Z.max lo (s + 1)) with (Z.max lo s) by lia.
      reflexivity.
Qed.

Lemma firstn_beyond {A} (l : list A) n m :
  (List.length l <= n)%nat -> (List.length l <= m)%nat -> firstn n l = firstn m l.
Proof. intros. now rewrite !firstn_all2. Qed.

Lemma context_window lines i :
  1 <= i <= len lines ->
  context lines i = window_2_2 lines i.
Proof.
  intros H. unfold context, window_2_2, lines_between, slice. f_equal.
  rewrite filter_enumerate_range.
  replace (Z.to_nat (i - 2 - 1)) with (Z.to_nat (Z.max 0 (i - 3))) by lia.
  destruct (Z.leb_spec (i + 2) (len lines)).
  - f_equal. lia.
  - apply firstn_beyond; rewrite length_skipn; unfold len in *; lia.
Qed.

Lemma per_line_ext {A} lines (f g : Z -> string -> list A) :
  (forall i line, 1 <= i <= len lines -> f i line = g i line) ->
  per_line lines f = per_line lines g.
Proof.
  intros H. unfold per_line.
  assert (E : forall l : list (Z * string),
             (forall i line, In (i, line) l -> f i line = g i line) ->
             flat_map (fun '(i, line) => f i line) l
             = flat_map (fun '(i, line) => g i line) l).
  { induction l as [|[i line] l IH]; intros Hl; [reflexivity|].
    simpl. rewrite (Hl i line) by (left; reflexivity).
    f_equal. apply IH. intros j l' Hin. apply Hl. now right. }
  apply E. intros i line Hin. apply enumerate_in in Hin. apply H. lia.
Qed.

(** C3, as stated, fails: with the owning group three lines above the
    [spring-security-test] artifact on line 4, the text the code tests is
    not the join of lines 1 to 6; the group is outside it and no issue is
    added. *)
Lemma group_three_lines_above_is_outside :
  context pom_lines_group_three_above 4 <> spec_context pom_lines_group_three_above 4
  /\ Str.contains "<groupId>org.springframework.security</groupId>"
       (spec_context pom_lines_group_three_above 4) = true
  /\ Str.contains "<groupId>org.springframework.security</groupId>"
       (context pom_lines_group_three_above 4) = false
  /\ new_issues (scan_security_test "pom.xml" pom_lines_group_three_above)
                initial_state = [].
Proof. split; [discriminate | repeat split; reflexivity]. Qed.

(** C3, amended: for a line [i] of the build descriptor (1-based) the
    context string is the join of the 2 lines before line [i] through the
    2 lines after it, cut at the ends of the file; the
    [spring-security-test] check and the Testcontainers check both test
    their group identifier against that window. *)
Theorem context_is_two_before_two_after :
  forall (path : string) (lines : list string) (s : State),
    (forall i, 1 <= i <= len lines -> context lines i = window_2_2 lines i)
    /\ new_issues (scan_security_test path lines) s
       = security_test_issues_in (window_2_2 lines) path lines
    /\ new_issues (scan_tc_artifacts path lines) s
       = tc_artifact_issues_in (window_2_2 lines) path lines.
Proof.
  intros path lines s. split; [apply context_window|]. split.
  - erewrite new_issues_extend by apply adds_scan_security_test.
    unfold security_test_issues_in. apply per_line_ext.
    intros i line Hi. now rewrite context_window.
  - erewrite new_issues_extend by apply adds_scan_tc_artifacts.
    unfold tc_artifact_issues_in. apply per_line_ext.
    intros i line Hi. now rewrite context_window.
Qed.

Lemma context_is_two_before_two_after_witness :
  context pom_lines_group_three_above 4
  = ("<!-- test support -->" ++ Str.nl ++ "<!-- for the security tests -->" ++ Str.nl
     ++ "<artifactId>spring-security-test</artifactId>" ++ Str.nl
     ++ "<scope>test</scope>")%str.
Proof.
  destruct (context_is_two_before_two_after "pom.xml" pom_lines_group_three_above
              initial_state) as [H _].
  rewrite (H 4); [reflexivity | vm_compute; split; discriminate].
Defined.

(** * The test-annotation check *)

Lemma filter_none {A} (Q : A -> bool) l :
  Forall (fun x => Q x = false) l -> filter Q l = [].
Proof.
  induction 1 as [|x l H _ IH]; simpl; [reflexivity|]. now rewrite H.
Qed.

(** The issues a line loop reports for line [start + n] are those built
    while line [start + n] is looked at. *)
Lemma filter_enumerate_at (Q : Issue -> bool) (f : Z -> string -> list Issue)
    (i : Z) lines :
  (forall x, Q x = true -> line_number x = i) ->
  (forall k l x, In x (f k l) -> line_number x = k) ->
  forall (n : nat) (line : string) (start : Z),
    nth_error lines n = Some line ->
    i = start + Z.of_nat n ->
    filter Q (flat_map (fun '(k, l) => f k l) (enumerate lines start))
    = filter Q (f i line).
Proof.
  intros HQ Hf.
  assert (Off : forall k l, k <> i -> filter Q (f k l) = []).
  { intros k l N. apply filter_none, Forall_forall. intros x Hx.
    destruct (Q x) eqn:E; [|reflexivity].
    apply HQ in E. apply Hf in Hx. congruence. }
  assert (Later : forall l start, i < start ->
            filter Q (flat_map (fun '(k, l) => f k l) (enumerate l start)) = []).
  { induction l as [|y l IH]; intros start L; [reflexivity|].
    simpl. rewrite filter_app, Off by lia. apply IH. lia. }
  induction lines as [|y lines IH]; intros n line start Hn Hi.
  - destruct n; discriminate.
  - simpl. rewrite filter_app. destruct n as [|n]; simpl in Hn.
    + inversion Hn; subst y. replace start with i by lia.
      rewrite Later by lia. apply app_nil_r.
    + rewrite Off by lia. apply (IH n line (start + 1) Hn). lia.
Qed.







(** * Independence of the files *)

Lemma issues_for_app path l1 l2 :
  issues_for path (l1 ++ l2) = issues_for path l1 ++ issues_for path l2.
Proof. apply filter_app. Qed.

Lemma issues_for_other path other l :
  other <> path -> Forall (fun x => file_path x = other) l -> issues_for path l = [].
Proof.
  intros N H. apply filter_none. eapply Forall_impl; [|exact H].
  intros x Hx. simpl in Hx. rewrite Hx. now apply string_eqb_neq.
Qed.

Lemma java_lines_issues_path rel lines :
  Forall (fun x => file_path x = rel) (java_lines_issues rel lines).
Proof.
  unfold java_lines_issues, test_annotation_issues, old_import_issues,
    tc_old_import_issues, localstack_service_issues, resilience_issues,
    retryable_issues, jackson2_issues, generic_container_issues,
    endpoint_override_issues.
  each_issue; reflexivity.
Qed.

Lemma java_file_issues_path f :
  Forall (fun x => file_path x = java_rel_path f) (java_file_issues f).
Proof.
  unfold java_file_issues. destruct (java_lines f); [|constructor].
  apply java_lines_issues_path.
Qed.

Lemma config_file_issues_path rel found d :
  Forall (fun x => file_path x = rel) (config_file_issues rel found d).
Proof.
  unfold config_file_issues. destruct found as [f|]; [|constructor].
  destruct (config_lines f) as [lines|e]; [|constructor].
  unfold config_lines_issues, jackson_prop_issues.
  each_issue; reflexivity.
Qed.

Lemma flyway_issues_path p d :
  Forall (fun x => ends_with_slash (file_path x) = true) (flyway_issues p d).
Proof.
  unfold flyway_issues. destruct (migration p) as [[names|]|]; [| |constructor].
  - destruct (filter glob_events_schema names); [|constructor].
    destruct d; repeat constructor.
  - destruct d; repeat constructor.
Qed.

Lemma issues_for_flyway path p d :
  ends_with_slash path = false -> issues_for path (flyway_issues p d) = [].
Proof.
  intros H. apply filter_none. eapply Forall_impl; [|apply flyway_issues_path].
  intros x Hx. simpl in Hx. apply string_eqb_neq. congruence.
Qed.

Lemma issues_for_remove_nth path (l : list JavaFile) n :
  option_map java_rel_path (nth_error l n) <> Some path ->
  issues_for path (flat_map java_file_issues (remove_nth n l))
  = issues_for path (flat_map java_file_issues l).
Proof.
  revert n. induction l as [|f l IH]; intros n H; [now destruct n|].
  destruct n as [|n]; simpl in *.
  - assert (E : issues_for path (java_file_issues f) = [])
      by (apply (issues_for_other path (java_rel_path f));
          [congruence | apply java_file_issues_path]).
    now rewrite issues_for_app, E.
  - rewrite !issues_for_app. f_equal. now apply IH.
Qed.

Lemma after_descriptor_delete d p s :
  d <> PomFile -> after_descriptor (delete_file d p) s = after_descriptor p s.
Proof. intros N. destruct d; (contradiction || reflexivity). Qed.

Lemma pom_delete d p : d <> PomFile -> pom (delete_file d p) = pom p.
Proof. intros N. destruct d; (contradiction || reflexivity). Qed.

(** The issues a scan reports under a path, step by step. *)
Lemma scan_issues_for_steps path p :
  scan_issues_for path p
  = issues_for path (issues (result (after_descriptor p initial_state)))
    ++ match pom p with
       | Some (Unreadable _) => []
       | _ =>
           let d := modulith_detected (result (after_descriptor p initial_state)) in
           issues_for path (java_files_issues p)
           ++ issues_for path (properties_issues p d)
           ++ issues_for path (flyway_issues p d)
       end.
Proof.
  unfold scan_issues_for. rewrite scan_final_state.
  destruct (pom p) as [[content|e]|];
    [ | now rewrite app_nil_r | ];
    unfold after_scan; cbv zeta;
    now rewrite issues_extend, !issues_for_app.
Qed.

Lemma java_files_issues_delete path d p :
  d <> PomFile -> reported_path d p <> Some path ->
  issues_for path (java_files_issues (delete_file d p))
  = issues_for path (java_files_issues p).
Proof.
  intros Hd Hp. destruct d; try reflexivity.
  now apply issues_for_remove_nth.
Qed.

Lemma issues_for_absent_config path rel found det :
  match found with Some _ => Some rel | None => None end <> Some path ->
  issues_for path (config_file_issues rel found det) = [].
Proof.
  intros H. destruct found as [f|]; [|reflexivity].
  apply (issues_for_other path rel); [congruence | apply config_file_issues_path].
Qed.

Lemma properties_issues_delete path d p det :
  d <> PomFile -> reported_path d p <> Some path ->
  issues_for path (properties_issues (delete_file d p) det)
  = issues_for path (properties_issues p det).
Proof.
  intros Hd Hp. destruct d; try reflexivity;
    unfold properties_issues, props_paths; simpl flat_map;
    rewrite !issues_for_app; simpl in Hp;
    rewrite (issues_for_absent_config path _ _ det Hp); reflexivity.
Qed.

(** C9, as stated, fails: deleting the build descriptor from a project
    leaves [application.properties] present and unchanged, and the issue
    reported for it goes away. *)
Lemma deleting_pom_changes_properties_issues :
  application_properties (delete_file PomFile project_with_properties)
  = application_properties project_with_properties
  /\ scan_issues_for application_properties_rel project_with_properties
     = [missing_schema_key_issue application_properties_rel]
  /\ scan_issues_for application_properties_rel
       (delete_file PomFile project_with_properties)
     = [].
Proof. repeat split; reflexivity. Qed.

(** C9, amended: for two project trees that differ only by the deletion of
    one file other than the build descriptor, a whole scan reports the same
    issues, field for field and in the same order, under every path that
    names a file and is not the path of the deleted file. *)
Theorem other_files_keep_their_issues :
  forall (p : Project) (d : file_id) (path : string),
    d <> PomFile ->
    reported_path d p <> Some path ->
    ends_with_slash path = false ->
    scan_issues_for path (delete_file d p) = scan_issues_for path p.
Proof.
  intros p d path Hd Hpath Hfile.
  rewrite !scan_issues_for_steps.
  rewrite (after_descriptor_delete d p _ Hd), (pom_delete d p Hd).
  f_equal. destruct (pom p) as [[content|e]|]; try reflexivity; cbv zeta;
    rewrite !(issues_for_flyway path _ _ Hfile);
    rewrite (java_files_issues_delete path d p Hd Hpath);
    rewrite (properties_issues_delete path d p _ Hd Hpath);
    reflexivity.
Qed.

Lemma other_files_keep_their_issues_witness :
  scan_issues_for "src/test/java/OrderTest.java"
    (delete_file (SourceFile 0) project_with_two_sources)
  = scan_issues_for "src/test/java/OrderTest.java" project_with_two_sources.
Proof.
  apply (other_files_keep_their_issues project_with_two_sources (SourceFile 0)
           "src/test/java/OrderTest.java");
    [discriminate | discriminate | reflexivity].
Defined.

(** * The report *)

(** ** Counting *)

Lemma fold_ones {A} (l : list A) (a : Z) :
  fold_left Z.add (map (fun _ => 1) l) a = a + Z.of_nat (List.length l).
Proof.
  revert a. induction l as [|x l IH]; intros a; simpl map; simpl fold_left.
  - simpl. lia.
  - rewrite IH. change (List.length (x :: l)) with (S (List.length l)). lia.
Qed.

Lemma number_of_filter sev all :
  number_of sev all = List.length (filter (fun i => (severity i =? sev)%str) all).
Proof.
  induction all as [|i all IH]; simpl; [reflexivity|].
  destruct (severity i =? sev)%str; simpl; lia.
Qed.

Lemma count_severity_number sev all :
  count_severity sev all = Z.of_nat (number_of sev all).
Proof.
  unfold count_severity. rewrite fold_ones, number_of_filter. lia.
Qed.

(** ** The dict of groups *)

Lemma dict_get_append k k' i d :
  dict_get k (dict_append k' i d)
  = if (k' =? k)%str
    then Some (match dict_get k d with Some v => v | None => [] end ++ [i])
    else dict_get k d.
Proof.
  induction d as [|[k0 v] d IH]; simpl.
  - destruct (k' =? k)%str; reflexivity.
  - destruct (string_eqb_spec k0 k') as [->|N]; simpl.
    + destruct (k' =? k)%str; reflexivity.
    + rewrite IH. destruct (string_eqb_spec k0 k) as [->|N'].
      * apply string_eqb_neq in N. rewrite string_eqb_sym in N. now rewrite N.
      * reflexivity.
Qed.

Lemma keys_dict_append k i d :
  forall k', In k' (map fst (dict_append k i d)) <-> k' = k \/ In k' (map fst d).
Proof.
  intros k'. induction d as [|[k0 v] d IH]; simpl.
  - intuition.
  - destruct (string_eqb_spec k0 k) as [->|N]; simpl; [intuition|].
    rewrite IH. intuition.
Qed.

Lemma nodup_dict_append k i d :
  NoDup (map fst d) -> NoDup (map fst (dict_append k i d)).
Proof.
  induction d as [|[k0 v] d IH]; simpl; intros H.
  - repeat constructor. intros [].
  - destruct (string_eqb_spec k0 k) as [->|N]; simpl; [exact H|].
    inversion H; subst. constructor; [|auto].
    rewrite keys_dict_append. intros [E|E]; congruence.
Qed.

Lemma dict_get_grouped k l d :
  dict_get k (grouped d l)
  = joined (dict_get k d) (filter (fun i => (group_key i =? k)%str) l).
Proof.
  revert d. induction l as [|i l IH]; intros d; [reflexivity|].
  unfold grouped in *. simpl fold_left. rewrite IH, dict_get_append. simpl filter.
  destruct (group_key i =? k)%str; [|reflexivity].
  unfold joined. destruct (filter _ l); [reflexivity|].
  now rewrite <- app_assoc.
Qed.

Lemma keys_grouped l d :
  forall k, In k (map fst (grouped d l))
            <-> In k (map fst d) \/ exists i, In i l /\ group_key i = k.
Proof.
  revert d. induction l as [|i l IH]; intros d k.
  - simpl. split; [auto | intros [H|[i [[] _]]]; exact H].
  - unfold grouped in *. simpl fold_left. rewrite IH, keys_dict_append. split.
    + intros [[->|H]|[j [Hj E]]]; [right; exists i; simpl; auto | auto |].
      right. exists j. simpl. auto.
    + intros [H|[j [[->|Hj] E]]]; [auto | auto |]. right. eauto.
Qed.

Lemma nodup_grouped l d : NoDup (map fst d) -> NoDup (map fst (grouped d l)).
Proof.
  revert d. induction l as [|i l IH]; intros d H; [exact H|].
  unfold grouped in *. simpl fold_left. apply IH. now apply nodup_dict_append.
Qed.

(** ** Sorting the keys *)

Lemma insert_sorted_perm k l : Permutation (insert_sorted k l) (k :: l).
Proof.
  induction l as [|x l IH]; simpl; [reflexivity|].
  destruct (Str.leb k x); [reflexivity|].
  rewrite IH. apply perm_swap.
Qed.

Lemma sorted_perm l : Permutation (sorted l) l.
Proof.
  induction l as [|x l IH]; simpl; [reflexivity|].
  rewrite insert_sorted_perm. now constructor.
Qed.

(** ** Keys and pairs *)

Lemma rsplit1_cons sep c s :
  rsplit1 sep (String c s)
  = match rsplit1 sep s with
    | Some (a, b) => Some (String c a, b)
    | None => match Str.strip_prefix sep (String c s) with
              | Some r => Some ("", r)
              | None => None
              end
    end.
Proof. reflexivity. Qed.

Lemma valid_severity_cases v :
  v = "CRITICAL" \/ v = "WARNING" \/ v = "INFO" ->
  rsplit1 " - " (" - " ++ v) = Some ("", v) /\ severity_icon v = Some (icon_of v).
Proof. intros [H|[H|H]]; subst v; split; reflexivity. Qed.

(** [rsplit] gives back the category and the severity a key was built
    from. *)
Lemma key_pair_of_key c v :
  v = "CRITICAL" \/ v = "WARNING" \/ v = "INFO" ->
  rsplit1 " - " (pair_key (c, v)) = Some (c, v).
Proof.
  intros H. unfold pair_key. simpl fst. simpl snd.
  induction c as [|a c IH].
  - apply (valid_severity_cases v H).
  - change ((String a c ++ " - " ++ v)%str) with (String a (c ++ " - " ++ v)).
    now rewrite rsplit1_cons, IH.
Qed.

Lemma group_key_pair i : group_key i = pair_key (category i, severity i).
Proof. reflexivity. Qed.

Lemma key_pair_group_key i :
  valid_severity i -> key_pair (group_key i) = (category i, severity i).
Proof.
  intros H. unfold key_pair. now rewrite group_key_pair, key_pair_of_key.
Qed.

(** Two issues with valid severities share a key exactly when they share
    category and severity. *)
Lemma same_key_same_group i j :
  valid_severity i -> valid_severity j ->
  (group_key j =? group_key i)%str = in_group (category i) (severity i) j.
Proof.
  intros Hi Hj. unfold in_group.
  destruct (string_eqb_spec (group_key j) (group_key i)) as [E|N].
  - apply (f_equal key_pair) in E. rewrite !key_pair_group_key in E by assumption.
    inversion E. now rewrite !string_eqb_refl.
  - destruct (string_eqb_spec (category j) (category i)) as [Ec|]; [|reflexivity].
    destruct (string_eqb_spec (severity j) (severity i)) as [Es|]; [|reflexivity].
    destruct N. unfold group_key. now rewrite Ec, Es.
Qed.

(** ** Printing *)

Lemma prints_print line : prints (print line) [line].
Proof. intros s. apply print_extend. Qed.

Lemma prints_bind m k o1 o2 :
  prints m o1 -> prints k o2 -> prints (m ;; k) (o1 ++ o2).
Proof.
  intros H1 H2 s. unfold bind. rewrite H1, H2, extend_extend. reflexivity.
Qed.

Lemma prints_for {A} (xs : list A) body (g : A -> list string) :
  (forall x, In x xs -> prints (body x) (g x)) ->
  prints (for_ xs body) (flat_map g xs).
Proof.
  induction xs as [|x xs IH]; intros H; simpl.
  - intros s. unfold ret. now rewrite extend_nil.
  - apply prints_bind; [apply H; now left|]. apply IH. intros y Hy. apply H. now right.
Qed.

Lemma prints_print_issue i : prints (print_issue i) (issue_lines i).
Proof.
  unfold print_issue, issue_lines.
  repeat (apply (prints_bind _ _ [_]); [apply prints_print|]). apply prints_print.
Qed.

Lemma prints_print_summary all :
  prints (print_summary all)
    (summary_lines (number_of "CRITICAL" all) (number_of "WARNING" all)
                   (number_of "INFO" all) (List.length all)).
Proof.
  unfold print_summary, summary_lines. cbv zeta.
  rewrite !count_severity_number. unfold len.
  repeat (apply (prints_bind _ _ [_]); [apply prints_print|]). apply prints_print.
Qed.

Lemma prints_print_next_steps : prints print_next_steps next_steps_lines.
Proof.
  unfold print_next_steps, next_steps_lines.
  repeat (apply (prints_bind _ _ [_]); [apply prints_print|]). apply prints_print.
Qed.

Lemma prints_print_group d c v members :
  v = "CRITICAL" \/ v = "WARNING" \/ v = "INFO" ->
  dict_get (pair_key (c, v)) d = Some members ->
  prints (print_group d (pair_key (c, v))) (group_lines (c, v) members).
Proof.
  intros Hv Hd s. unfold print_group, bind, subscript.
  rewrite Hd, (key_pair_of_key c v Hv). unfold ret.
  destruct (valid_severity_cases v Hv) as [_ ->].
  rewrite !print_extend.
  rewrite (prints_for members print_issue issue_lines)
    by (intros; apply prints_print_issue).
  rewrite !extend_extend. reflexivity.
Qed.

(** ** The report *)

Lemma flat_map_of_map {A B C} (f : B -> list C) (g : A -> B) l :
  flat_map f (map g l) = flat_map (fun x => f (g x)) l.
Proof. induction l; simpl; congruence. Qed.

Lemma one_match_in_nodup (i : Issue) l :
  NoDup l -> In (category i, severity i) l ->
  List.length (filter (fun cv => in_group (fst cv) (snd cv) i) l) = 1%nat.
Proof.
  assert (T : forall cv : string * string,
             in_group (fst cv) (snd cv) i = true <-> cv = (category i, severity i)).
  { intros [a b]. unfold in_group. simpl.
    rewrite andb_true_iff, !string_eqb_eq. split; [intros [-> ->]; auto|].
    intros E; inversion E; auto. }
  induction 1 as [|y l Hy Hl IH]; intros Hin; [contradiction|].
  simpl. destruct (in_group (fst y) (snd y) i) eqn:E.
  - apply T in E. subst y. simpl. f_equal.
    rewrite filter_none; [reflexivity|]. apply Forall_forall. intros z Hz.
    destruct (in_group (fst z) (snd z) i) eqn:Ez; [|reflexivity].
    apply T in Ez. subst z. contradiction.
  - apply IH. destruct Hin as [->|Hin]; [|exact Hin].
    assert (R : (category i, severity i) = (category i, severity i)) by reflexivity.
    apply T in R. congruence.
Qed.

Lemma report_keys all k :
  In k (sorted_keys all) <-> exists i, In i all /\ group_key i = k.
Proof.
  unfold sorted_keys, issues_by_category. split.
  - intros H. apply (Permutation_in _ (sorted_perm _)) in H.
    apply (keys_grouped all []) in H. destruct H as [[]|H]. exact H.
  - intros H. apply (Permutation_in _ (Permutation_sym (sorted_perm _))).
    apply (keys_grouped all []). now right.
Qed.

Lemma report_keys_nodup all : NoDup (sorted_keys all).
Proof.
  unfold sorted_keys, issues_by_category.
  apply (Permutation_NoDup (Permutation_sym (sorted_perm _))).
  apply (nodup_grouped all []). constructor.
Qed.

Lemma report_key_valid all k :
  Forall valid_severity all ->
  In k (sorted_keys all) ->
  exists i, In i all /\ valid_severity i
            /\ k = pair_key (category i, severity i)
            /\ key_pair k = (category i, severity i).
Proof.
  intros V H. apply report_keys in H as [i [Hi E]]. exists i.
  assert (Vi : valid_severity i) by (rewrite Forall_forall in V; auto).
  subst k. repeat split; auto using key_pair_group_key.
Qed.

Lemma report_members all i :
  Forall valid_severity all ->
  In i all ->
  dict_get (group_key i) (issues_by_category all)
  = Some (filter (in_group (category i) (severity i)) all).
Proof.
  intros V Hi.
  change (issues_by_category all) with (grouped [] all).
  rewrite (dict_get_grouped (group_key i) all []). simpl dict_get.
  assert (E : filter (fun j => (group_key j =? group_key i)%str) all
              = filter (in_group (category i) (severity i)) all).
  { apply filter_ext_in. intros j Hj. rewrite Forall_forall in V.
    apply same_key_same_group; auto. }
  rewrite E. unfold joined.
  destruct (filter (in_group (category i) (severity i)) all) eqn:F;
    [|reflexivity].
  assert (In i []); [|contradiction].
  rewrite <- F. apply filter_In. split; [exact Hi|].
  unfold in_group. now rewrite !string_eqb_refl.
Qed.

Lemma prints_report_groups all :
  Forall valid_severity all ->
  prints (for_ (sorted_keys all) (print_group (issues_by_category all)))
    (flat_map (fun cv => group_lines cv (filter (in_group (fst cv) (snd cv)) all))
              (map key_pair (sorted_keys all))).
Proof.
  intros V. rewrite flat_map_of_map. apply prints_for. intros k Hk.
  destruct (report_key_valid all k V Hk) as [i [Hi [Vi [E P]]]].
  rewrite P. simpl fst. simpl snd. rewrite E.
  apply prints_print_group; [exact Vi|].
  rewrite <- group_key_pair. now apply report_members.
Qed.

Lemma report_pairs_nodup all :
  Forall valid_severity all -> NoDup (map key_pair (sorted_keys all)).
Proof.
  intros V. apply (NoDup_map_inv pair_key). rewrite map_map.
  rewrite (map_ext_in _ (fun k => k)); [rewrite map_id; apply report_keys_nodup|].
  intros k Hk. destruct (report_key_valid all k V Hk) as [i [_ [_ [E P]]]].
  now rewrite P.
Qed.

Lemma report_pairs all c v :
  Forall valid_severity all ->
  (In (c, v) (map key_pair (sorted_keys all))
   <-> exists i, In i all /\ category i = c /\ severity i = v).
Proof.
  intros V. rewrite in_map_iff. split.
  - intros [k [E Hk]].
    destruct (report_key_valid all k V Hk) as [i [Hi [_ [_ P]]]].
    exists i. rewrite P in E. inversion E. auto.
  - intros [i [Hi [Ec Ev]]]. exists (group_key i). split.
    + rewrite key_pair_group_key; [congruence|].
      rewrite Forall_forall in V. auto.
    + apply report_keys. eauto.
Qed.

Lemma print_report_empty s :
  issues (result s) = [] ->
  print_report s = Returned tt (extend s [] (banner_lines ++ [all_clear_line])).
Proof.
  intros H. unfold print_report, bind, get_result.
  rewrite !print_extend, !extend_extend. rewrite issues_extend, H.
  rewrite !app_nil_l. cbv beta iota. rewrite print_extend, extend_extend. reflexivity.
Qed.

Lemma print_report_groups s :
  Forall valid_severity (issues (result s)) ->
  issues (result s) <> [] ->
  let all := issues (result s) in
  print_report s
  = Returned tt
      (extend s []
         (banner_lines
          ++ summary_lines (number_of "CRITICAL" all) (number_of "WARNING" all)
                           (number_of "INFO" all) (List.length all)
          ++ flat_map (fun cv => group_lines cv
                                   (filter (in_group (fst cv) (snd cv)) all))
                      (map key_pair (sorted_keys all))
          ++ next_steps_lines)).
Proof.
  intros V N all. unfold print_report, bind, get_result.
  rewrite !print_extend, !extend_extend. rewrite !issues_extend.
  rewrite !app_nil_l, !app_nil_r. fold all. destruct all as [|i0 rest] eqn:E; [contradiction|]. rewrite <- E.
  rewrite prints_print_summary.
  change (sorted (map fst (issues_by_category all))) with (sorted_keys all).
  rewrite (prints_report_groups all V).
  rewrite prints_print_next_steps, !extend_extend. reflexivity.
Qed.

(** C7: for a sequence of accumulated issues, each of severity CRITICAL,
    WARNING or INFO, [print_report] returns, leaves the result as it is and
    prints: when the sequence is empty, the banner and the all-clear line
    and nothing else; otherwise the banner, a summary whose three counts are
    the numbers of issues of each severity, then one block per
    (category, severity) pair that occurs, each pair once, the block of a
    pair listing exactly the issues with that category and severity in
    discovery order, so that every issue is under exactly one group. *)
Theorem report_counts_and_groups :
  forall (s : State),
    let all := issues (result s) in
    Forall valid_severity all ->
    (all = [] ->
     print_report s = Returned tt (extend s [] (banner_lines ++ [all_clear_line])))
    /\ (all <> [] ->
        exists pairs : list (string * string),
          NoDup pairs
          /\ (forall c v,
                In (c, v) pairs
                <-> exists i, In i all /\ category i = c /\ severity i = v)
          /\ (forall i,
                In i all ->
                List.length (filter (fun cv => in_group (fst cv) (snd cv) i) pairs)
                = 1%nat)
          /\ print_report s
             = Returned tt
                 (extend s []
                    (banner_lines
                     ++ summary_lines (number_of "CRITICAL" all)
                          (number_of "WARNING" all) (number_of "INFO" all)
                          (List.length all)
                     ++ flat_map
                          (fun cv => group_lines cv
                                       (filter (in_group (fst cv) (snd cv)) all))
                          pairs
                     ++ next_steps_lines))).
Proof.
  intros s all V. split; [apply print_report_empty|].
  intros N. exists (map key_pair (sorted_keys all)).
  split; [apply (report_pairs_nodup all V)|].
  split; [intros c v; apply (report_pairs all c v V)|].
  split; [|apply (print_report_groups s V N)].
  intros i Hi. apply one_match_in_nodup; [apply (report_pairs_nodup all V)|].
  apply (report_pairs all _ _ V). eauto.
Qed.

Lemma report_counts_and_groups_witness :
  exists pairs : list (string * string),
    NoDup pairs
    /\ print_report sample_report_state
       = Returned tt
           (extend sample_report_state []
              (banner_lines
               ++ summary_lines 2 2 0 4
               ++ flat_map
                    (fun cv => group_lines cv
                                 (filter (in_group (fst cv) (snd cv)) sample_issues))
                    pairs
               ++ next_steps_lines)).
Proof.
  assert (V : Forall valid_severity (issues (result sample_report_state)))
    by (repeat constructor; unfold valid_severity; simpl; auto).
  destruct (report_counts_and_groups sample_report_state V) as [_ H].
  destruct H as [pairs [N [_ [_ P]]]]; [discriminate|].
  exists pairs. split; [exact N | exact P].
Defined.

(** ** The issues a scan accumulates *)

Lemma issues_apply_writes ws s :
  issues (result (apply_writes ws s)) = issues (result s).
Proof.
  revert s. induction ws as [|[f v] ws IH]; intros s; [reflexivity|].
  simpl. unfold apply_writes in IH. rewrite IH. now destruct f.
Qed.

Lemma pom_issues_valid path lines : Forall valid_severity (pom_issues path lines).
Proof.
  unfold pom_issues, old_starter_issues, security_test_issues_in,
    tc_artifact_issues_in.
  each_issue; unfold valid_severity; simpl; auto.
Qed.

Lemma java_files_issues_valid p : Forall valid_severity (java_files_issues p).
Proof.
  unfold java_files_issues. apply Forall_flat_map, Forall_forall. intros f _.
  unfold java_file_issues. destruct (java_lines f); [|constructor].
  unfold java_lines_issues, test_annotation_issues, old_import_issues,
    tc_old_import_issues, localstack_service_issues, resilience_issues,
    retryable_issues, jackson2_issues, generic_container_issues,
    endpoint_override_issues.
  each_issue; unfold valid_severity; simpl; auto.
Qed.

Lemma properties_issues_valid p d : Forall valid_severity (properties_issues p d).
Proof.
  unfold properties_issues. apply Forall_flat_map, Forall_forall.
  intros [rel found] _. unfold config_file_issues.
  destruct found as [f|]; [|constructor].
  destruct (config_lines f); [|constructor].
  unfold config_lines_issues, jackson_prop_issues.
  each_issue; unfold valid_severity; simpl; auto.
Qed.

Lemma flyway_issues_valid p d : Forall valid_severity (flyway_issues p d).
Proof.
  unfold flyway_issues. destruct (migration p) as [[names|]|]; [| |constructor].
  - destruct (filter glob_events_schema names); [|constructor].
    destruct d; repeat constructor.
  - destruct d; repeat constructor.
Qed.

(** Every issue a scan accumulates has one of the three severities: the
    report of a scan never fails on an unknown severity. *)
Lemma accumulated_issues_valid p :
  Forall valid_severity (issues (result (state_of (scan p initial_state)))).
Proof.
  rewrite scan_final_state.
  assert (D : Forall valid_severity
                (issues (result (after_descriptor p initial_state)))).
  { unfold after_descriptor, after_pom. cbv zeta.
    destruct (pom p) as [[content|e]|]; try constructor.
    rewrite issues_extend, issues_apply_writes. apply pom_issues_valid. }
  assert (S : Forall valid_severity (issues (result (after_scan p initial_state)))).
  { unfold after_scan. cbv zeta. rewrite issues_extend.
    apply Forall_app. split; [exact D|].
    apply Forall_app. split; [apply java_files_issues_valid|].
    apply Forall_app. split;
      [apply properties_issues_valid | apply flyway_issues_valid]. }
  destruct (pom p) as [[content|e]|]; assumption.
Qed.

(** * Further properties of the scanner *)

(** * Lines and text *)

Lemma concat_cons sep x xs :
  Str.concat sep (x :: xs)
  = match xs with
    | [] => x
    | _ :: _ => (x ++ sep ++ Str.concat sep xs)%str
    end.
Proof. destruct xs; reflexivity. Qed.

Lemma split_nl_not_nil s : Str.split_nl s <> [].
Proof.
  destruct s as [|c s]; simpl; [discriminate|].
  destruct (c =? 10)%N; [discriminate|].
  destruct (Str.split_nl s); discriminate.
Qed.

(** Joining the lines of a text with newlines gives the text back. *)
Lemma join_split_nl s : Str.join_nl (Str.split_nl s) = s.
Proof.
  unfold Str.join_nl. induction s as [|c s IH]; [reflexivity|].
  simpl Str.split_nl. destruct (N.eqb_spec c 10%N) as [->|N].
  - rewrite concat_cons. pose proof (split_nl_not_nil s) as H.
    destruct (Str.split_nl s) as [|l ls]; [contradiction|]. now rewrite IH.
  - pose proof (split_nl_not_nil s) as H.
    destruct (Str.split_nl s) as [|l ls]; [contradiction|].
    rewrite concat_cons in IH |- *. destruct ls; subst s; reflexivity.
Qed.

Lemma split_nl_no_newline s :
  Forall (fun l => has_char 10%N l = false) (Str.split_nl s).
Proof.
  induction s as [|c s IH]; simpl; [repeat constructor|].
  destruct (N.eqb_spec c 10%N) as [->|N].
  - constructor; [reflexivity | exact IH].
  - destruct (Str.split_nl s) as [|l ls]; [repeat constructor; simpl|].
    + apply N.eqb_neq in N. now rewrite N.
    + inversion IH; subst. constructor; [|assumption].
      simpl. apply N.eqb_neq in N. now rewrite N.
Qed.

(** A run of consecutive pieces, joined, is a part of the whole joined. *)
Lemma concat_app_parts sep a b :
  exists glue,
    Str.concat sep (a ++ b)
    = (Str.concat sep a ++ glue ++ Str.concat sep b)%str.
Proof.
  induction a as [|x a [glue IH]].
  - exists "". reflexivity.
  - destruct a as [|y a].
    + destruct b as [|z b].
      * exists "". simpl. now rewrite append_nil_r.
      * exists sep. reflexivity.
    + exists glue. change ((x :: y :: a) ++ b) with (x :: (y :: a) ++ b).
      rewrite concat_cons. change ((y :: a) ++ b) with (y :: a ++ b) at 1.
      cbv iota. rewrite IH. rewrite (concat_cons sep x (y :: a)).
      now rewrite !append_assoc.
Qed.

Lemma concat_middle sep a m b :
  exists pre post,
    Str.concat sep (a ++ m ++ b)
    = (pre ++ Str.concat sep m ++ post)%str.
Proof.
  destruct (concat_app_parts sep a (m ++ b)) as [g1 E1].
  destruct (concat_app_parts sep m b) as [g2 E2].
  exists (Str.concat sep a ++ g1)%str, (g2 ++ Str.concat sep b)%str.
  now rewrite E1, E2, !append_assoc.
Qed.

Lemma contains_within pat pre s post :
  Str.contains pat s = true -> Str.contains pat (pre ++ s ++ post) = true.
Proof.
  rewrite !contains_iff. intros [a [b ->]].
  exists (pre ++ a)%str, (b ++ post)%str. now rewrite !append_assoc.
Qed.

Lemma contains_in_concat sep pat line ls :
  In line ls -> Str.contains pat line = true ->
  Str.contains pat (Str.concat sep ls) = true.
Proof.
  intros Hin Hc. apply in_split in Hin as [l1 [l2 ->]].
  change (line :: l2) with ([line] ++ l2).
  destruct (concat_middle sep l1 [line] l2) as [pre [post ->]].
  now apply contains_within.
Qed.

Lemma slice_parts {A} (l : list A) a b :
  exists before after, l = before ++ slice l a b ++ after.
Proof.
  unfold slice. exists (firstn (Z.to_nat a) l).
  exists (skipn (Z.to_nat (b - a)) (skipn (Z.to_nat a) l)).
  now rewrite !firstn_skipn.
Qed.

(** What the context window holds is in the build descriptor. *)
Lemma contains_context pat lines i :
  Str.contains pat (context lines i) = true ->
  Str.contains pat (Str.join_nl lines) = true.
Proof.
  unfold context, Str.join_nl. intros H.
  destruct (slice_parts lines (Z.max 0 (i - 3)) (Z.min (len lines) (i + 2)))
    as [before [after E]].
  remember (slice lines (Z.max 0 (i - 3)) (Z.min (len lines) (i + 2))) as m eqn:Hm.
  clear Hm. subst lines.
  destruct (concat_middle Str.nl before m after) as [pre [post ->]].
  now apply contains_within.
Qed.

Lemma per_line_nil {A} lines (f : Z -> string -> list A) :
  (forall i line, 1 <= i <= len lines -> In line lines -> f i line = []) ->
  per_line lines f = [].
Proof.
  intros H. unfold per_line.
  assert (G : forall start l,
             (forall i line, In (i, line) (enumerate l start) -> f i line = []) ->
             flat_map (fun '(i, line) => f i line) (enumerate l start) = []).
  { intros start l. revert start. induction l as [|x l IH]; intros start Hl;
      [reflexivity|].
    simpl. rewrite (Hl start x) by (left; reflexivity). simpl.
    apply IH. intros i line Hin. apply Hl. now right. }
  apply G. intros i line Hin. apply H.
  - apply enumerate_in in Hin. lia.
  - clear -Hin. revert Hin. generalize 1. induction lines as [|x l IH];
      intros start Hin; simpl in Hin; [contradiction|].
    destruct Hin as [Hin|Hin]; [inversion Hin; now left | right; eauto].
Qed.

(** X1: a build descriptor that names the owning group nowhere gets no issue
    from the two context checks. *)
Theorem group_absent_no_context_issue :
  forall (path content : string) (s : State),
    (Str.contains "<groupId>org.springframework.security</groupId>" content = false ->
     new_issues (scan_security_test path (Str.split_nl content)) s = [])
    /\ (Str.contains "<groupId>org.testcontainers</groupId>" content = false ->
        new_issues (scan_tc_artifacts path (Str.split_nl content)) s = []).
Proof.
  intros path content s.
  assert (C : forall pat i,
             Str.contains pat content = false ->
             Str.contains pat (context (Str.split_nl content) i) = false).
  { intros pat i H. destruct (Str.contains pat (context _ i)) eqn:E; [|reflexivity].
    apply contains_context in E. rewrite join_split_nl in E. congruence. }
  split; intros H.
  - erewrite new_issues_extend by apply adds_scan_security_test.
    unfold security_test_issues_in. apply per_line_nil. intros i line _ _.
    rewrite (C _ i H). now destruct (Str.contains _ line).
  - erewrite new_issues_extend by apply adds_scan_tc_artifacts.
    unfold tc_artifact_issues_in. apply per_line_nil. intros i line _ _.
    rewrite (C _ i H). simpl.
    repeat match goal with
           | |- context [if ?c then _ else _] => destruct c
           end; reflexivity.
Qed.

(** * The whole-file guards of the source checks *)

Lemma guard_redundant pat test mk lines :
  (forall line, test line = true -> Str.contains pat line = true) ->
  guarded_line_issues (Str.contains pat (Str.join_empty lines)) test mk lines
  = per_line lines (fun i line => if test line then [mk i] else []).
Proof.
  intros H. unfold guarded_line_issues.
  destruct (Str.contains pat (Str.join_empty lines)) eqn:G; [reflexivity|].
  symmetry. apply per_line_nil. intros i line _ Hin.
  destruct (test line) eqn:T; [|reflexivity].
  apply H in T. apply (contains_in_concat "" pat line lines Hin) in T.
  unfold Str.join_empty in G. congruence.
Qed.

Lemma guard_redundant2 p1 p2 mk lines :
  guarded_line_issues
    (Str.contains p1 (Str.join_empty lines) || Str.contains p2 (Str.join_empty lines))
    (fun line => Str.contains p1 line || Str.contains p2 line) mk lines
  = per_line lines (fun i line =>
      if Str.contains p1 line || Str.contains p2 line then [mk i] else []).
Proof.
  unfold guarded_line_issues.
  destruct (Str.contains p1 (Str.join_empty lines)
            || Str.contains p2 (Str.join_empty lines)) eqn:G; [reflexivity|].
  symmetry. apply per_line_nil. intros i line _ Hin.
  apply orb_false_iff in G as [G1 G2].
  destruct (Str.contains p1 line) eqn:T1.
  - apply (contains_in_concat "" p1 line lines Hin) in T1.
    unfold Str.join_empty in G1. congruence.
  - destruct (Str.contains p2 line) eqn:T2; [|reflexivity].
    apply (contains_in_concat "" p2 line lines Hin) in T2.
    unfold Str.join_empty in G2. congruence.
Qed.

(** X2: the tests on the whole text of a source file ([if pat in content])
    change nothing: each guarded check adds what its line loop alone would
    add. *)
Theorem content_guards_change_nothing :
  forall (rel : string) (lines : list string) (s : State),
    let content := Str.join_empty lines in
    new_issues (scan_localstack_service rel content lines) s
    = new_issues
        (for_ (enumerate lines 1) (fun '(i, line) =>
           when (Str.contains "LocalStackContainer.Service" line)
             (add_issue "Testcontainers 2.x - API Changes" "CRITICAL" rel i
                "LocalStackContainer.Service enum removed"
                "Remove .withServices() - services are now auto-detected"))) s
    /\ new_issues (scan_resilience rel content lines) s
       = new_issues
           (for_ (enumerate lines 1) (fun '(i, line) =>
              when (Str.contains "org.springframework.resilience" line)
                (add_issue "Spring Boot 4 - Retry/Resilience" "INFO" rel i
                   "Using org.springframework.resilience annotations"
                   "Ensure AOP support; if using Spring Retry directly, use org.springframework.retry + explicit version"))) s
    /\ new_issues (scan_retryable rel content lines) s
       = new_issues
           (for_ (enumerate lines 1) (fun '(i, line) =>
              when (Str.contains "@Retryable" line && not_line_comment line)
                (add_issue "Spring Boot 4 - Spring Retry" "INFO" rel i
                   "Using @Retryable"
                   "Ensure spring-retry dependency with explicit version + spring-boot-starter-aspectj"))) s
    /\ new_issues (scan_generic_containers rel content lines) s
       = new_issues
           (for_ (enumerate lines 1) (fun '(i, line) =>
              when (Str.contains "PostgreSQLContainer<?>" line
                    || Str.contains "MySQLContainer<?>" line)
                (add_issue "Testcontainers 2.x - Generic Types" "WARNING" rel i
                   "Generic type in Testcontainers container"
                   "Remove generic type: PostgreSQLContainer<?> → PostgreSQLContainer"))) s
    /\ new_issues (scan_endpoint_override rel content lines) s
       = new_issues
           (for_ (enumerate lines 1) (fun '(i, line) =>
              when (Str.contains "getEndpointOverride(" line
                    && Str.contains "Service" line)
                (add_issue "Testcontainers 2.x - LocalStack API" "CRITICAL" rel i
                   "getEndpointOverride(Service) deprecated"
                   "Change to: getEndpoint()"))) s.
Proof.
  intros rel lines s content. subst content.
  assert (L : forall test mk,
             adds (for_ (enumerate lines 1) (fun '(i, line) =>
                     when (test line)
                       (add_issue (category (mk i)) (severity (mk i))
                          (file_path (mk i)) (line_number (mk i))
                          (issue (mk i)) (suggestion (mk i)))))
                  (per_line lines (fun i line => if test line then [mk i] else []))).
  { intros test mk. unfold per_line. apply adds_for. intros [i line].
    apply (adds_eq _ (if test line then [mkIssue (category (mk i)) (severity (mk i))
                          (file_path (mk i)) (line_number (mk i))
                          (issue (mk i)) (suggestion (mk i))] else [])).
    - now destruct (mk i).
    - apply adds_when, adds_add_issue. }
  repeat split.
  - erewrite new_issues_extend by apply adds_scan_localstack_service.
    erewrite new_issues_extend
      by apply (L _ (fun i => mkIssue _ _ rel i _ _)).
    apply guard_redundant. auto.
  - erewrite new_issues_extend by apply adds_scan_resilience.
    erewrite new_issues_extend
      by apply (L _ (fun i => mkIssue _ _ rel i _ _)).
    apply guard_redundant. auto.
  - erewrite new_issues_extend by apply adds_scan_retryable.
    erewrite new_issues_extend
      by apply (L _ (fun i => mkIssue _ _ rel i _ _)).
    apply guard_redundant. intros line H. now apply andb_true_iff in H as [H _].
  - erewrite new_issues_extend by apply adds_scan_generic_containers.
    erewrite new_issues_extend
      by apply (L _ (fun i => mkIssue _ _ rel i _ _)).
    apply guard_redundant2.
  - erewrite new_issues_extend by apply adds_scan_endpoint_override.
    erewrite new_issues_extend
      by apply (L _ (fun i => mkIssue _ _ rel i _ _)).
    apply guard_redundant. intros line H. now apply andb_true_iff in H as [H _].
Qed.

(** * The conjunction rule *)

Lemma localstack_api_issues_at i rel lines n line :
  nth_error lines n = Some line ->
  i = Z.of_nat n + 1 ->
  filter (localstack_api_at i) (java_lines_issues rel lines)
  = if Str.contains "getEndpointOverride(" line && Str.contains "Service" line
    then [mkIssue "Testcontainers 2.x - LocalStack API" "CRITICAL" rel i
            "getEndpointOverride(Service) deprecated" "Change to: getEndpoint()"]
    else [].
Proof.
  intros Hn Hi. unfold java_lines_issues. rewrite !filter_app.
  rewrite (filter_none _ (test_annotation_issues rel lines))
    by (unfold test_annotation_issues; each_issue; reflexivity).
  rewrite (filter_none _ (old_import_issues rel lines))
    by (unfold old_import_issues; each_issue; reflexivity).
  rewrite (filter_none _ (tc_old_import_issues rel lines))
    by (unfold tc_old_import_issues; each_issue; reflexivity).
  rewrite (filter_none _ (localstack_service_issues rel lines))
    by (unfold localstack_service_issues; each_issue; reflexivity).
  rewrite (filter_none _ (resilience_issues rel lines))
    by (unfold resilience_issues; each_issue; reflexivity).
  rewrite (filter_none _ (retryable_issues rel lines))
    by (unfold retryable_issues; each_issue; reflexivity).
  rewrite (filter_none _ (jackson2_issues rel lines))
    by (unfold jackson2_issues; each_issue; reflexivity).
  rewrite (filter_none _ (generic_container_issues rel lines))
    by (unfold generic_container_issues; each_issue; reflexivity).
  simpl app. unfold endpoint_override_issues.
  rewrite guard_redundant
    by (intros l H; now apply andb_true_iff in H as [H _]).
  unfold per_line.
  rewrite (filter_enumerate_at (localstack_api_at i) _ i lines) with (n := n) (line := line).
  - destruct (Str.contains "getEndpointOverride(" line && Str.contains "Service" line);
      [|reflexivity].
    unfold localstack_api_at. simpl. now rewrite Z.eqb_refl.
  - intros x Hx. unfold localstack_api_at in Hx.
    apply andb_true_iff in Hx as [_ Hx]. now apply Z.eqb_eq.
  - intros k l x Hx. destruct (_ && _) in Hx; simpl in Hx; [|contradiction].
    destruct Hx as [<-|[]]. reflexivity.
  - exact Hn.
  - lia.
Qed.

(** X3: the deprecated accessor is reported for a line only when the line
    holds both [getEndpointOverride(] and [Service]: then exactly one CRITICAL
    issue of the LocalStack API category bears the line's number, and none
    when either token is missing. *)
Theorem endpoint_override_needs_both :
  forall (f : JavaFile) (lines : list string) (n : nat) (line : string) (s : State),
    java_lines f = Content lines ->
    nth_error lines n = Some line ->
    let i := Z.of_nat n + 1 in
    let found := filter (localstack_api_at i) (new_issues (_scan_java_file f) s) in
    (Str.contains "getEndpointOverride(" line = true ->
     Str.contains "Service" line = true ->
     found = [mkIssue "Testcontainers 2.x - LocalStack API" "CRITICAL"
                (java_rel_path f) i
                "getEndpointOverride(Service) deprecated" "Change to: getEndpoint()"])
    /\ (Str.contains "Service" line = false -> found = [])
    /\ (Str.contains "getEndpointOverride(" line = false -> found = []).
Proof.
  intros f lines n line s Hf Hn i found. subst found.
  erewrite new_issues_extend by apply emits_scan_java_file.
  unfold java_file_issues. rewrite Hf.
  rewrite (localstack_api_issues_at i _ lines n line Hn eq_refl).
  repeat split.
  - intros H1 H2. now rewrite H1, H2.
  - intros H. now rewrite H, andb_false_r.
  - intros H. now rewrite H.
Qed.

(** * What every issue of a source file looks like *)

(** X4: every issue a source file gets names the file by its relative path,
    bears the number of one of its lines and has one of the three
    severities. *)
Theorem source_issues_invariant :
  forall (f : JavaFile) (lines : list string) (s : State),
    java_lines f = Content lines ->
    Forall (fun x => file_path x = java_rel_path f
                     /\ 1 <= line_number x <= len lines
                     /\ valid_severity x)
           (new_issues (_scan_java_file f) s).
Proof.
  intros f lines s Hf.
  erewrite new_issues_extend by apply emits_scan_java_file.
  unfold java_file_issues. rewrite Hf.
  unfold java_lines_issues, test_annotation_issues, old_import_issues,
    tc_old_import_issues, localstack_service_issues, resilience_issues,
    retryable_issues, jackson2_issues, generic_container_issues,
    endpoint_override_issues.
  each_issue; unfold valid_severity; simpl; auto.
Qed.

(** A source file that cannot be read gets no issue and one line of
    output. *)
Lemma unreadable_source_effect f e s :
  java_lines f = Unreadable e ->
  _scan_java_file f s
  = Returned tt
      (extend s [] [("   Error reading " ++ java_path f ++ ": " ++ e)%str]).
Proof. intros H. now rewrite (unreadable_source_is_skipped f e H). Qed.

(** * The comment test *)

Lemma lstrip_split s :
  exists ws, s = (ws ++ Str.lstrip s)%str /\ Str.all_chars Str.isspace ws = true.
Proof.
  induction s as [|c s [ws [E H]]]; [exists ""; auto|].
  simpl. destruct (Str.isspace c) eqn:Ec.
  - exists (String c ws). simpl. rewrite Ec, H. split; [now f_equal | reflexivity].
  - exists "". auto.
Qed.

Lemma lstrip_spaces ws s :
  Str.all_chars Str.isspace ws = true -> Str.lstrip (ws ++ s) = Str.lstrip s.
Proof.
  induction ws as [|c ws IH]; simpl; [reflexivity|].
  intros H. apply andb_true_iff in H as [Hc H]. rewrite Hc. auto.
Qed.

Lemma rstrip_cons c s :
  Str.rstrip (String c s) = "" /\ Str.isspace c = true
  \/ Str.rstrip (String c s) = String c (Str.rstrip s).
Proof.
  simpl. destruct (Str.rstrip s); [|now right].
  destruct (Str.isspace c); [now left | now right].
Qed.

(** Trailing white space does not hide or make a prefix without blanks. *)
Lemma prefix_rstrip p x :
  Str.all_chars (fun c => negb (Str.isspace c)) p = true ->
  Str.prefix p (Str.rstrip x) = Str.prefix p x.
Proof.
  revert x. induction p as [|a p IH]; intros x H.
  - now destruct (Str.rstrip x), x.
  - simpl in H. apply andb_true_iff in H as [Ha H].
    destruct x as [|c x]; [reflexivity|].
    destruct (rstrip_cons c x) as [[E Hc]|E]; rewrite E.
    + simpl. destruct (N.eqb_spec a c) as [->|N]; [|reflexivity].
      rewrite Hc in Ha. discriminate.
    + simpl. destruct (N.eqb_spec a c); [apply IH, H | reflexivity].
Qed.

(** X5: a line counts as a comment exactly when [//] follows its leading
    white space; what comes after, trailing blanks included, plays no
    part. *)
Theorem line_comment_iff_leading_slashes :
  forall line : string,
    not_line_comment line = false
    <-> exists ws rest, line = (ws ++ "//" ++ rest)%str
                        /\ Str.all_chars Str.isspace ws = true.
Proof.
  intros line. unfold not_line_comment, Str.startswith, Str.strip.
  rewrite negb_false_iff, prefix_rstrip by reflexivity.
  rewrite prefix_iff. split.
  - intros [rest E]. destruct (lstrip_split line) as [ws [El H]].
    exists ws, rest. split; [now rewrite <- E | exact H].
  - intros [ws [rest [-> H]]]. exists rest. now rewrite lstrip_spaces.
Qed.

(** * Detection *)

(** X6: after a scan a version attribute differs from ["Unknown"] exactly
    when its pattern matched in a readable build descriptor. *)
Theorem version_known_iff_detected :
  forall (p : Project) (f : version_field),
    get_version f (result (state_of (scan p initial_state))) <> Unknown
    <-> exists v, detected_version p f = Some v.
Proof.
  intros p f. rewrite get_version_scan.
  destruct (detected_version p f) as [v|] eqn:E.
  - split; [eauto|]. intros _ ->.
    unfold detected_version in E. destruct (pom p) as [[c|e]|]; try discriminate.
    now apply re_search_not_unknown in E.
  - split; [intros H; destruct H; now destruct f | intros [v H]; discriminate].
Qed.

(** * The version pattern, in full *)

Lemma match_at_none_inv tag b :
  match_at tag (tag ++ b) = None -> Str.starts_with_char is_version_char b = false.
Proof.
  unfold match_at. rewrite strip_prefix_app.
  destruct (Str.take_while is_version_char b) eqn:T; [|discriminate].
  intros _. now apply take_while_empty.
Qed.

(** X7: the search gives [v] exactly when [v] is the longest run of digits
    and dots that follows the leftmost place where the tag is directly
    followed by a digit or a dot. *)
Theorem re_search_leftmost_longest :
  forall (tag s v : string),
    re_search tag s = Some v
    <-> exists pre rest,
          s = (pre ++ tag ++ v ++ rest)%str
          /\ v <> ""
          /\ Str.all_chars is_version_char v = true
          /\ Str.starts_with_char is_version_char rest = false
          /\ (forall a b, s = (a ++ tag ++ b)%str ->
                          (Str.length a < Str.length pre)%nat ->
                          Str.starts_with_char is_version_char b = false).
Proof.
  intros tag s v. split.
  - revert v. induction s as [|c s IH]; intros v H; rewrite re_search_eq in H.
    + destruct (match_at tag "") eqn:M; [|discriminate]. inversion H; subst.
      apply match_at_some in M as [Hne [Hv [rest [E Hr]]]].
      exists "", rest. repeat split; auto. simpl. intros; lia.
    + destruct (match_at tag (String c s)) eqn:M.
      * inversion H; subst.
        apply match_at_some in M as [Hne [Hv [rest [E Hr]]]].
        exists "", rest. repeat split; auto. simpl. intros; lia.
      * destruct (IH v H) as [pre [rest [E [Hne [Hv [Hr Hfirst]]]]]].
        exists (String c pre), rest. repeat split; auto.
        { simpl. now rewrite E. }
        intros a b Ea L. destruct a as [|c' a].
        { simpl in Ea. rewrite Ea in M. now apply match_at_none_inv in M. }
        simpl in Ea. inversion Ea; subst c'. apply (Hfirst a b); [assumption|].
        simpl in L. lia.
  - intros [pre [rest [-> [Hne [Hv [Hr Hfirst]]]]]].
    rewrite re_search_skip by exact Hfirst.
    apply re_search_here. now apply match_at_app.
Qed.

(** * The summary *)

Lemma number_of_le sev all : (number_of sev all <= List.length all)%nat.
Proof.
  induction all as [|i all IH]; simpl; [lia|].
  destruct (severity i =? sev)%str; lia.
Qed.

Lemma one_severity (i : Issue) :
  ((if (severity i =? "CRITICAL")%str then 1 else 0)
   + (if (severity i =? "WARNING")%str then 1 else 0)
   + (if (severity i =? "INFO")%str then 1 else 0))%nat
  = (if (severity i =? "CRITICAL")%str || (severity i =? "WARNING")%str
        || (severity i =? "INFO")%str then 1 else 0)%nat.
Proof.
  destruct (string_eqb_spec (severity i) "CRITICAL") as [->|]; [reflexivity|].
  destruct (string_eqb_spec (severity i) "WARNING") as [->|]; [reflexivity|].
  now destruct (severity i =? "INFO")%str.
Qed.

Lemma valid_severity_bool i :
  valid_severity i
  <-> (severity i =? "CRITICAL")%str || (severity i =? "WARNING")%str
      || (severity i =? "INFO")%str = true.
Proof.
  unfold valid_severity. rewrite !orb_true_iff, !string_eqb_eq. tauto.
Qed.

(** X8: the three counts of the summary add up to the total exactly when
    every issue has one of the three severities; they never exceed it. *)
Theorem summary_counts_add_up :
  forall all : list Issue,
    count_severity "CRITICAL" all + count_severity "WARNING" all
    + count_severity "INFO" all <= len all
    /\ (count_severity "CRITICAL" all + count_severity "WARNING" all
        + count_severity "INFO" all = len all
        <-> Forall valid_severity all).
Proof.
  intros all. rewrite !count_severity_number. unfold len.
  assert (S : forall l,
             (number_of "CRITICAL" l + number_of "WARNING" l + number_of "INFO" l
              <= List.length l)%nat
             /\ ((number_of "CRITICAL" l + number_of "WARNING" l + number_of "INFO" l
                  = List.length l)%nat <-> Forall valid_severity l)).
  { induction l as [|i l [IH1 IH2]]; [simpl; split; [lia | split; auto]|].
    pose proof (one_severity i) as O. pose proof (valid_severity_bool i) as V.
    simpl number_of. simpl List.length.
    destruct ((severity i =? "CRITICAL")%str || (severity i =? "WARNING")%str
              || (severity i =? "INFO")%str).
    - split; [lia|]. split.
      + intros H. constructor; [now apply V | apply IH2; lia].
      + intros H. inversion H; subst. apply IH2 in H3. lia.
    - split; [lia|]. split.
      + intros H. lia.
      + intros H. inversion H; subst. apply V in H2. discriminate. }
  destruct (S all) as [S1 S2]. split; [lia|].
  rewrite <- S2. lia.
Qed.

(** * The order of the source files *)

(** X9: the order in which the source files are found changes the order of
    the issues and nothing else. *)
Theorem source_order_permutes_issues :
  forall (p : Project) (l l' : list JavaFile) (s : State),
    Permutation l l' ->
    Permutation (issues (result (state_of (scan (with_sources p l) s))))
                (issues (result (state_of (scan (with_sources p l') s)))).
Proof.
  intros p l l' s H. rewrite !scan_final_state.
  change (pom (with_sources p l)) with (pom p).
  change (pom (with_sources p l')) with (pom p).
  change (after_descriptor (with_sources p l) s) with (after_descriptor p s).
  change (after_descriptor (with_sources p l') s) with (after_descriptor p s).
  destruct (pom p) as [[c|e]|] eqn:E; try reflexivity;
    unfold after_scan; cbv zeta;
    change (after_descriptor (with_sources p l) s) with (after_descriptor p s);
    change (after_descriptor (with_sources p l') s) with (after_descriptor p s);
    rewrite !issues_extend;
    apply Permutation_app_head, Permutation_app;
    try (unfold java_files_issues; simpl java_files;
         now apply Permutation_flat_map);
    reflexivity.
Qed.

(** * What the report leaves alone *)

Lemma only_prints_ret {A} (a : A) : only_prints (ret a).
Proof. intros s. exists []. unfold ret. simpl. now rewrite extend_nil. Qed.

Lemma only_prints_raise {A} e : only_prints (@raise A e).
Proof. intros s. exists []. unfold raise. simpl. now rewrite extend_nil. Qed.

Lemma only_prints_print line : only_prints (print line).
Proof. intros s. exists [line]. now rewrite print_extend. Qed.

Lemma only_prints_bind {A B} (m : M A) (k : A -> M B) :
  only_prints m -> (forall a, only_prints (k a)) -> only_prints (bind m k).
Proof.
  intros Hm Hk s. unfold bind. destruct (Hm s) as [o1 E1].
  destruct (m s) as [a s1|e s1]; simpl in E1; subst s1.
  - destruct (Hk a (extend s [] o1)) as [o2 E2]. exists (o1 ++ o2).
    now rewrite E2, extend_extend.
  - exists o1. reflexivity.
Qed.

Lemma only_prints_for {A} (xs : list A) body :
  (forall x, only_prints (body x)) -> only_prints (for_ xs body).
Proof.
  intros H. induction xs as [|x xs IH]; simpl.
  - apply only_prints_ret.
  - apply only_prints_bind; auto.
Qed.

Lemma only_prints_print_group d k : only_prints (print_group d k).
Proof.
  unfold print_group, subscript.
  apply only_prints_bind.
  { destruct (dict_get k d); [apply only_prints_ret | apply only_prints_raise]. }
  intros members. apply only_prints_bind.
  { destruct (rsplit1 " - " k); [apply only_prints_ret | apply only_prints_raise]. }
  intros [cat sev]. apply only_prints_bind.
  { destruct (severity_icon sev); [apply only_prints_ret | apply only_prints_raise]. }
  intros icon. repeat (apply only_prints_bind; [apply only_prints_print | intros _]).
  apply only_prints_for. intros i. unfold print_issue.
  repeat (apply only_prints_bind; [apply only_prints_print | intros _]).
  apply only_prints_print.
Qed.

Lemma only_prints_print_report : only_prints print_report.
Proof.
  unfold print_report.
  repeat (apply only_prints_bind; [apply only_prints_print | intros _]).
  apply only_prints_bind.
  { intros s. exists []. unfold get_result. simpl. now rewrite extend_nil. }
  intros r. destruct (issues r); [apply only_prints_print|].
  apply only_prints_bind.
  { unfold print_summary. cbv zeta.
    repeat (apply only_prints_bind; [apply only_prints_print | intros _]).
    apply only_prints_print. }
  intros _. apply only_prints_bind.
  { apply only_prints_for. intros k. apply only_prints_print_group. }
  intros _. unfold print_next_steps.
  repeat (apply only_prints_bind; [apply only_prints_print | intros _]).
  apply only_prints_print.
Qed.

(** X10: whatever the issues and their severities, and whether it returns or
    fails, [print_report] leaves the scan result and the log of assignments
    as they are and only appends to the output. *)
Theorem report_is_a_projection :
  forall s : State,
    result (state_of (print_report s)) = result s
    /\ writes (state_of (print_report s)) = writes s
    /\ exists out, stdout (state_of (print_report s)) = stdout s ++ out.
Proof.
  intros s. destruct (only_prints_print_report s) as [out E]. rewrite E.
  split; [|split; [reflexivity | exists out; reflexivity]].
  unfold extend. simpl. rewrite app_nil_r. now destruct (result s).
Qed.

Lemma stdout_apply_writes ws s : stdout (apply_writes ws s) = stdout s.
Proof.
  revert s. induction ws as [|[f v] ws IH]; intros s; [reflexivity|].
  simpl. unfold apply_writes in IH. now rewrite IH.
Qed.

Lemma after_descriptor_appends p s :
  exists new out,
    issues (result (after_descriptor p s)) = issues (result s) ++ new
    /\ stdout (after_descriptor p s) = stdout s ++ out.
Proof.
  unfold after_descriptor, after_pom. cbv zeta.
  destruct (pom p) as [[c|e]|].
  - rewrite issues_extend, stdout_extend, issues_apply_writes, stdout_apply_writes.
    rewrite !issues_extend, !stdout_extend, !app_nil_r.
    eexists; eexists. split; [reflexivity|]. rewrite <- !app_assoc. reflexivity.
  - rewrite !issues_extend, !stdout_extend, !app_nil_r.
    eexists; eexists. split; [symmetry; apply app_nil_r|].
    rewrite <- !app_assoc. reflexivity.
  - rewrite !issues_extend, !stdout_extend, !app_nil_r.
    eexists; eexists. split; [symmetry; apply app_nil_r|].
    rewrite <- !app_assoc. reflexivity.
Qed.

(** X11: a run only appends: the issues and the output a scanner starts with
    are a prefix of what it ends with, whether the run returns or fails. *)
Theorem run_appends_only :
  forall (p : Project) (s : State),
    exists new out,
      issues (result (state_of (main p s))) = issues (result s) ++ new
      /\ stdout (state_of (main p s)) = stdout s ++ out.
Proof.
  intros p s. destruct (after_descriptor_appends p s) as [n1 [o1 [I1 O1]]].
  unfold main, bind.
  destruct (pom p) as [[c|e]|] eqn:E.
  2:{ rewrite (scan_raises p e s E). simpl. eauto. }
  all: rewrite scan_returns by (intros e; rewrite E; discriminate).
  all: destruct (only_prints_print_report (after_scan p s)) as [o2 E2].
  all: rewrite E2; unfold after_scan; cbv zeta;
    rewrite !issues_extend, !stdout_extend, I1, O1, app_nil_r;
    eexists; eexists; rewrite <- !app_assoc; split; reflexivity.
Qed.

(** * A source file that cannot be read *)

Lemma flat_map_remove_nth {A B} (g : A -> list B) (l : list A) n x :
  nth_error l n = Some x -> g x = [] ->
  flat_map g (remove_nth n l) = flat_map g l.
Proof.
  revert n. induction l as [|y l IH]; intros n H G; [now destruct n|].
  destruct n as [|n]; simpl in *.
  - injection H as ->. now rewrite G.
  - now rewrite (IH n H G).
Qed.

(** X12: a source file that cannot be read is as good as absent: from any
    state of the scanner, the scan ends with the result, versions and issues,
    that it has for the project without the file. *)
Theorem unreadable_source_as_if_absent :
  forall (p : Project) (n : nat) (f : JavaFile) (e : string) (s : State),
    nth_error (java_files p) n = Some f ->
    java_lines f = Unreadable e ->
    result (state_of (scan p s))
    = result (state_of (scan (delete_file (SourceFile n) p) s)).
Proof.
  intros p n f e s Hn Hf.
  assert (G : java_file_issues f = [])
    by (unfold java_file_issues; now rewrite Hf).
  assert (J : java_files_issues (delete_file (SourceFile n) p) = java_files_issues p)
    by (unfold java_files_issues; simpl java_files;
        now apply flat_map_remove_nth with (x := f)).
  rewrite !scan_final_state.
  change (pom (delete_file (SourceFile n) p)) with (pom p).
  destruct (pom p) as [[c|e']|] eqn:E; try reflexivity;
    unfold after_scan; cbv zeta;
    change (after_descriptor (delete_file (SourceFile n) p) s)
      with (after_descriptor p s);
    rewrite J; reflexivity.
Qed.

(** * A group identifier near the artifact *)

Lemma enumerate_nth {A} (l : list A) n x start :
  nth_error l n = Some x -> In (start + Z.of_nat n, x) (enumerate l start).
Proof.
  revert n start. induction l as [|y l IH]; intros n start H;
    [destruct n; discriminate|].
  destruct n as [|n]; simpl in *.
  - inversion H. left. f_equal. lia.
  - right. replace (start + Z.pos (Pos.of_succ_nat n)) with (start + 1 + Z.of_nat n) by lia.
    now apply IH.
Qed.

Lemma nth_error_len {A} (l : list A) n x :
  nth_error l n = Some x -> 1 <= Z.of_nat n + 1 <= len l.
Proof.
  intros H. assert (n < List.length l)%nat by (apply nth_error_Some; congruence).
  unfold len. lia.
Qed.

Lemma window_holds_near_lines pat lines n m gline :
  nth_error lines m = Some gline ->
  Z.abs (Z.of_nat n - Z.of_nat m) <= 2 ->
  Str.contains pat gline = true ->
  Str.contains pat (window_2_2 lines (Z.of_nat n + 1)) = true.
Proof.
  intros Hm Hd Hc. unfold window_2_2, Str.join_nl.
  apply (contains_in_concat Str.nl pat gline); [|exact Hc].
  unfold lines_between. apply in_map_iff. exists (1 + Z.of_nat m, gline).
  split; [reflexivity|]. apply filter_In. split; [now apply enumerate_nth|].
  apply andb_true_iff. split; apply Z.leb_le; lia.
Qed.

Lemma in_per_line {A} lines (f : Z -> string -> list A) n line x :
  nth_error lines n = Some line ->
  In x (f (Z.of_nat n + 1) line) ->
  In x (per_line lines f).
Proof.
  intros Hn Hx. unfold per_line. apply in_flat_map.
  exists (1 + Z.of_nat n, line). split; [now apply enumerate_nth|].
  now replace (1 + Z.of_nat n) with (Z.of_nat n + 1) by lia.
Qed.

(** X14: an artifact line is reported whenever the owning group stands on the
    same line or at most two lines above or below it: the
    [spring-security-test] artifact with the Spring Security group, and each
    of the old Testcontainers artifacts with the Testcontainers group. *)
Theorem group_within_two_lines_is_seen :
  forall (path : string) (lines : list string) (n m : nat)
         (line gline : string) (s : State),
    nth_error lines n = Some line ->
    nth_error lines m = Some gline ->
    Z.abs (Z.of_nat n - Z.of_nat m) <= 2 ->
    (Str.contains "<artifactId>spring-security-test</artifactId>" line = true ->
     Str.contains "<groupId>org.springframework.security</groupId>" gline = true ->
     In (mkIssue "Spring Boot 4 - Dependencies" "CRITICAL" path (Z.of_nat n + 1)
           "Old spring-security-test dependency"
           "Change to: spring-boot-starter-security-test")
        (new_issues (scan_security_test path lines) s))
    /\ (forall artifact,
          In artifact tc_old_artifacts ->
          Str.contains (artifact_tag artifact) line = true ->
          Str.contains "<groupId>org.testcontainers</groupId>" gline = true ->
          In (mkIssue "Testcontainers 2.x - Dependencies" "WARNING" path
                (Z.of_nat n + 1)
                ("Old Testcontainers artifact: " ++ artifact)%str
                ("Change to: testcontainers-" ++ artifact)%str)
             (new_issues (scan_tc_artifacts path lines) s)).
Proof.
  intros path lines n m line gline s Hn Hm Hd.
  assert (W : forall pat, Str.contains pat gline = true ->
                          Str.contains pat (context lines (Z.of_nat n + 1)) = true).
  { intros pat Hc. rewrite context_window by (eapply nth_error_len; eauto).
    now apply (window_holds_near_lines pat lines n m gline). }
  split.
  - intros Ha Hg.
    erewrite new_issues_extend by apply adds_scan_security_test.
    unfold security_test_issues_in. apply (in_per_line _ _ n line); [exact Hn|].
    rewrite Ha, (W _ Hg). now left.
  - intros artifact Hin Ha Hg.
    erewrite new_issues_extend by apply adds_scan_tc_artifacts.
    unfold tc_artifact_issues_in. apply (in_per_line _ _ n line); [exact Hn|].
    apply in_flat_map. exists artifact. split; [exact Hin|].
    rewrite Ha, (W _ Hg). now left.
Qed.

(** * The migration file name *)

Lemma substring_all_prefix a b :
  Str.substring 0 (Str.length a) (a ++ b) = a.
Proof.
  induction a as [|c a IH]; simpl.
  - now destruct b.
  - now rewrite IH.
Qed.

Lemma substring_suffix a b :
  Str.substring (Str.length a) (Str.length b) (a ++ b) = b.
Proof.
  induction a as [|c a IH]; simpl; [|exact IH].
  induction b as [|c b IHb]; simpl; [reflexivity | now rewrite IHb].
Qed.

Lemma substring_split k s :
  (k <= Str.length s)%nat ->
  s = (Str.substring 0 k s
       ++ Str.substring k (Str.length s - k) s)%str.
Proof.
  revert k. induction s as [|c s IH]; intros k H.
  - simpl in H. assert (k = 0)%nat by lia. subst. reflexivity.
  - destruct k as [|k].
    + simpl. f_equal. clear. induction s as [|c s IH]; simpl; [reflexivity|].
      now rewrite <- IH.
    + simpl in H. simpl. f_equal. apply IH. lia.
Qed.

Lemma strip_suffix_app m suf : strip_suffix suf (m ++ suf) = Some m.
Proof.
  unfold strip_suffix. rewrite append_length.
  replace (Str.length m + Str.length suf - Str.length suf)%nat
    with (Str.length m) by lia.
  rewrite substring_suffix, string_eqb_refl, substring_all_prefix.
  replace (Str.length suf <=? Str.length m + Str.length suf)%nat with true
    by (symmetry; apply Nat.leb_le; lia).
  reflexivity.
Qed.

Lemma strip_suffix_some suf s m :
  strip_suffix suf s = Some m -> s = (m ++ suf)%str.
Proof.
  unfold strip_suffix.
  destruct (Nat.leb_spec (Str.length suf) (Str.length s)) as [L|L];
    [|discriminate]. simpl.
  destruct (string_eqb_spec
              (Str.substring (Str.length s - Str.length suf)
                                (Str.length suf) s) suf) as [E|N];
    [|discriminate].
  intros H. inversion H; subst m; clear H.
  rewrite (substring_split (Str.length s - Str.length suf) s) at 1 by lia.
  f_equal.
  replace (Str.length s - (Str.length s - Str.length suf))%nat
    with (Str.length suf) by lia.
  exact E.
Qed.

(** X15: an entry of [__root] counts as the events schema migration exactly
    when its name is [V0__], any text, [events], any text, [.sql], the five
    parts one after the other. *)
Theorem events_schema_glob :
  forall name : string,
    glob_events_schema name = true
    <-> exists a b, name = ("V0__" ++ a ++ "events" ++ b ++ ".sql")%str.
Proof.
  intros name. unfold glob_events_schema. split.
  - destruct (Str.strip_prefix "V0__" name) as [r|] eqn:P; [|discriminate].
    destruct (strip_suffix ".sql" r) as [mid|] eqn:S; [|discriminate].
    intros C. apply contains_iff in C as [a [b ->]].
    apply strip_prefix_some in P. apply strip_suffix_some in S.
    exists a, b. rewrite P, S. now rewrite !append_assoc.
  - intros [a [b ->]]. rewrite strip_prefix_app.
    replace (a ++ "events" ++ b ++ ".sql")%str
      with ((a ++ "events" ++ b) ++ ".sql")%str by now rewrite !append_assoc.
    rewrite strip_suffix_app. apply contains_iff. eauto.
Qed.

(** * A severity the report does not know *)

Lemma rsplit1_found sep s :
  sep <> "" -> Str.contains sep s = true -> rsplit1 sep s <> None.
Proof.
  intros Hsep. induction s as [|c s IH]; intros H.
  - rewrite contains_nil in H. apply prefix_iff in H as [r H].
    destruct sep; [contradiction | discriminate].
  - rewrite contains_cons in H. rewrite rsplit1_cons.
    destruct (rsplit1 sep s) as [[a b]|] eqn:R; [discriminate|].
    apply orb_true_iff in H as [H|H]; [|now apply IH in H].
    apply prefix_iff in H as [r H]. rewrite H, strip_prefix_app. discriminate.
Qed.

Lemma no_blank_tail c v :
  Str.contains " " (String c v) = false -> c <> 32%N /\ Str.contains " " v = false.
Proof.
  rewrite contains_cons. intros H. apply orb_false_iff in H as [H1 H2].
  split; [|exact H2]. intros E. subst c.
  assert (T : Str.prefix " " (String 32%N v) = true)
    by (apply prefix_iff; exists v; reflexivity).
  congruence.
Qed.

Lemma strip_prefix_first a p b s :
  a <> b -> Str.strip_prefix (String a p) (String b s) = None.
Proof.
  intros N. change (Str.strip_prefix (String a p) (String b s))
    with (if (a =? b)%N then Str.strip_prefix p s else None).
  apply N.eqb_neq in N. now rewrite N.
Qed.

Lemma strip_prefix_step a p s :
  Str.strip_prefix (String a p) (String a s) = Str.strip_prefix p s.
Proof.
  change (Str.strip_prefix (String a p) (String a s))
    with (if (a =? a)%N then Str.strip_prefix p s else None).
  now rewrite N.eqb_refl.
Qed.

Lemma rsplit1_no_blank v : Str.contains " " v = false -> rsplit1 " - " v = None.
Proof.
  induction v as [|c v IH]; intros H; [reflexivity|].
  apply no_blank_tail in H as [Hc H]. rewrite rsplit1_cons, (IH H).
  rewrite strip_prefix_first by congruence. reflexivity.
Qed.

Lemma strip_dash_blank_no_blank v :
  Str.contains " " v = false -> Str.strip_prefix "- " v = None.
Proof.
  intros H. destruct v as [|c1 v]; [reflexivity|].
  apply no_blank_tail in H as [_ H].
  destruct (N.eq_dec 45%N c1) as [<-|N]; [|now apply strip_prefix_first].
  rewrite strip_prefix_step. destruct v as [|c2 v]; [reflexivity|].
  apply no_blank_tail in H as [H _]. apply strip_prefix_first. congruence.
Qed.

Lemma rsplit1_key_no_blank c v :
  Str.contains " " v = false -> rsplit1 " - " (pair_key (c, v)) = Some (c, v).
Proof.
  intros H. unfold pair_key. simpl fst. simpl snd.
  induction c as [|a c IH].
  - change ("" ++ " - " ++ v)%str with (String 32%N (String 45%N (String 32%N v))).
    assert (U : rsplit1 " - " (String 32%N v) = None).
    { rewrite rsplit1_cons, (rsplit1_no_blank v H), strip_prefix_step.
      now rewrite (strip_dash_blank_no_blank v H). }
    assert (T : rsplit1 " - " (String 45%N (String 32%N v)) = None).
    { rewrite rsplit1_cons, U. now rewrite strip_prefix_first by discriminate. }
    rewrite rsplit1_cons, T, !strip_prefix_step. now destruct v.
  - change ((String a c ++ " - " ++ v)%str) with (String a (c ++ " - " ++ v)).
    now rewrite rsplit1_cons, IH.
Qed.

Lemma severity_icon_none v :
  ~ (v = "CRITICAL" \/ v = "WARNING" \/ v = "INFO") -> severity_icon v = None.
Proof.
  intros H. unfold severity_icon.
  destruct (string_eqb_spec v "CRITICAL"); [tauto|].
  destruct (string_eqb_spec v "WARNING"); [tauto|].
  destruct (string_eqb_spec v "INFO"); [tauto | reflexivity].
Qed.

Lemma group_members all i :
  In i all ->
  dict_get (group_key i) (issues_by_category all)
  = Some (filter (fun j => (group_key j =? group_key i)%str) all).
Proof.
  intros Hi. change (issues_by_category all) with (grouped [] all).
  rewrite (dict_get_grouped (group_key i) all []). simpl dict_get. unfold joined.
  destruct (filter (fun j => (group_key j =? group_key i)%str) all) eqn:F;
    [|reflexivity].
  assert (In i []); [|contradiction].
  rewrite <- F. apply filter_In. split; [exact Hi | apply string_eqb_refl].
Qed.

(** The block of a group is printed, or the icon of its severity is
    missing. *)
Lemma print_group_outcome all k s :
  In k (sorted_keys all) ->
  (exists out, print_group (issues_by_category all) k s = Returned tt (extend s [] out))
  \/ key_error (print_group (issues_by_category all) k s).
Proof.
  intros Hk. apply report_keys in Hk as [i [Hi <-]].
  unfold print_group, bind, subscript. rewrite (group_members all i Hi). unfold ret.
  destruct (rsplit1 " - " (group_key i)) as [[cat sev]|] eqn:R.
  2:{ exfalso. revert R. apply rsplit1_found; [discriminate|].
      apply contains_iff. exists (category i), (severity i). reflexivity. }
  destruct (severity_icon sev) as [icon|].
  - left. rewrite !print_extend.
    rewrite (prints_for _ print_issue issue_lines)
      by (intros; apply prints_print_issue).
    rewrite !extend_extend. eauto.
  - right. exists sev, s. reflexivity.
Qed.

Lemma print_group_fails all i s :
  In i all -> ~ valid_severity i -> Str.contains " " (severity i) = false ->
  key_error (print_group (issues_by_category all) (group_key i) s).
Proof.
  intros Hi Hv Hb. unfold print_group, bind, subscript.
  rewrite (group_members all i Hi). unfold ret.
  rewrite group_key_pair, (rsplit1_key_no_blank _ _ Hb).
  rewrite (severity_icon_none _ Hv). exists (severity i), s. reflexivity.
Qed.

Lemma for_key_error {A} (xs : list A) (body : A -> M unit) bad :
  In bad xs ->
  (forall x s, In x xs ->
     (exists out, body x s = Returned tt (extend s [] out)) \/ key_error (body x s)) ->
  (forall s, key_error (body bad s)) ->
  forall s, key_error (for_ xs body s).
Proof.
  induction xs as [|x xs IH]; intros Hin Hall Hbad s; [contradiction|].
  simpl. unfold bind.
  destruct (Hall x s (or_introl eq_refl)) as [[out E]|[key [s' E]]].
  - rewrite E. destruct Hin as [->|Hin].
    + destruct (Hbad s) as [key [s' E']]. congruence.
    + apply IH; auto. intros y s0 Hy. apply Hall. now right.
  - rewrite E. exists key, s'. reflexivity.
Qed.

(** X16: an issue whose severity is none of CRITICAL, WARNING and INFO (and
    holds no blank) makes [print_report] fail with a [KeyError], after the
    banner and the summary. *)
Theorem unknown_severity_fails_report :
  forall (s : State) (i : Issue),
    In i (issues (result s)) ->
    ~ valid_severity i ->
    Str.contains " " (severity i) = false ->
    exists key out,
      print_report s
      = Raised ("KeyError: " ++ key)%str
          (extend s []
             (banner_lines
              ++ summary_lines (number_of "CRITICAL" (issues (result s)))
                   (number_of "WARNING" (issues (result s)))
                   (number_of "INFO" (issues (result s)))
                   (List.length (issues (result s)))
              ++ out)).
Proof.
  intros s i Hi Hv Hb. unfold print_report, bind, get_result.
  rewrite !print_extend, !extend_extend. rewrite !issues_extend.
  rewrite !app_nil_l, !app_nil_r.
  set (all := issues (result s)) in *.
  destruct all as [|i0 rest] eqn:E; [contradiction|]. rewrite <- E.
  rewrite prints_print_summary, extend_extend.
  change (sorted (map fst (issues_by_category all))) with (sorted_keys all).
  assert (K : key_error
                (for_ (sorted_keys all) (print_group (issues_by_category all))
                   (extend s ([] ++ [])
                      (([Str.nl] ++ [rule80 "="] ++ ["MIGRATION SCAN REPORT"]
                        ++ [rule80 "="])
                       ++ summary_lines (number_of "CRITICAL" all)
                            (number_of "WARNING" all) (number_of "INFO" all)
                            (List.length all))))).
  { apply (for_key_error _ _ (group_key i)).
    - apply report_keys. exists i. rewrite E. auto.
    - intros k s0 Hk. now apply print_group_outcome.
    - intros s0. apply print_group_fails; [rewrite E; exact Hi | exact Hv | exact Hb]. }
  destruct K as [key [s' K]]. rewrite K.
  destruct (only_prints_for (sorted_keys all) (print_group (issues_by_category all))
              (fun k => only_prints_print_group _ k)
              (extend s ([] ++ [])
                 (([Str.nl] ++ [rule80 "="] ++ ["MIGRATION SCAN REPORT"]
                   ++ [rule80 "="])
                  ++ summary_lines (number_of "CRITICAL" all)
                       (number_of "WARNING" all) (number_of "INFO" all)
                       (List.length all)))) as [out O].
  rewrite K in O. simpl in O. subst s'. rewrite extend_extend.
  exists key, out. reflexivity.
Qed.

Lemma unknown_severity_fails_report_witness :
  exists key out,
    print_report state_with_unknown_severity
    = Raised ("KeyError: " ++ key)%str
        (extend state_with_unknown_severity []
           (banner_lines ++ summary_lines 1 0 0 2 ++ out)).
Proof.
  apply (unknown_severity_fails_report state_with_unknown_severity
           (mkIssue "Custom" "ERROR" "pom.xml" 1 "x" "y")).
  - right. left. reflexivity.
  - unfold valid_severity. simpl. intros [H|[H|H]]; discriminate.
  - reflexivity.
Defined.

(** * Witnesses *)

Lemma group_absent_no_context_issue_witness :
  new_issues (scan_tc_artifacts "demo/pom.xml" (Str.split_nl pom_with_boot_123))
             initial_state = [].
Proof.
  apply (proj2 (group_absent_no_context_issue "demo/pom.xml" pom_with_boot_123
                  initial_state)).
  reflexivity.
Defined.

Lemma endpoint_override_needs_both_witness :
  filter (localstack_api_at 1) (new_issues (_scan_java_file localstack_test) initial_state)
  = [mkIssue "Testcontainers 2.x - LocalStack API" "CRITICAL"
       "src/test/java/S3Test.java" 1
       "getEndpointOverride(Service) deprecated" "Change to: getEndpoint()"]
  /\ filter (localstack_api_at 2)
       (new_issues (_scan_java_file localstack_test) initial_state) = [].
Proof.
  split.
  - refine (proj1 (endpoint_override_needs_both localstack_test _ 0 _ initial_state
                     eq_refl eq_refl) _ _); reflexivity.
  - refine (proj1 (proj2 (endpoint_override_needs_both localstack_test _ 1 _
                            initial_state eq_refl eq_refl)) _); reflexivity.
Defined.

Lemma source_issues_invariant_witness :
  Forall (fun x => file_path x = "src/test/java/OrderTest.java"
                   /\ 1 <= line_number x <= 4
                   /\ valid_severity x)
         (new_issues (_scan_java_file test_with_mockbean) initial_state).
Proof.
  exact (source_issues_invariant test_with_mockbean _ initial_state eq_refl).
Defined.

Lemma source_order_permutes_issues_witness :
  Permutation
    (issues (result (state_of (scan (with_sources project_with_two_sources
                                       [javadoc_naming_both; test_with_mockbean])
                                    initial_state))))
    (issues (result (state_of (scan (with_sources project_with_two_sources
                                       [test_with_mockbean; javadoc_naming_both])
                                    initial_state)))).
Proof.
  apply source_order_permutes_issues. apply perm_swap.
Defined.

Lemma unreadable_source_as_if_absent_witness :
  result (state_of (scan project_with_unreadable_source initial_state))
  = result (state_of (scan (delete_file (SourceFile 0) project_with_unreadable_source)
                           initial_state)).
Proof.
  exact (unreadable_source_as_if_absent project_with_unreadable_source 0
           (mkJavaFile "demo/src/Broken.java" "src/Broken.java"
              (Unreadable "'utf-8' codec can't decode byte 0xff"))
           "'utf-8' codec can't decode byte 0xff" initial_state
           eq_refl eq_refl).
Defined.

Lemma group_within_two_lines_is_seen_witness :
  In (mkIssue "Spring Boot 4 - Dependencies" "CRITICAL" "demo/pom.xml" 3
        "Old spring-security-test dependency"
        "Change to: spring-boot-starter-security-test")
     (new_issues (scan_security_test "demo/pom.xml" pom_lines_security_test)
                 initial_state).
Proof.
  refine (proj1 (group_within_two_lines_is_seen "demo/pom.xml"
                   pom_lines_security_test 2 1 _ _ initial_state
                   eq_refl eq_refl _) _ _).
  - vm_compute. discriminate.
  - reflexivity.
  - reflexivity.
Defined.

(** * The lines of the build descriptor *)

(** X17: splitting the build descriptor into lines loses nothing: the lines
    joined with newlines are the text again, there is at least one line and
    no line holds a newline. *)
Theorem descriptor_lines_round_trip :
  forall content : string,
    Str.join_nl (Str.split_nl content) = content
    /\ Str.split_nl content <> []
    /\ Forall (fun l => has_char 10%N l = false) (Str.split_nl content).
Proof.
  intros content.
  split; [apply join_split_nl|].
  split; [apply split_nl_not_nil | apply split_nl_no_newline].
Qed.

(** * A project without a build descriptor *)

(** X18: without [pom.xml] nothing is detected: the scan leaves the three
    versions at ["Unknown"], and its result holds the issues of the source
    files followed by those of the configuration files, none of them
    file-level, the migration check adding nothing. *)
Theorem scan_without_pom :
  forall p : Project,
    pom p = None ->
    let r := result (state_of (scan p initial_state)) in
    (forall f, get_version f r = Unknown)
    /\ issues r = new_issues (_scan_java_files p) initial_state
                  ++ new_issues (_scan_properties p) initial_state
    /\ Forall on_a_line (issues r).
Proof.
  intros p H r. subst r.
  rewrite (scan_returns p initial_state)
    by (intros e; rewrite H; discriminate).
  simpl state_of.
  erewrite !new_issues_extend
    by (apply emits_scan_java_files || apply emits_scan_properties).
  assert (Dn : after_descriptor p initial_state
               = extend (extend initial_state []
                           [("Scanning project: " ++ project_path p)%str; rule80 "="])
                   [] ["⚠️  Warning: pom.xml not found (Maven project expected)"])
    by (unfold after_descriptor; now rewrite H).
  assert (F : flyway_issues p false = []).
  { unfold flyway_issues. destruct (migration p) as [[names|]|]; try reflexivity.
    now destruct (filter glob_events_schema names). }
  assert (I : issues (result (after_scan p initial_state))
              = java_files_issues p ++ properties_issues p false).
  { unfold after_scan. cbv zeta. rewrite Dn, !extend_extend, issues_extend.
    change (modulith_detected (result (extend initial_state ([] ++ []) _)))
      with false.
    now rewrite F, app_nil_r. }
  split; [|split; [exact I|]].
  - intros f. rewrite get_version_after_scan. unfold detected_version.
    rewrite H. now destruct f.
  - rewrite I. apply Forall_app. split; [apply java_files_issues_on_lines|].
    unfold properties_issues. apply Forall_flat_map, Forall_forall.
    intros [rel found] _. unfold config_file_issues.
    destruct found as [f|]; [|constructor].
    destruct (config_lines f); [|constructor].
    unfold config_lines_issues. simpl. rewrite app_nil_r.
    apply jackson_prop_issues_on_lines.
Qed.

Lemma scan_without_pom_witness :
  spring_modulith_version
    (result (state_of (scan project_without_pom initial_state))) = Unknown
  /\ Forall on_a_line
       (issues (result (state_of (scan project_without_pom initial_state)))).
Proof.
  destruct (scan_without_pom project_without_pom eq_refl) as [V [_ L]].
  split; [exact (V SpringModulith) | exact L].
Defined.

(** * Scanning twice with one scanner *)

Lemma issues_after_descriptor p s :
  issues (result (after_descriptor p s)) = issues (result s) ++ descriptor_issues p.
Proof.
  unfold after_descriptor, after_pom, descriptor_issues. cbv zeta.
  destruct (pom p) as [[c|e]|];
    rewrite ?issues_extend, ?issues_apply_writes, ?issues_extend, ?app_nil_r;
    reflexivity.
Qed.

Lemma issues_after_scan p s :
  issues (result (after_scan p s))
  = issues (result s) ++ descriptor_issues p
    ++ java_files_issues p
    ++ properties_issues p (modulith_detected (result (after_descriptor p s)))
    ++ flyway_issues p (modulith_detected (result (after_descriptor p s))).
Proof.
  unfold after_scan. cbv zeta.
  now rewrite issues_extend, issues_after_descriptor, <- !app_assoc.
Qed.

Lemma detected_after_scan p s :
  modulith_detected (result (after_scan p s))
  = modulith_detected (result (after_descriptor p s)).
Proof. reflexivity. Qed.

(** X19: a scanner accumulates: a second [scan] of the same project with the
    same scanner adds every issue of the first scan once more, in the same
    order. *)
Theorem second_scan_repeats_issues :
  forall p : Project,
    let once := state_of (scan p initial_state) in
    issues (result (state_of (scan p once)))
    = issues (result once) ++ issues (result once).
Proof.
  intros p once. subst once. rewrite !scan_final_state.
  destruct (pom p) as [[c|e]|] eqn:E.
  2:{ rewrite !issues_after_descriptor. unfold descriptor_issues. now rewrite E. }
  all: rewrite (issues_after_scan p (after_scan p initial_state));
    rewrite (issues_after_scan p initial_state);
    rewrite !detected_after_descriptor, detected_after_scan,
      detected_after_descriptor;
    destruct (detected_version p SpringModulith); reflexivity.
Qed.

(** * Categories, severities and file-level issues *)

Ltac shape_step :=
  unfold issue_shape; split; [reflexivity | simpl; lia].

Lemma pom_issues_shape path lines : Forall issue_shape (pom_issues path lines).
Proof.
  unfold pom_issues, old_starter_issues, security_test_issues_in,
    tc_artifact_issues_in.
  each_issue; shape_step.
Qed.

Lemma java_files_issues_shape p : Forall issue_shape (java_files_issues p).
Proof.
  unfold java_files_issues. apply Forall_flat_map, Forall_forall. intros f _.
  unfold java_file_issues. destruct (java_lines f); [|constructor].
  unfold java_lines_issues, test_annotation_issues, old_import_issues,
    tc_old_import_issues, localstack_service_issues, resilience_issues,
    retryable_issues, jackson2_issues, generic_container_issues,
    endpoint_override_issues.
  each_issue; shape_step.
Qed.

Lemma properties_issues_shape p d : Forall issue_shape (properties_issues p d).
Proof.
  unfold properties_issues. apply Forall_flat_map, Forall_forall.
  intros [rel found] _. unfold config_file_issues.
  destruct found as [f|]; [|constructor].
  destruct (config_lines f); [|constructor].
  unfold config_lines_issues, jackson_prop_issues.
  each_issue; shape_step.
Qed.

Lemma flyway_issues_shape p d : Forall issue_shape (flyway_issues p d).
Proof.
  unfold flyway_issues. destruct (migration p) as [[names|]|]; [| |constructor].
  - destruct (filter glob_events_schema names); [|constructor].
    destruct d; constructor; [shape_step | constructor].
  - destruct d; constructor; [shape_step | constructor].
Qed.

(** Every issue of a scan has the shape the checks give it. *)
Lemma scan_issues_shape p :
  Forall issue_shape (issues (result (state_of (scan p initial_state)))).
Proof.
  rewrite scan_final_state.
  assert (D : Forall issue_shape (descriptor_issues p)).
  { unfold descriptor_issues. destruct (pom p) as [[c|e]|]; try constructor.
    apply pom_issues_shape. }
  assert (R : Forall issue_shape (issues (result (after_scan p initial_state)))).
  { rewrite issues_after_scan.
    change (issues (result initial_state)) with (@nil Issue).
    apply Forall_app. split; [constructor|].
    apply Forall_app. split; [exact D|].
    apply Forall_app. split; [apply java_files_issues_shape|].
    apply Forall_app. split;
      [apply properties_issues_shape | apply flyway_issues_shape]. }
  destruct (pom p) as [[c|e]|] eqn:E; try exact R.
  rewrite issues_after_descriptor.
  apply Forall_app. split; [constructor | exact D].
Qed.

(** X20: among the issues of a scan the category fixes the severity: two
    issues of one category have the same severity, so that the report, which
    groups by category and severity, shows every category once. *)
Theorem category_fixes_severity :
  forall (p : Project) (i j : Issue),
    In i (issues (result (state_of (scan p initial_state)))) ->
    In j (issues (result (state_of (scan p initial_state)))) ->
    category i = category j ->
    severity i = severity j /\ group_key i = group_key j.
Proof.
  intros p i j Hi Hj E.
  pose proof (scan_issues_shape p) as F. rewrite Forall_forall in F.
  destruct (F i Hi) as [Si _]. destruct (F j Hj) as [Sj _].
  rewrite E in Si. rewrite Si in Sj. injection Sj as S.
  split; [exact S|]. unfold group_key. now rewrite E, S.
Qed.

Lemma category_fixes_severity_witness :
  severity (mkIssue "Spring Boot 4 - Test Annotations" "CRITICAL"
              "src/test/java/DemoTest.java" 2
              "Old test annotation: @SpyBean" "Change to: @MockitoSpyBean")
  = severity (mkIssue "Spring Boot 4 - Test Annotations" "CRITICAL"
                "src/test/java/OrderTest.java" 2
                "Old test annotation: @MockBean" "Change to: @MockitoBean").
Proof.
  refine (proj1 (category_fixes_severity project_with_two_sources
                   (mkIssue "Spring Boot 4 - Test Annotations" "CRITICAL"
                      "src/test/java/DemoTest.java" 2
                      "Old test annotation: @SpyBean" "Change to: @MockitoSpyBean")
                   (mkIssue "Spring Boot 4 - Test Annotations" "CRITICAL"
                      "src/test/java/OrderTest.java" 2
                      "Old test annotation: @MockBean" "Change to: @MockitoBean")
                   _ _ eq_refl)).
  - vm_compute. right. left. reflexivity.
  - vm_compute. right. right. left. reflexivity.
Defined.

(** X21: an issue of a scan is file-level (line 0) exactly when its category
    is one of the modularity framework; every other issue bears a line
    number from 1 on. *)
Theorem file_level_iff_modulith_category :
  forall (p : Project) (i : Issue),
    In i (issues (result (state_of (scan p initial_state)))) ->
    (line_number i = 0
     <-> Str.startswith (category i) "Spring Modulith 2.0" = true)
    /\ 0 <= line_number i.
Proof.
  intros p i Hi.
  pose proof (scan_issues_shape p) as F. rewrite Forall_forall in F.
  destruct (F i Hi) as [_ L].
  destruct (Str.startswith (category i) "Spring Modulith 2.0").
  - split; [split; auto | lia].
  - split; [split; [lia | discriminate] | lia].
Qed.

Lemma file_level_iff_modulith_category_witness :
  line_number (missing_schema_key_issue application_properties_rel) = 0
  <-> Str.startswith
        (category (missing_schema_key_issue application_properties_rel))
        "Spring Modulith 2.0" = true.
Proof.
  refine (proj1 (file_level_iff_modulith_category project_with_properties
                   (missing_schema_key_issue application_properties_rel) _)).
  vm_compute. left. reflexivity.
Defined.
